(** * pympress: the laser pointer and the video overlay

    A shallow embedding of [pympress/pointer.py] (class [Pointer]) and of
    [pympress/media_overlays/base.py] (class [VideoOverlay]).

    Python values are represented as the interpreter has them: an [int] is a
    [Z], a [float] is a binary64 number (Rocq's primitive [float], specified by
    [SpecFloat]), a [str] is the [string] of its UTF-8 bytes.  A method that
    mutates [self] becomes a function from the object's state to an outcome
    holding the state the method leaves behind, the calls it made to the
    toolkit, and either the returned value or the exception raised. *)

From Stdlib Require Import ZArith List String Ascii Bool Lia.
From Stdlib Require Import Floats DecimalString DecimalPos.
Import ListNotations.

Local Open Scope string_scope.
Local Open Scope Z_scope.

(** ** Python builtins used by the two classes *)

Module Py.

(** The module starts with [from __future__ import print_function,
    unicode_literals]: it runs under Python 2 and under Python 3.  The only
    builtin used here whose result differs between the two is [round]. *)
Inductive Version := Py2 | Py3.

Inductive exn :=
| ValueError
| OverflowError
| ZeroDivisionError
| IndexError
| AssertionError
| NotImplementedError
| GLibError
| NotModelled.

Inductive result (A : Type) :=
| Ok (a : A)
| Err (e : exn).
Arguments Ok {A} a.
Arguments Err {A} e.

Definition rbind {A B} (r : result A) (k : A -> result B) : result B :=
  match r with
  | Ok a => k a
  | Err e => Err e
  end.

(** [m * 2^e] rounded to an integer, for a negative exponent: the tie goes
    away from zero in Python 2 and to the even neighbour in Python 3. *)
Definition round_mantissa (v : Version) (m : positive) (e : Z) : Z :=
  match e with
  | Zneg p =>
      let d := 2 ^ Zpos p in
      let q := Zpos m / d in
      let r := Zpos m mod d in
      match 2 * r ?= d with
      | Lt => q
      | Gt => q + 1
      | Eq => match v with
              | Py2 => q + 1
              | Py3 => if Z.even q then q else q + 1
              end
      end
  | _ => Zpos m * 2 ^ e
  end.

(** [int(round(x))] for a float [x]: [OverflowError] on an infinity and
    [ValueError] on a NaN, in both versions. *)
Definition int_round (v : Version) (x : float) : result Z :=
  match Prim2SF x with
  | S754_zero _ => Ok 0
  | S754_finite s m e =>
      let n := round_mantissa v m e in
      Ok (if s then - n else n)
  | S754_infinity _ => Err OverflowError
  | S754_nan => Err ValueError
  end.

(** [divmod(a, b)] on ints, for [b > 0]: floor division and a remainder
    with the sign of [b]. *)
Definition divmod (a b : Z) : Z * Z := (a / b, a mod b).

(** [float(n)] for an int [n], as the true division of a float by an int
    performs it: the nearest binary64 number, [OverflowError] when it is
    out of range. *)
Definition float_of_int (n : Z) : result float :=
  match binary_normalize prec emax n 0 false with
  | S754_infinity _ => Err OverflowError
  | sf => Ok (SF2Prim sf)
  end.

(** [x / n] for a float [x] and an int [n]. *)
Definition truediv (x : float) (n : Z) : result float :=
  if n =? 0 then Err ZeroDivisionError
  else rbind (float_of_int n) (fun d => Ok (x / d)%float).

(** [n * x] for an int [n] and a float [x]. *)
Definition mul_int (n : Z) (x : float) : result float :=
  rbind (float_of_int n) (fun f => Ok (f * x)%float).

(** [min(a, b)] and [min(iterable)]: the running minimum is replaced only
    by an item that compares strictly below it. *)
Definition min2 (a b : float) : float :=
  if (b <? a)%float then b else a.

Definition min_of (first : float) (rest : list float) : float :=
  fold_left min2 rest first.

(** *** [str.format] *)

Definition decimal (n : Z) : string :=
  NilEmpty.string_of_uint (N.to_uint (Z.abs_N n)).

Fixpoint replicate (n : nat) (c : ascii) : string :=
  match n with
  | O => ""
  | S k => String c (replicate k c)
  end.

Definition pad_left (c : ascii) (width : nat) (s : string) : string :=
  replicate (width - String.length s) c ++ s.

(** An int under the format spec [0<width>]: zeros between the sign and
    the digits. *)
Definition format_zero (width : nat) (n : Z) : string :=
  if n <? 0 then String "-" (pad_left "0" (width - 1) (decimal n))
  else pad_left "0" width (decimal n).

(** An int under the format spec [<width>] (or the empty spec):
    right-aligned with spaces. *)
Definition format_plain (width : nat) (n : Z) : string :=
  pad_left " " width (if n <? 0 then String "-" (decimal n) else decimal n).

Definition digit_value (c : ascii) : option nat :=
  let n := nat_of_ascii c in
  if ((48 <=? n) && (n <=? 57))%nat then Some (n - 48)%nat else None.

Fixpoint parse_width (acc : nat) (s : string) : option nat :=
  match s with
  | "" => Some acc
  | String c r =>
      match digit_value c with
      | Some d => parse_width (10 * acc + d) r
      | None => None
      end
  end.

(** The format specs of the fragment: an optional [0] flag, then a width. *)
Definition format_field (spec : string) (n : Z) : result string :=
  match spec with
  | String "0" w =>
      match parse_width 0 w with
      | Some width => Ok (format_zero width n)
      | None => Err NotModelled
      end
  | _ =>
      match parse_width 0 spec with
      | Some width => Ok (format_plain width n)
      | None => Err NotModelled
      end
  end.

(** The scanner of [str.format]: in running text, after an opening brace,
    after a closing brace, or inside the spec of a replacement field. *)
Inductive scan :=
| Text
| Opened
| Closed
| Spec (spec : string).

Definition emit (c : ascii) (r : result string) : result string :=
  rbind r (fun s => Ok (String c s)).

Definition emit_str (p : string) (r : result string) : result string :=
  rbind r (fun s => Ok (p ++ s)).

(** [fmt.format] applied to int arguments.  Doubled braces are literal
    braces; [{}] and [{:spec}] take the next argument; a lone closing
    brace or an unterminated field is a [ValueError], a missing argument
    an [IndexError].  Named or numbered fields and conversions are outside
    the fragment. *)
Fixpoint format_from (st : scan) (fmt : string) (args : list Z)
  : result string :=
  match fmt with
  | "" =>
      match st with
      | Text => Ok ""
      | _ => Err ValueError
      end
  | String c r =>
      match st with
      | Text =>
          if Ascii.eqb c "{" then format_from Opened r args
          else if Ascii.eqb c "}" then format_from Closed r args
          else emit c (format_from Text r args)
      | Opened =>
          if Ascii.eqb c "{" then emit "{" (format_from Text r args)
          else if Ascii.eqb c ":" then format_from (Spec "") r args
          else if Ascii.eqb c "}" then
            match args with
            | a :: args' =>
                rbind (format_field "" a)
                      (fun s => emit_str s (format_from Text r args'))
            | [] => Err IndexError
            end
          else Err NotModelled
      | Closed =>
          if Ascii.eqb c "}" then emit "}" (format_from Text r args)
          else Err ValueError
      | Spec spec =>
          if Ascii.eqb c "}" then
            match args with
            | a :: args' =>
                rbind (format_field spec a)
                      (fun s => emit_str s (format_from Text r args'))
            | [] => Err IndexError
            end
          else if Ascii.eqb c "{" then Err NotModelled
          else format_from (Spec (spec ++ String c "")) r args
      end
  end.

Definition format (fmt : string) (args : list Z) : result string :=
  format_from Text fmt args.

End Py.

(** ** Methods as state transformers

    A method runs on the state of [self] and leaves an outcome: the state
    after the last statement executed, the calls made to the toolkit in
    program order, and the value returned or the exception raised.  An
    exception keeps the assignments made before it. *)

Module Run.

Section Outcome.
Context {S C : Type}.

Record outcome (A : Type) := Outcome {
  final : S;
  calls : list C;
  value : Py.result A
}.
Arguments Outcome {A}.
Arguments final {A}.
Arguments calls {A}.
Arguments value {A}.

Definition M (A : Type) := S -> outcome A.

Definition ret {A} (a : A) : M A :=
  fun s => Outcome s [] (Py.Ok a).

Definition raise {A} (e : Py.exn) : M A :=
  fun s => Outcome s [] (Py.Err e).

Definition bind {A B} (m : M A) (k : A -> M B) : M B :=
  fun s =>
    let o := m s in
    match value o with
    | Py.Ok a =>
        let o' := k a (final o) in
        Outcome (final o') (calls o ++ calls o') (value o')
    | Py.Err e => Outcome (final o) (calls o) (Py.Err e)
    end.

Definition get : M S :=
  fun s => Outcome s [] (Py.Ok s).

Definition modify (f : S -> S) : M unit :=
  fun s => Outcome (f s) [] (Py.Ok tt).

Definition call (c : C) : M unit :=
  fun s => Outcome s [c] (Py.Ok tt).

Definition lift {A} (r : Py.result A) : M A :=
  fun s => Outcome s [] r.
End Outcome.

Arguments outcome : clear implicits.
Arguments M : clear implicits.
Arguments Outcome {S C A}.
Arguments final {S C A}.
Arguments calls {S C A}.
Arguments value {S C A}.

Declare Scope run_scope.
Delimit Scope run_scope with run.
Notation "x <- m ;; k" := (bind m (fun x => k))
  (at level 61, m at next level, right associativity) : run_scope.
Notation "m ;; k" := (bind m (fun _ => k))
  (at level 61, right associativity) : run_scope.

End Run.

(** ** The toolkit, as far as the two classes look at it *)

Module Gdk.
(** [Gdk.EventType] members, by their values. *)
Definition MOTION_NOTIFY : Z := 3.
Definition BUTTON_PRESS : Z := 4.
Definition BUTTON_RELEASE : Z := 7.

(** [Gdk.ModifierType.CONTROL_MASK] is [1 << 2]. *)
Definition CONTROL_MASK : Z := 4.

Record Event := {
  type : Z;
  get_state : Z;
  get_coords : float * float
}.
End Gdk.

Module Gtk.
(** A widget: its name, its allocation, and whether it is realized
    ([get_window()] is not [None]). *)
Record Widget := {
  get_name : string;
  get_allocated_width : Z;
  get_allocated_height : Z;
  get_window : bool
}.

(** What the toolkit guarantees of an allocation: it is at least 1x1
    ([gtk_widget_size_allocate] clamps it) and its sides are C ints. *)
Definition allocated (w : Widget) : Prop :=
  1 <= get_allocated_width w <= 2147483647 /\
  1 <= get_allocated_height w <= 2147483647.

Record RadioMenuItem := {
  item_name : string;
  get_active : bool
}.
End Gtk.

Module GdkPixbuf.
Record Pixbuf := {
  file : option string;
  get_width : Z;
  get_height : Z
}.

(** [GdkPixbuf.Pixbuf()] *)
Definition empty : Pixbuf :=
  {| file := None; get_width := 0; get_height := 0 |}.
End GdkPixbuf.

(** ** [pympress/pointer.py] *)

Module Pointer.
Import Run.
Local Open Scope run_scope.

Definition POINTER_HIDE : Z := 0.
Definition POINTER_SHOW : Z := 1.

Definition POINTERMODE_CONTINEOUS : Z := 1.
Definition POINTERMODE_MANUAL : Z := 0.
Definition POINTERMODE_DISABLED : Z := -1.

Record t := {
  pointer : GdkPixbuf.Pixbuf;
  pointer_pos : float * float;
  show_pointer : Z;
  pointer_mode : Z;
  p_da_cur : Gtk.Widget
}.

Definition set_pointer (v : GdkPixbuf.Pixbuf) (self : t) : t :=
  {| pointer := v; pointer_pos := pointer_pos self;
     show_pointer := show_pointer self; pointer_mode := pointer_mode self;
     p_da_cur := p_da_cur self |}.

Definition set_pointer_pos (v : float * float) (self : t) : t :=
  {| pointer := pointer self; pointer_pos := v;
     show_pointer := show_pointer self; pointer_mode := pointer_mode self;
     p_da_cur := p_da_cur self |}.

Definition set_show_pointer (v : Z) (self : t) : t :=
  {| pointer := pointer self; pointer_pos := pointer_pos self;
     show_pointer := v; pointer_mode := pointer_mode self;
     p_da_cur := p_da_cur self |}.

Definition set_pointer_mode (v : Z) (self : t) : t :=
  {| pointer := pointer self; pointer_pos := pointer_pos self;
     show_pointer := show_pointer self; pointer_mode := v;
     p_da_cur := p_da_cur self |}.

(** The calls the class makes outside itself. *)
Inductive action :=
| set_cursor (widget : Gtk.Widget) (cursor_name : string)
| redraw_current_slide
| config_set (section key value : string)
| radio_init (radio_name : string) (active : bool)
| cairo_set_source_pixbuf (pixbuf : GdkPixbuf.Pixbuf) (x y : float)
| paint.

Definition method (A : Type) := M t action A.

(** The class attributes, with the widget that [builder.load_widgets]
    stores in [p_da_cur]. *)
Definition class_defaults (p_da_cur : Gtk.Widget) : t :=
  {| pointer := GdkPixbuf.empty;
     pointer_pos := (0.5, 0.5)%float;
     show_pointer := POINTER_HIDE;
     pointer_mode := POINTERMODE_MANUAL;
     p_da_cur := p_da_cur |}.

Definition icon_names : list string :=
  ["pointer_red"; "pointer_green"; "pointer_blue"].

Definition name_in (name : string) (names : list string) : bool :=
  existsb (String.eqb name) names.

(** [mode == s] for an argument that is a [str] or [None]. *)
Definition mode_is (mode : option string) (s : string) : bool :=
  match mode with
  | Some m => String.eqb m s
  | None => false
  end.

(** [name[len(p):]] *)
Definition drop_prefix (p name : string) : string :=
  substring (String.length p) (String.length name - String.length p) name.

Section Assets.
(** [util.get_icon_path] and [GdkPixbuf.Pixbuf.new_from_file] are not
    part of the two files: the path of an icon, and the image found at a
    path ([None] when the loader raises its [GLib.Error]). *)
Variable get_icon_path : string -> string.
Variable new_from_file : string -> option GdkPixbuf.Pixbuf.

Definition load_pointer (name : string) : method unit :=
  if name_in name icon_names then
    match new_from_file (get_icon_path (name ++ ".png")) with
    | Some pixbuf => modify (set_pointer pixbuf)
    | None => raise Py.GLibError
    end
  else raise Py.ValueError.

Definition change_pointer (widget : Gtk.RadioMenuItem) : method unit :=
  if Gtk.get_active widget then
    if prefix "pointer_" (Gtk.item_name widget) then
      load_pointer (Gtk.item_name widget) ;;
      call (config_set "presenter" "pointer"
              (drop_prefix "pointer_" (Gtk.item_name widget)))
    else raise Py.AssertionError
  else ret tt.
End Assets.

Definition activate_pointermode (mode : option string) : method unit :=
  (if mode_is mode "continous" then
     modify (set_show_pointer POINTER_SHOW) ;;
     modify (set_pointer_mode POINTERMODE_CONTINEOUS)
   else if mode_is mode "manual" then
     modify (set_show_pointer POINTER_HIDE) ;;
     modify (set_pointer_mode POINTERMODE_MANUAL)
   else if mode_is mode "none" then
     modify (set_show_pointer POINTER_HIDE) ;;
     modify (set_pointer_mode POINTERMODE_DISABLED)
   else ret tt) ;;
  self <- get ;;
  if Gtk.get_window (p_da_cur self) then
    (if pointer_mode self =? POINTERMODE_CONTINEOUS then
       call (set_cursor (p_da_cur self) "invisible")
     else
       call (set_cursor (p_da_cur self) "parent")) ;;
    call redraw_current_slide
  else ret tt.

Definition change_pointermode (widget : Gtk.RadioMenuItem) : method unit :=
  if Gtk.get_active widget then
    if prefix "pointermode_" (Gtk.item_name widget) then
      let mode := drop_prefix "pointermode_" (Gtk.item_name widget) in
      call (config_set "presenter" "pointer_mode" mode) ;;
      activate_pointermode (Some mode)
    else raise Py.AssertionError
  else ret tt.

(** [n / 2] for an int [n], then used as a float.  In Python 2 it is the
    floor division, and the int it gives is converted when it meets a
    float.  In Python 3 it is the true division of two ints: the binary64
    number nearest to the exact quotient [n * 2^-1], [OverflowError] when
    that is out of range. *)
Definition half (v : Py.Version) (n : Z) : Py.result float :=
  match v with
  | Py.Py2 => Py.float_of_int (n / 2)
  | Py.Py3 =>
      match binary_normalize prec emax n (-1) false with
      | S754_infinity _ => Py.Err Py.OverflowError
      | sf => Py.Ok (SF2Prim sf)
      end
  end.

Definition render_pointer (v : Py.Version) (ww wh : Z) : method unit :=
  self <- get ;;
  if show_pointer self =? POINTER_SHOW then
    xw <- lift (Py.mul_int ww (fst (pointer_pos self))) ;;
    hw <- lift (half v (GdkPixbuf.get_width (pointer self))) ;;
    let x := (xw - hw)%float in
    yh <- lift (Py.mul_int wh (snd (pointer_pos self))) ;;
    hh <- lift (half v (GdkPixbuf.get_height (pointer self))) ;;
    let y := (yh - hh)%float in
    call (cairo_set_source_pixbuf (pointer self) x y) ;;
    call paint
  else ret tt.

Definition track_pointer (widget : Gtk.Widget) (event : Gdk.Event)
  : method bool :=
  self <- get ;;
  if show_pointer self =? POINTER_SHOW then
    let ww := Gtk.get_allocated_width widget in
    let wh := Gtk.get_allocated_height widget in
    let '(ex, ey) := Gdk.get_coords event in
    px <- lift (Py.truediv ex ww) ;;
    py <- lift (Py.truediv ey wh) ;;
    modify (set_pointer_pos (px, py)) ;;
    call redraw_current_slide ;;
    ret true
  else ret false.

Definition toggle_pointer (widget : Gtk.Widget) (event : Gdk.Event)
  : method bool :=
  self <- get ;;
  if pointer_mode self =? POINTERMODE_DISABLED then ret false
  else if pointer_mode self =? POINTERMODE_CONTINEOUS then ret false
  else
    let ctrl_pressed := Z.land (Gdk.get_state event) Gdk.CONTROL_MASK in
    if negb (ctrl_pressed =? 0) && (Gdk.type event =? Gdk.BUTTON_PRESS) then
      modify (set_show_pointer POINTER_SHOW) ;;
      call (set_cursor widget "invisible") ;;
      track_pointer widget event
    else if (show_pointer self =? POINTER_SHOW)
            && (Gdk.type event =? Gdk.BUTTON_RELEASE) then
      modify (set_show_pointer POINTER_HIDE) ;;
      call (set_cursor widget "parent") ;;
      call redraw_current_slide ;;
      ret true
    else ret false.

(** [__init__], from the two preferences read in the configuration. *)
Definition init (get_icon_path : string -> string)
    (new_from_file : string -> option GdkPixbuf.Pixbuf)
    (default_mode color : string) : method unit :=
  activate_pointermode (Some default_mode) ;;
  call (radio_init "pointermode_continous"
          (String.eqb "pointermode_continous" ("pointermode_" ++ default_mode))) ;;
  call (radio_init "pointermode_manual"
          (String.eqb "pointermode_manual" ("pointermode_" ++ default_mode))) ;;
  call (radio_init "pointermode_none"
          (String.eqb "pointermode_none" ("pointermode_" ++ default_mode))) ;;
  let default_color := "pointer_" ++ color in
  load_pointer get_icon_path new_from_file default_color ;;
  call (radio_init "pointer_red" (String.eqb "pointer_red" default_color)) ;;
  call (radio_init "pointer_blue" (String.eqb "pointer_blue" default_color)) ;;
  call (radio_init "pointer_green" (String.eqb "pointer_green" default_color)).

End Pointer.

(** ** [pympress/media_overlays/base.py] *)

Module VideoOverlay.
Import Run.
Local Open Scope run_scope.

(** Left, top, right and bottom margins. *)
Definition margins := (float * float * float * float)%type.

Definition margin_0 (m : margins) : float := fst (fst (fst m)).
Definition margin_1 (m : margins) : float := snd (fst (fst m)).
Definition margin_2 (m : margins) : float := snd (fst m).
Definition margin_3 (m : margins) : float := snd m.

(** [min(relative_margins)] *)
Definition min_margin (m : margins) : float :=
  Py.min_of (margin_0 m) [margin_1 m; margin_2 m; margin_3 m].

(** The [Gtk.VBox] in [media_overlay]: whether it has a parent, whether it
    was shown, and the four margin properties as they were assigned. *)
Record Box := {
  get_parent : bool;
  visible : bool;
  margin_left : float;
  margin_right : float;
  margin_bottom : float;
  margin_top : float
}.

(** The [Gtk.Scale] in [progress]. *)
Record Scale := {
  range : float * float;
  increments : float * float;
  scale_value : float
}.

Record t := {
  parent : Gtk.Widget;
  media_overlay : Box;
  progress : Scale;
  relative_page_margins : margins;
  relative_margins : margins;
  time_format : string;
  maxval : float
}.

Definition set_media_overlay (v : Box) (self : t) : t :=
  {| parent := parent self; media_overlay := v; progress := progress self;
     relative_page_margins := relative_page_margins self;
     relative_margins := relative_margins self;
     time_format := time_format self; maxval := maxval self |}.

Definition set_progress (v : Scale) (self : t) : t :=
  {| parent := parent self; media_overlay := media_overlay self; progress := v;
     relative_page_margins := relative_page_margins self;
     relative_margins := relative_margins self;
     time_format := time_format self; maxval := maxval self |}.

Definition set_relative_margins (v : margins) (self : t) : t :=
  {| parent := parent self; media_overlay := media_overlay self;
     progress := progress self;
     relative_page_margins := relative_page_margins self;
     relative_margins := v;
     time_format := time_format self; maxval := maxval self |}.

Definition set_time_format (v : string) (self : t) : t :=
  {| parent := parent self; media_overlay := media_overlay self;
     progress := progress self;
     relative_page_margins := relative_page_margins self;
     relative_margins := relative_margins self;
     time_format := v; maxval := maxval self |}.

Definition set_maxval (v : float) (self : t) : t :=
  {| parent := parent self; media_overlay := media_overlay self;
     progress := progress self;
     relative_page_margins := relative_page_margins self;
     relative_margins := relative_margins self;
     time_format := time_format self; maxval := v |}.

Definition set_box_parent (b : bool) (box : Box) : Box :=
  {| get_parent := b; visible := visible box;
     margin_left := margin_left box; margin_right := margin_right box;
     margin_bottom := margin_bottom box; margin_top := margin_top box |}.

Definition set_box_visible (b : bool) (box : Box) : Box :=
  {| get_parent := get_parent box; visible := b;
     margin_left := margin_left box; margin_right := margin_right box;
     margin_bottom := margin_bottom box; margin_top := margin_top box |}.

Definition set_margin_left (v : float) (box : Box) : Box :=
  {| get_parent := get_parent box; visible := visible box;
     margin_left := v; margin_right := margin_right box;
     margin_bottom := margin_bottom box; margin_top := margin_top box |}.

Definition set_margin_right (v : float) (box : Box) : Box :=
  {| get_parent := get_parent box; visible := visible box;
     margin_left := margin_left box; margin_right := v;
     margin_bottom := margin_bottom box; margin_top := margin_top box |}.

Definition set_margin_bottom (v : float) (box : Box) : Box :=
  {| get_parent := get_parent box; visible := visible box;
     margin_left := margin_left box; margin_right := margin_right box;
     margin_bottom := v; margin_top := margin_top box |}.

Definition set_margin_top (v : float) (box : Box) : Box :=
  {| get_parent := get_parent box; visible := visible box;
     margin_left := margin_left box; margin_right := margin_right box;
     margin_bottom := margin_bottom box; margin_top := v |}.

(** The calls the class makes outside its own widgets, and those of the
    backend class that completes it: this class leaves [do_stop] to a
    backend, which drives a player of its own. *)
Inductive action :=
| logger_warning (relative_margins : margins)
| add_overlay
| reorder_overlay (position : Z)
| queue_draw
| remove
| backend (call : string).

Definition method (A : Type) := M t action A.

(** The class attributes: [time_format = '{:01}:{:02}'] and
    [maxval = 1]. *)
Definition default_time_format : string := "{:01}:{:02}".

Definition format_millis (v : Py.Version) (prog : float) : method string :=
  self <- get ;;
  n <- lift (Py.int_round v prog) ;;
  let '(minutes, seconds) := Py.divmod n 60 in
  lift (Py.format (time_format self) [minutes; seconds]).

(** The two blanks around the slash of the format are no-break spaces
    (U+00A0, the bytes C2 A0), as in the source. *)
Definition update_range (v : Py.Version) (max_time : float) : method unit :=
  modify (set_maxval max_time) ;;
  self <- get ;;
  modify (set_progress
            {| range := (0%float, maxval self);
               increments := (Py.min2 5 (maxval self / 10),
                              Py.min2 60 (maxval self / 10))%float;
               scale_value := scale_value (progress self) |}) ;;
  sec <- lift (if (0.5 <? maxval self)%float
               then Py.int_round v (maxval self)
               else Py.Ok 1) ;;
  let '(minutes, seconds) := Py.divmod sec 60 in
  fmt <- lift (Py.format "{{:01}}:{{:02}} / {:01}:{:02}" [minutes; seconds]) ;;
  modify (set_time_format fmt).

Definition update_progress (time : float) : method unit :=
  self <- get ;;
  modify (set_progress
            {| range := range (progress self);
               increments := increments (progress self);
               scale_value := time |}).

(** [page_type.to_screen] belongs to the document module: it is the
    projection passed in. *)
Definition update_margins_for_page (to_screen : margins -> margins)
  : method unit :=
  self <- get ;;
  modify (set_relative_margins (to_screen (relative_page_margins self))).

Definition is_shown (self : t) : bool :=
  get_parent (media_overlay self).

Definition resize : method unit :=
  self <- get ;;
  if negb (is_shown self) then ret tt
  else
    let pw := Gtk.get_allocated_width (parent self) in
    let ph := Gtk.get_allocated_height (parent self) in
    left <- lift (Py.mul_int pw (margin_0 (relative_margins self))) ;;
    modify (fun s => set_media_overlay
                       (set_margin_left left (media_overlay s)) s) ;;
    right <- lift (Py.mul_int pw (margin_2 (relative_margins self))) ;;
    modify (fun s => set_media_overlay
                       (set_margin_right right (media_overlay s)) s) ;;
    bottom <- lift (Py.mul_int ph (margin_3 (relative_margins self))) ;;
    modify (fun s => set_media_overlay
                       (set_margin_bottom bottom (media_overlay s)) s) ;;
    top <- lift (Py.mul_int ph (margin_1 (relative_margins self))) ;;
    modify (fun s => set_media_overlay
                       (set_margin_top top (media_overlay s)) s).

Definition show : method unit :=
  self <- get ;;
  if (min_margin (relative_margins self) <? 0)%float then
    call (logger_warning (relative_margins self))
  else
    (if negb (get_parent (media_overlay self)) then
       call add_overlay ;;
       modify (fun s => set_media_overlay
                          (set_box_parent true (media_overlay s)) s) ;;
       call (reorder_overlay 2) ;;
       resize ;;
       call queue_draw
     else ret tt) ;;
    modify (fun s => set_media_overlay
                       (set_box_visible true (media_overlay s)) s).

(** [do_stop] as this class defines it: a backend class has to override
    it. *)
Definition do_stop : method unit :=
  raise Py.NotImplementedError.

(** [do_hide] calls [self.do_stop()], which is looked up on the object:
    [self_do_stop] is the method found there, [do_stop] above on an instance
    of this class and the override of the backend on an instance of a
    backend class. *)
Definition do_hide (self_do_stop : method unit) : method bool :=
  self_do_stop ;;
  modify (fun s => set_media_overlay
                     (set_box_visible false (media_overlay s)) s) ;;
  self <- get ;;
  (if get_parent (media_overlay self) then
     call remove ;;
     modify (fun s => set_media_overlay
                        (set_box_parent false (media_overlay s)) s)
   else ret tt) ;;
  ret false.

End VideoOverlay.

(** ** Notions used to state the properties *)

Module Binary64.
(** The binary64 number 1, as [Prim2SF] returns it. *)
Definition one : spec_float := S754_finite false 4503599627370496 (-52).

(** A mantissa under truncation, at exponent [e <= 0], of a value that is
    at most 1: it is at most [2^(-e)], and strictly below when the
    truncated bits are not all zero. *)
Definition below_one (mrs : shr_record) (e : Z) : Prop :=
  0 <= shr_m mrs <= 2 ^ (- e) /\
  (orb (shr_r mrs) (shr_s mrs) = true -> shr_m mrs < 2 ^ (- e)).
End Binary64.

Module TimeText.
(** The character of a decimal digit. *)
Definition digit (d : Z) : ascii := ascii_of_nat (48 + Z.to_nat d).

(** Exactly two decimal digits. *)
Definition two_digits (s : Z) : string :=
  String (digit (s / 10)) (String (digit (s mod 10)) "").

(** [str(n)]: the decimal digits of an int, after a minus sign when it is
    negative, without padding. *)
Definition str_int (n : Z) : string :=
  if n <? 0 then String "-" (Py.decimal n) else Py.decimal n.

(** A count of seconds as minutes, a colon and two digits of seconds. *)
Definition m_ss (n : Z) : string :=
  str_int (n / 60) ++ ":" ++ two_digits (n mod 60).

(** The no-break space U+00A0, as UTF-8 encodes it: the bytes C2 A0. *)
Definition nbsp : string := String "194" (String "160" "").

(** What [update_range] puts between the position and the total: a slash
    between two no-break spaces. *)
Definition separator : string := nbsp ++ "/" ++ nbsp.

(** Text without braces: [str.format] copies it. *)
Fixpoint brace_free (s : string) : bool :=
  match s with
  | "" => true
  | String c r =>
      negb (Ascii.eqb c "{") && negb (Ascii.eqb c "}") && brace_free r
  end.
End TimeText.

Module Geometry.
(** The unit square [[0,1] x [0,1]]. *)
Definition in_unit_square (pos : float * float) : bool :=
  ((0 <=? fst pos) && (fst pos <=? 1) &&
   (0 <=? snd pos) && (snd pos <=? 1))%float.

(** A coordinate that lies on a side of [n] pixels. *)
Definition within (x : float) (n : Z) : bool :=
  match Py.float_of_int n with
  | Py.Ok f => ((0 <=? x) && (x <=? f))%float
  | Py.Err _ => false
  end.

(** An event whose coordinates lie on the widget that receives it. *)
Definition on_widget (widget : Gtk.Widget) (event : Gdk.Event) : bool :=
  within (fst (Gdk.get_coords event)) (Gtk.get_allocated_width widget)
  && within (snd (Gdk.get_coords event)) (Gtk.get_allocated_height widget).
End Geometry.

(** ** The life of a pointer *)

Module Session.
(** The calls the application makes on its pointer once it is built. *)
Inductive op :=
| Load_pointer (name : string)
| Change_pointer (widget : Gtk.RadioMenuItem)
| Activate_pointermode (mode : option string)
| Change_pointermode (widget : Gtk.RadioMenuItem)
| Render_pointer (ww wh : Z)
| Track_pointer (widget : Gtk.Widget) (event : Gdk.Event)
| Toggle_pointer (widget : Gtk.Widget) (event : Gdk.Event).

Section Calls.
Variable v : Py.Version.
Variable get_icon_path : string -> string.
Variable new_from_file : string -> option GdkPixbuf.Pixbuf.

(** The pointer after one call, whether it returned or raised. *)
Definition step (self : Pointer.t) (o : op) : Pointer.t :=
  match o with
  | Load_pointer name =>
      Run.final (Pointer.load_pointer get_icon_path new_from_file name self)
  | Change_pointer widget =>
      Run.final (Pointer.change_pointer get_icon_path new_from_file widget self)
  | Activate_pointermode mode =>
      Run.final (Pointer.activate_pointermode mode self)
  | Change_pointermode widget =>
      Run.final (Pointer.change_pointermode widget self)
  | Render_pointer ww wh =>
      Run.final (Pointer.render_pointer v ww wh self)
  | Track_pointer widget event =>
      Run.final (Pointer.track_pointer widget event self)
  | Toggle_pointer widget event =>
      Run.final (Pointer.toggle_pointer widget event self)
  end.

Definition run (ops : list op) (self : Pointer.t) : Pointer.t :=
  fold_left step ops self.

(** The pointer built by [__init__] on the drawing area [p_da_cur]. *)
Definition built (default_mode color : string) (p_da_cur : Gtk.Widget)
  : Pointer.t :=
  Run.final (Pointer.init get_icon_path new_from_file default_mode color
               (Pointer.class_defaults p_da_cur)).

(** The event whose coordinates a call divides by the size of its widget,
    if it does: [track_pointer] reads its event only while the pointer is
    shown, [toggle_pointer] passes its event to [track_pointer] only in the
    manual mode on a press with the control key, after switching the
    pointer on, and the other methods receive no event. *)
Definition tracked (self : Pointer.t) (o : op)
  : option (Gtk.Widget * Gdk.Event) :=
  match o with
  | Track_pointer widget event =>
      if Pointer.show_pointer self =? Pointer.POINTER_SHOW
      then Some (widget, event) else None
  | Toggle_pointer widget event =>
      if Pointer.pointer_mode self =? Pointer.POINTERMODE_DISABLED then None
      else if Pointer.pointer_mode self =? Pointer.POINTERMODE_CONTINEOUS
      then None
      else if negb (Z.land (Gdk.get_state event) Gdk.CONTROL_MASK =? 0)
              && (Gdk.type event =? Gdk.BUTTON_PRESS)
      then Some (widget, event) else None
  | _ => None
  end.

(** Along the calls [ops] made from the state [self], every event whose
    coordinates are divided lies on the widget that received it, and that
    widget has a valid allocation.  The events that are not divided are
    free. *)
Fixpoint on_widgets (ops : list op) (self : Pointer.t) : Prop :=
  match ops with
  | [] => True
  | o :: rest =>
      match tracked self o with
      | Some (widget, event) =>
          Gtk.allocated widget /\ Geometry.on_widget widget event = true
      | None => True
      end /\ on_widgets rest (step self o)
  end.
End Calls.

(** The mode and the visibility agree: a continuous pointer is shown, a
    disabled one is hidden, a manual one is either. *)
Definition coherent (self : Pointer.t) : Prop :=
  (Pointer.pointer_mode self = Pointer.POINTERMODE_CONTINEOUS /\
   Pointer.show_pointer self = Pointer.POINTER_SHOW) \/
  (Pointer.pointer_mode self = Pointer.POINTERMODE_MANUAL /\
   (Pointer.show_pointer self = Pointer.POINTER_HIDE \/
    Pointer.show_pointer self = Pointer.POINTER_SHOW)) \/
  (Pointer.pointer_mode self = Pointer.POINTERMODE_DISABLED /\
   Pointer.show_pointer self = Pointer.POINTER_HIDE).
End Session.

(** ** Sample values *)

Module Examples.
(** A realized drawing area of 200x100 pixels. *)
Definition drawing_area : Gtk.Widget :=
  {| Gtk.get_name := "p_da_cur";
     Gtk.get_allocated_width := 200;
     Gtk.get_allocated_height := 100;
     Gtk.get_window := true |}.

Definition press_ctrl : Gdk.Event :=
  {| Gdk.type := Gdk.BUTTON_PRESS;
     Gdk.get_state := Gdk.CONTROL_MASK;
     Gdk.get_coords := (100, 50)%float |}.

Definition release : Gdk.Event :=
  {| Gdk.type := Gdk.BUTTON_RELEASE;
     Gdk.get_state := 0;
     Gdk.get_coords := (100, 50)%float |}.

(** A motion reported while the button is held and the mouse has left
    the widget on its right side. *)
Definition motion_outside : Gdk.Event :=
  {| Gdk.type := Gdk.MOTION_NOTIFY;
     Gdk.get_state := 0;
     Gdk.get_coords := (300, 50)%float |}.

Definition get_icon_path (name : string) : string :=
  "share/pixmaps/" ++ name.

Definition new_from_file (path : string) : option GdkPixbuf.Pixbuf :=
  Some {| GdkPixbuf.file := Some path;
          GdkPixbuf.get_width := 48;
          GdkPixbuf.get_height := 48 |}.

(** The pointer built with the preferences [manual] and [red]. *)
Definition manual_red : Pointer.t :=
  Run.final (Pointer.init get_icon_path new_from_file "manual" "red"
               (Pointer.class_defaults drawing_area)).

Definition shown : Pointer.t :=
  Pointer.set_show_pointer Pointer.POINTER_SHOW manual_red.

(** A motion over the widget. *)
Definition motion_inside : Gdk.Event :=
  {| Gdk.type := Gdk.MOTION_NOTIFY;
     Gdk.get_state := 0;
     Gdk.get_coords := (150, 25)%float |}.

(** Press with the control key and drag past the right side of the
    widget. *)
Definition drag_outside : list Session.op :=
  [Session.Toggle_pointer drawing_area press_ctrl;
   Session.Track_pointer drawing_area motion_outside].

(** An overlay as [__init__] leaves it, not yet attached, with the time
    format of the class. *)
Definition overlay : VideoOverlay.t :=
  {| VideoOverlay.parent := drawing_area;
     VideoOverlay.media_overlay :=
       {| VideoOverlay.get_parent := false;
          VideoOverlay.visible := false;
          VideoOverlay.margin_left := 0;
          VideoOverlay.margin_right := 0;
          VideoOverlay.margin_bottom := 0;
          VideoOverlay.margin_top := 0 |}%float;
     VideoOverlay.progress :=
       {| VideoOverlay.range := (0, 1)%float;
          VideoOverlay.increments := (0, 0)%float;
          VideoOverlay.scale_value := 0%float |};
     VideoOverlay.relative_page_margins := (0.25, 0.125, 0.25, 0.5)%float;
     VideoOverlay.relative_margins := (0.25, 0.125, 0.25, 0.5)%float;
     VideoOverlay.time_format := VideoOverlay.default_time_format;
     VideoOverlay.maxval := 1%float |}.

(** The same overlay with a negative top margin. *)
Definition overlay_off_slide : VideoOverlay.t :=
  VideoOverlay.set_relative_margins (0.25, -0.125, 0.25, 0.5)%float overlay.

(** A widget whose allocation has no width. *)
Definition flat_area : Gtk.Widget :=
  {| Gtk.get_name := "p_da_cur";
     Gtk.get_allocated_width := 0;
     Gtk.get_allocated_height := 100;
     Gtk.get_window := true |}.

(** Items of the pointer menus, as selected by the user. *)
Definition item_blue : Gtk.RadioMenuItem :=
  {| Gtk.item_name := "pointer_blue"; Gtk.get_active := true |}.

Definition item_yellow : Gtk.RadioMenuItem :=
  {| Gtk.item_name := "pointer_yellow"; Gtk.get_active := true |}.

Definition item_continous : Gtk.RadioMenuItem :=
  {| Gtk.item_name := "pointermode_continous"; Gtk.get_active := true |}.

Definition item_none : Gtk.RadioMenuItem :=
  {| Gtk.item_name := "pointermode_none"; Gtk.get_active := true |}.

(** An item named with the usual spelling, which the class does not know. *)
Definition item_continuous : Gtk.RadioMenuItem :=
  {| Gtk.item_name := "pointermode_continuous"; Gtk.get_active := true |}.

(** The overlay once attached to its parent. *)
Definition overlay_attached : VideoOverlay.t :=
  VideoOverlay.set_media_overlay
    (VideoOverlay.set_box_parent true (VideoOverlay.media_overlay overlay))
    overlay.

(** A release reported past the right side of the widget. *)
Definition release_outside : Gdk.Event :=
  {| Gdk.type := Gdk.BUTTON_RELEASE;
     Gdk.get_state := 0;
     Gdk.get_coords := (300, 50)%float |}.

(** Press with the control key and drag over the widget, release past its
    right side, then move on out there with the pointer switched off. *)
Definition release_past_the_side : list Session.op :=
  [Session.Toggle_pointer drawing_area press_ctrl;
   Session.Track_pointer drawing_area motion_inside;
   Session.Toggle_pointer drawing_area release_outside;
   Session.Track_pointer drawing_area motion_outside].

(** The overlay with a left margin that is not a number, and a negative
    top margin. *)
Definition overlay_nan_margin : VideoOverlay.t :=
  VideoOverlay.set_relative_margins (nan, -0.125, 0.25, 0.5)%float overlay.

(** The overlay with a top margin that is not a number, and a negative
    right margin. *)
Definition overlay_nan_top : VideoOverlay.t :=
  VideoOverlay.set_relative_margins (0.25, nan, -0.125, 0.5)%float overlay.

(** The [do_stop] of a backend that stops its player and returns. *)
Definition player_stop : VideoOverlay.method unit :=
  Run.call (VideoOverlay.backend "player.stop").

(** The [do_stop] of a backend whose player fails. *)
Definition player_fails : VideoOverlay.method unit :=
  Run.bind (Run.call (VideoOverlay.backend "player.stop"))
    (fun _ => Run.raise Py.GLibError).
End Examples.

(** * Properties *)

(** ** Binary64 arithmetic *)

Lemma fexp_eq z : fexp prec emax z = Z.max (z - 53) (-1074).
Proof. reflexivity. Qed.

Lemma digits2_pos_size p : digits2_pos p = Pos.size p.
Proof. induction p; simpl; congruence. Qed.

Lemma digits2_bounds p :
  2 ^ (Zpos (digits2_pos p) - 1) <= Zpos p < 2 ^ Zpos (digits2_pos p).
Proof.
  rewrite digits2_pos_size. split.
  - pose proof (Pos.size_le p) as H.
    assert (Hp : (2 ^ Pos.size p <= p~0)%positive) by exact H.
    apply Pos2Z.pos_le_pos in Hp. rewrite Pos2Z.inj_pow in Hp.
    replace (Zpos (Pos.size p)) with ((Zpos (Pos.size p) - 1) + 1) in Hp by lia.
    rewrite Z.pow_add_r in Hp by lia. change (Zpos p~0) with (2 * Zpos p) in Hp. lia.
  - pose proof (Pos.size_gt p) as H.
    apply Pos2Z.pos_lt_pos in H. rewrite Pos2Z.inj_pow in H. exact H.
Qed.

Lemma iter_pos_nat {A} (f : A -> A) p x :
  iter_pos f p x = Nat.iter (Pos.to_nat p) f x.
Proof.
  revert x. induction p; intros x.
  - change (iter_pos f p~1 x) with (iter_pos f p (iter_pos f p (f x))).
    rewrite !IHp, Pos2Nat.inj_xI.
    replace (S (2 * Pos.to_nat p)) with (Pos.to_nat p + S (Pos.to_nat p))%nat by lia.
    rewrite Nat.iter_add, Nat.iter_succ_r. reflexivity.
  - change (iter_pos f p~0 x) with (iter_pos f p (iter_pos f p x)).
    rewrite !IHp, Pos2Nat.inj_xO.
    replace (2 * Pos.to_nat p)%nat with (Pos.to_nat p + Pos.to_nat p)%nat by lia.
    rewrite Nat.iter_add. reflexivity.
  - reflexivity.
Qed.


Lemma pow2_neg_succ e : e < 0 -> 2 ^ (- e) = 2 * 2 ^ (- (e + 1)).
Proof.
  intros He. replace (- e) with (1 + - (e + 1)) by lia.
  rewrite Z.pow_add_r by lia. reflexivity.
Qed.

Lemma shr_1_below_one mrs e :
  e < 0 -> Binary64.below_one mrs e -> Binary64.below_one (shr_1 mrs) (e + 1).
Proof.
  intros He [Hm Hs]. unfold Binary64.below_one in *.
  rewrite (pow2_neg_succ e He) in Hm, Hs.
  assert (Hpos : 0 < 2 ^ (- (e + 1))) by (apply Z.pow_pos_nonneg; lia).
  generalize dependent (2 ^ (- (e + 1))). intros U Hm Hs Hpos.
  destruct mrs as [m r s]. cbn [shr_m shr_r shr_s] in Hm, Hs.
  destruct m as [|[p|p|]|p]; cbn [shr_1 shr_m shr_r shr_s].
  - split; [lia|intros _; lia].
  - rewrite Pos2Z.inj_xI in Hm. split; [lia|intros _; lia].
  - rewrite Pos2Z.inj_xO in Hm, Hs. split; [lia|intros H; apply Hs in H; lia].
  - split; [lia|intros _; lia].
  - pose proof (Pos2Z.neg_is_neg p). lia.
Qed.

Lemma iter_shr_1_below_one k mrs e :
  e + Z.of_nat k <= 0 -> Binary64.below_one mrs e ->
  Binary64.below_one (Nat.iter k shr_1 mrs) (e + Z.of_nat k).
Proof.
  induction k as [|k IH]; intros He H.
  - simpl. now rewrite Z.add_0_r.
  - rewrite Nat2Z.inj_succ in *. simpl Nat.iter.
    replace (e + Z.succ (Z.of_nat k)) with ((e + Z.of_nat k) + 1) by lia.
    apply shr_1_below_one; [lia|]. apply IH; [lia|exact H].
Qed.

Lemma shr_below_one mrs e n :
  e + Z.max 0 n <= 0 -> Binary64.below_one mrs e ->
  Binary64.below_one (fst (shr mrs e n)) (snd (shr mrs e n)) /\
  snd (shr mrs e n) = e + Z.max 0 n.
Proof.
  intros He H. destruct n as [|p|p]; simpl.
  - rewrite Z.add_0_r. auto.
  - rewrite iter_pos_nat. split; [|lia].
    rewrite <- (positive_nat_Z p). apply iter_shr_1_below_one; [|exact H].
    rewrite positive_nat_Z. lia.
  - rewrite Z.add_0_r. auto.
Qed.

Lemma Zdigits2_le m k : 0 <= m -> 0 <= k -> m < 2 ^ k -> Zdigits2 m <= k.
Proof.
  intros Hm Hk H. destruct m as [|p|p]; simpl; try lia.
  pose proof (digits2_bounds p) as [Hlo _].
  assert (2 ^ (Zpos (digits2_pos p) - 1) < 2 ^ k) by lia.
  apply Z.pow_lt_mono_r_iff in H0; lia.
Qed.

Lemma shr_fexp_below_one m e l :
  e <= -52 -> 0 <= m <= 2 ^ (- e) ->
  (l <> loc_Exact -> m < 2 ^ (- e)) ->
  Binary64.below_one (fst (shr_fexp prec emax m e l)) (snd (shr_fexp prec emax m e l)) /\
  snd (shr_fexp prec emax m e l) <= -52.
Proof.
  intros He Hm Hl. unfold shr_fexp.
  assert (Hd : Zdigits2 m <= - e + 1).
  { apply Zdigits2_le; try lia. rewrite Z.pow_add_r by lia. simpl (2 ^ 1).
    assert (0 < 2 ^ (- e)) by (apply Z.pow_pos_nonneg; lia). lia. }
  assert (Hf : fexp prec emax (Zdigits2 m + e) <= -52) by (rewrite fexp_eq; lia).
  destruct (shr_below_one (shr_record_of_loc m l) e
              (fexp prec emax (Zdigits2 m + e) - e)) as [H1 H2].
  - lia.
  - split.
    + destruct l as [|[| |]]; simpl; lia.
    + destruct l as [|[| |]]; simpl; intros H; try discriminate; apply Hl; discriminate.
  - split; [exact H1|]. rewrite H2. lia.
Qed.

Lemma binary_round_aux_below_one m e l :
  e <= -52 -> 0 <= m <= 2 ^ (- e) ->
  (l <> loc_Exact -> m < 2 ^ (- e)) ->
  binary_round_aux prec emax false m e l = S754_zero false \/
  exists p e', binary_round_aux prec emax false m e l = S754_finite false p e'
            /\ e' <= -52 /\ Zpos p <= 2 ^ (- e').
Proof.
  intros He Hm Hl. unfold binary_round_aux.
  destruct (shr_fexp_below_one m e l He Hm Hl) as [[H1 H1s] H1e].
  destruct (shr_fexp prec emax m e l) as [mrs1 e1]. cbn [fst snd] in H1, H1s, H1e.
  set (m2 := round_nearest_even (shr_m mrs1) (loc_of_shr_record mrs1)).
  assert (Hm2 : 0 <= m2 <= 2 ^ (- e1)).
  { unfold m2. destruct mrs1 as [m1 r1 s1].
    cbn [shr_m shr_r shr_s] in H1, H1s.
    destruct r1, s1;
      cbn [round_nearest_even loc_of_shr_record shr_m orb] in *.
    - specialize (H1s eq_refl). lia.
    - specialize (H1s eq_refl). destruct (Z.even m1); lia.
    - lia.
    - lia. }
  destruct (shr_fexp_below_one m2 e1 loc_Exact H1e Hm2) as [[H3 _] H3e].
  { intros H; now elim H. }
  destruct (shr_fexp prec emax m2 e1 loc_Exact) as [mrs3 e3]. cbn [fst snd] in H3, H3e.
  destruct (shr_m mrs3) as [|p|p] eqn:E.
  - now left.
  - right. replace (e3 <=? emax - prec) with true by (symmetry; apply Z.leb_le; unfold emax, prec; lia).
    exists p, e3. repeat split; try reflexivity; lia.
  - pose proof (Pos2Z.neg_is_neg p). lia.
Qed.

Lemma bounded_canonical m e :
  bounded prec emax m e = true ->
  e = Z.max (Zpos (digits2_pos m) + e - 53) (-1074) /\ e <= 971.
Proof.
  unfold bounded, canonical_mantissa. intros H.
  apply andb_true_iff in H. destruct H as [H1 H2].
  apply Z.eqb_eq in H1. apply Z.leb_le in H2. rewrite fexp_eq in H1.
  change (emax - prec) with 971 in H2. lia.
Qed.

Lemma pow2_pos k : 0 <= k -> 0 < 2 ^ k.
Proof. intros. apply Z.pow_pos_nonneg; lia. Qed.

(** The order of two positive finite numbers, on their values scaled by
    [2^1074]. *)
Lemma SFleb_value mx ex my ey :
  bounded prec emax mx ex = true -> bounded prec emax my ey = true ->
  SFleb (S754_finite false mx ex) (S754_finite false my ey) = true ->
  Zpos mx * 2 ^ (ex + 1074) <= Zpos my * 2 ^ (ey + 1074).
Proof.
  intros Bx By H.
  apply bounded_canonical in Bx. apply bounded_canonical in By.
  destruct Bx as [Cx _]. destruct By as [Cy _].
  unfold SFleb, SFcompare in H.
  destruct (Z.compare_spec ex ey) as [C|C|C].
  - subst ey.
    change (Pos.compare_cont Eq mx my) with (mx ?= my)%positive in H.
    assert (Hle : (mx <= my)%positive).
    { unfold Pos.le. destruct (mx ?= my)%positive; discriminate. }
    apply Z.mul_le_mono_nonneg_r; [apply Z.lt_le_incl, pow2_pos; lia|].
    exact Hle.
  - pose proof (digits2_bounds mx) as [_ Hx].
    pose proof (digits2_bounds my) as [Hy _].
    assert (Dx : Zpos (digits2_pos mx) <= 53) by lia.
    assert (Dy : Zpos (digits2_pos my) = 53) by lia.
    rewrite Dy in Hy. change (2 ^ (53 - 1)) with 4503599627370496 in Hy.
    assert (Hx' : Zpos mx < 2 * 4503599627370496).
    { apply Z.lt_le_trans with (1 := Hx).
      change (2 * 4503599627370496) with (2 ^ 53).
      apply Z.pow_le_mono_r; lia. }
    replace (ey + 1074) with ((ey - ex) + (ex + 1074)) by lia.
    rewrite (Z.pow_add_r 2 (ey - ex) (ex + 1074)) by lia.
    assert (Ha : 0 < 2 ^ (ex + 1074)) by (apply pow2_pos; lia).
    assert (Hk : 2 ^ 1 <= 2 ^ (ey - ex)) by (apply Z.pow_le_mono_r; lia).
    change (2 ^ 1) with 2 in Hk.
    generalize dependent (2 ^ (ex + 1074)). generalize dependent (2 ^ (ey - ex)).
    intros K HK a Ha.
    replace (Zpos my * (K * a)) with (K * Zpos my * a) by ring.
    apply Z.le_trans with (2 * 4503599627370496 * a).
    + apply Z.mul_le_mono_nonneg_r; lia.
    + apply Z.mul_le_mono_nonneg_r; [lia|].
      apply Z.mul_le_mono_nonneg; lia.
  - discriminate.
Qed.

Lemma new_location_exact n r : r = 0 -> new_location n r = loc_Exact.
Proof.
  intros ->. unfold new_location, new_location_even, new_location_odd.
  destruct (Z.even n); reflexivity.
Qed.

Lemma SFdiv_core_below_one mx ex my ey :
  bounded prec emax mx ex = true -> bounded prec emax my ey = true ->
  SFleb (S754_finite false mx ex) (S754_finite false my ey) = true ->
  forall q e l,
    SFdiv_core_binary prec emax (Zpos mx) ex (Zpos my) ey = (q, e, l) ->
    e <= -52 /\ 0 <= q <= 2 ^ (- e) /\ (l <> loc_Exact -> q < 2 ^ (- e)).
Proof.
  intros Bx By Hle q e l.
  pose proof (SFleb_value mx ex my ey Bx By Hle) as Hv.
  apply bounded_canonical in Bx. apply bounded_canonical in By.
  destruct Bx as [Cx _]. destruct By as [Cy _].
  pose proof (digits2_bounds mx) as [Hxl Hxu].
  pose proof (digits2_bounds my) as [Hyl Hyu].
  unfold SFdiv_core_binary. cbn [Zdigits2].
  set (d1 := Zpos (digits2_pos mx)) in *.
  set (d2 := Zpos (digits2_pos my)) in *.
  rewrite fexp_eq.
  set (e' := Z.min (Z.max (d1 + ex - (d2 + ey) - 53) (-1074)) (ex - ey)).
  set (s := ex - ey - e').
  assert (Hd : d1 + ex <= d2 + ey).
  { assert (H : 2 ^ (d1 - 1 + (ex + 1074)) < 2 ^ (d2 + (ey + 1074))).
    { assert (0 <= d1 - 1) by (unfold d1; lia).
      rewrite (Z.pow_add_r 2 (d1 - 1) (ex + 1074)) by lia.
      rewrite (Z.pow_add_r 2 d2 (ey + 1074)) by (unfold d2; lia).
      assert (Ha : 0 < 2 ^ (ex + 1074)) by (apply pow2_pos; lia).
      assert (Hb : 0 < 2 ^ (ey + 1074)) by (apply pow2_pos; lia).
      apply Z.le_lt_trans with (Zpos mx * 2 ^ (ex + 1074)).
      - apply Z.mul_le_mono_nonneg_r; lia.
      - apply Z.le_lt_trans with (1 := Hv).
        apply Z.mul_lt_mono_pos_r; lia. }
    apply Z.pow_lt_mono_r_iff in H; lia. }
  assert (He' : e' <= -53) by (unfold e'; lia).
  assert (Hs : 0 <= s) by (unfold s, e'; lia).
  assert (Hm' : match s with
                | Z0 => Zpos mx
                | Zpos _ => Z.shiftl (Zpos mx) s
                | Zneg _ => 0
                end = Zpos mx * 2 ^ s).
  { destruct s as [|p|p] eqn:Es.
    - simpl. lia.
    - rewrite Z.shiftl_mul_pow2 by lia. reflexivity.
    - lia. }
  rewrite Hm'.
  pose proof (Z_div_mod (Zpos mx * 2 ^ s) (Zpos my) eq_refl) as Hdm.
  destruct (Z.div_eucl (Zpos mx * 2 ^ s) (Zpos my)) as [q0 r0].
  destruct Hdm as [Hq Hr].
  intros H. injection H as <- <- <-.
  assert (Hkey : Zpos mx * 2 ^ s <= Zpos my * 2 ^ (- e')).
  { assert (Ha : 0 < 2 ^ (ex + 1074)) by (apply pow2_pos; lia).
    assert (Heq : 2 ^ (- e') * 2 ^ (ex + 1074) = 2 ^ s * 2 ^ (ey + 1074)).
    { rewrite <- !Z.pow_add_r by lia. f_equal. unfold s. lia. }
    assert (Hs2 : 0 < 2 ^ s) by (apply pow2_pos; lia).
    remember (2 ^ (ex + 1074)) as a eqn:Ea.
    remember (2 ^ (ey + 1074)) as b eqn:Eb.
    remember (2 ^ (- e')) as u eqn:Eu.
    remember (2 ^ s) as c eqn:Ec.
    apply (proj2 (Z.mul_le_mono_pos_r (Zpos mx * c) (Zpos my * u) a Ha)).
    replace (Zpos mx * c * a) with (c * (Zpos mx * a)) by ring.
    replace (Zpos my * u * a) with (Zpos my * (u * a)) by ring.
    rewrite Heq.
    replace (Zpos my * (c * b)) with (c * (Zpos my * b)) by ring.
    apply Z.mul_le_mono_nonneg_l; lia. }
  assert (Hu : 0 < 2 ^ (- e')) by (apply pow2_pos; lia).
  split; [lia|]. split.
  - split.
    + assert (0 <= Zpos mx * 2 ^ s) by (apply Z.mul_nonneg_nonneg; [lia|apply Z.lt_le_incl, pow2_pos; lia]).
      nia.
    + nia.
  - intros Hl.
    assert (r0 <> 0) by (intros ->; apply Hl, new_location_exact; reflexivity).
    nia.
Qed.


Lemma SFleb_same_exponent p q e :
  Zpos p <= Zpos q ->
  SFleb (S754_finite false p e) (S754_finite false q e) = true.
Proof.
  intros H. unfold SFleb, SFcompare. rewrite Z.compare_refl.
  change (Pos.compare_cont Eq p q) with (Zpos p ?= Zpos q).
  destruct (Z.compare_spec (Zpos p) (Zpos q)); [reflexivity|reflexivity|lia].
Qed.

Lemma SFleb_lower_exponent p q e1 e2 :
  e1 < e2 ->
  SFleb (S754_finite false p e1) (S754_finite false q e2) = true.
Proof.
  intros H. unfold SFleb, SFcompare.
  apply Z.compare_lt_iff in H. rewrite H. reflexivity.
Qed.

Lemma SFdiv_unit_interval x y :
  valid_binary x = true -> valid_binary y = true ->
  SFleb (S754_zero false) x = true ->
  SFleb x y = true ->
  SFltb (S754_zero false) y = true ->
  SFltb y (S754_infinity false) = true ->
  SFleb (S754_zero false) (SF64div x y) = true /\
  SFleb (SF64div x y) Binary64.one = true.
Proof.
  intros Vx Vy H0x Hxy H0y Hy.
  destruct y as [sy|sy| |sy my ey]; try discriminate.
  { destruct sy; discriminate. }
  destruct sy; [discriminate|].
  destruct x as [sx|sx| |sx mx ex]; try discriminate.
  - destruct sx; split; reflexivity.
  - destruct sx; discriminate.
  - destruct sx; [discriminate|].
    unfold SF64div, SFdiv. cbn [xorb].
    destruct (SFdiv_core_binary prec emax (Zpos mx) ex (Zpos my) ey)
      as [[q e] l] eqn:E.
    destruct (SFdiv_core_below_one mx ex my ey Vx Vy Hxy q e l E)
      as (He & Hq & Hl).
    destruct (binary_round_aux_below_one q e l He Hq Hl)
      as [-> | (p & e' & -> & He' & Hp)].
    + split; reflexivity.
    + split; [reflexivity|].
      unfold Binary64.one.
      destruct (Z.eq_dec e' (-52)) as [->|C].
      * apply SFleb_same_exponent.
        exact Hp.
      * apply SFleb_lower_exponent. lia.
Qed.

Lemma Prim2SF_zero : Prim2SF 0 = S754_zero false.
Proof. vm_compute. reflexivity. Qed.

Lemma Prim2SF_one : Prim2SF 1 = Binary64.one.
Proof. vm_compute. reflexivity. Qed.

Lemma Prim2SF_infinity : Prim2SF infinity = S754_infinity false.
Proof. vm_compute. reflexivity. Qed.

(** A quotient of binary64 numbers [0 <= x <= y], for a positive finite
    [y], lies between 0 and 1: rounding to nearest cannot go past 1. *)
Lemma div_unit_interval (x y : float) :
  (0 <=? x)%float = true -> (x <=? y)%float = true ->
  (0 <? y)%float = true -> (y <? infinity)%float = true ->
  (0 <=? x / y)%float = true /\ (x / y <=? 1)%float = true.
Proof.
  rewrite !leb_spec, !ltb_spec, div_spec,
    Prim2SF_zero, Prim2SF_one, Prim2SF_infinity.
  apply SFdiv_unit_interval; apply Prim2SF_valid.
Qed.

Lemma digits2_pos_iter_xO p k :
  digits2_pos (Pos.iter xO p k) = (digits2_pos p + k)%positive.
Proof.
  induction k as [|k IH] using Pos.peano_ind.
  - simpl. lia.
  - rewrite Pos.iter_succ. simpl. rewrite IH. lia.
Qed.

Lemma binary_round_aux_canonical s m e :
  bounded prec emax m e = true ->
  binary_round_aux prec emax s (Zpos m) e loc_Exact = S754_finite s m e.
Proof.
  intros B. unfold bounded, canonical_mantissa in B.
  apply andb_true_iff in B. destruct B as [C L]. apply Z.eqb_eq in C.
  unfold binary_round_aux, shr_fexp. cbn [Zdigits2].
  rewrite C, Z.sub_diag.
  cbn [shr shr_record_of_loc shr_m loc_of_shr_record round_nearest_even Zdigits2].
  rewrite C, Z.sub_diag. cbn [shr shr_record_of_loc shr_m].
  rewrite L. reflexivity.
Qed.

(** An int below [2^53] is a binary64 number. *)
Lemma binary_normalize_small n :
  0 < n < 2 ^ 53 ->
  exists m e, bounded prec emax m e = true /\
              binary_normalize prec emax n 0 false = S754_finite false m e.
Proof.
  intros Hn. destruct n as [|p|p]; try lia.
  cbn [binary_normalize]. unfold binary_round.
  pose proof (digits2_bounds p) as [Hl Hu].
  assert (Hd : Zpos (digits2_pos p) <= 53).
  { apply (Zdigits2_le (Zpos p)); lia. }
  rewrite fexp_eq, Z.add_0_r.
  replace (Z.max (Zpos (digits2_pos p) - 53) (-1074))
    with (Zpos (digits2_pos p) - 53) by lia.
  unfold shl_align. rewrite Z.sub_0_r.
  destruct (Zpos (digits2_pos p) - 53) as [|k|k] eqn:E; try lia.
  - assert (B : bounded prec emax p 0 = true).
    { unfold bounded, canonical_mantissa. rewrite fexp_eq.
      apply andb_true_iff. split; [apply Z.eqb_eq; lia|reflexivity]. }
    exists p, 0. split; [exact B|]. now apply binary_round_aux_canonical.
  - assert (B : bounded prec emax (Pos.iter xO p k) (Zneg k) = true).
    { unfold bounded, canonical_mantissa.
      rewrite fexp_eq, digits2_pos_iter_xO, Pos2Z.inj_add.
      apply andb_true_iff. split; [apply Z.eqb_eq; lia|reflexivity]. }
    exists (Pos.iter xO p k), (Zneg k). split; [exact B|].
    now apply binary_round_aux_canonical.
Qed.

(** The sides of an allocation convert to positive finite floats. *)
Lemma float_of_int_allocated n :
  1 <= n <= 2147483647 ->
  exists f m e, Py.float_of_int n = Py.Ok f /\
                Prim2SF f = S754_finite false m e.
Proof.
  intros Hn.
  destruct (binary_normalize_small n) as (m & e & B & E).
  { change (2 ^ 53) with 9007199254740992. lia. }
  exists (SF2Prim (S754_finite false m e)), m, e.
  unfold Py.float_of_int. rewrite E. split; [reflexivity|].
  apply Prim2SF_SF2Prim. exact B.
Qed.

Lemma truediv_allocated x n :
  1 <= n <= 2147483647 ->
  exists f m e, Py.float_of_int n = Py.Ok f /\
                Prim2SF f = S754_finite false m e /\
                Py.truediv x n = Py.Ok (x / f)%float.
Proof.
  intros Hn. destruct (float_of_int_allocated n Hn) as (f & m & e & Hf & Hs).
  exists f, m, e. repeat split; try assumption.
  unfold Py.truediv. replace (n =? 0) with false by (symmetry; apply Z.eqb_neq; lia).
  rewrite Hf. reflexivity.
Qed.

(** ** The pointer *)

Ltac run_method :=
  cbv beta iota zeta delta
    [Run.bind Run.ret Run.raise Run.get Run.modify Run.call Run.lift
     Run.final Run.calls Run.value].

(** C2. [activate_pointermode] with ['continous'] leaves (visibility, mode)
    at (SHOW, CONTINEOUS); with ['manual'] at (HIDE, MANUAL); with ['none']
    at (HIDE, DISABLED); in each case the call returns normally. *)
Theorem activate_pointermode_sets_mode (self : Pointer.t) :
  let continous := Pointer.activate_pointermode (Some "continous") self in
  let manual := Pointer.activate_pointermode (Some "manual") self in
  let none := Pointer.activate_pointermode (Some "none") self in
  (Run.value continous = Py.Ok tt /\
   Pointer.show_pointer (Run.final continous) = Pointer.POINTER_SHOW /\
   Pointer.pointer_mode (Run.final continous) = Pointer.POINTERMODE_CONTINEOUS) /\
  (Run.value manual = Py.Ok tt /\
   Pointer.show_pointer (Run.final manual) = Pointer.POINTER_HIDE /\
   Pointer.pointer_mode (Run.final manual) = Pointer.POINTERMODE_MANUAL) /\
  (Run.value none = Py.Ok tt /\
   Pointer.show_pointer (Run.final none) = Pointer.POINTER_HIDE /\
   Pointer.pointer_mode (Run.final none) = Pointer.POINTERMODE_DISABLED).
Proof.
  unfold Pointer.activate_pointermode. cbn [Pointer.mode_is String.eqb Ascii.eqb Bool.eqb].
  run_method. cbn [Pointer.set_show_pointer Pointer.set_pointer_mode
                   Pointer.pointer_mode Pointer.show_pointer Pointer.p_da_cur].
  destruct (Gtk.get_window (Pointer.p_da_cur self)); cbn; repeat split.
Qed.

Lemma mode_is_false mode s :
  mode <> Some s -> Pointer.mode_is mode s = false.
Proof.
  intros H. destruct mode as [m|]; [|reflexivity]. cbn [Pointer.mode_is].
  apply String.eqb_neq. intros ->. now apply H.
Qed.

(** C9. Called with anything but ['continous'], ['manual'] or ['none']
    (with [None], or with ['continuous']), [activate_pointermode] leaves
    the visibility and the mode as they were. *)
Theorem activate_pointermode_other_mode (mode : option string) (self : Pointer.t) :
  mode <> Some "continous" -> mode <> Some "manual" -> mode <> Some "none" ->
  Pointer.show_pointer (Run.final (Pointer.activate_pointermode mode self))
    = Pointer.show_pointer self /\
  Pointer.pointer_mode (Run.final (Pointer.activate_pointermode mode self))
    = Pointer.pointer_mode self.
Proof.
  intros Hc Hm Hn. unfold Pointer.activate_pointermode.
  rewrite (mode_is_false _ _ Hc), (mode_is_false _ _ Hm), (mode_is_false _ _ Hn).
  run_method.
  destruct (Gtk.get_window (Pointer.p_da_cur self));
    [destruct (Pointer.pointer_mode self =? Pointer.POINTERMODE_CONTINEOUS)|];
    cbn; split; reflexivity.
Qed.

Lemma activate_pointermode_other_mode_witness :
  (Pointer.show_pointer
     (Run.final (Pointer.activate_pointermode None Examples.shown))
     = Pointer.POINTER_SHOW /\
   Pointer.pointer_mode
     (Run.final (Pointer.activate_pointermode None Examples.shown))
     = Pointer.POINTERMODE_MANUAL) /\
  (Pointer.show_pointer
     (Run.final (Pointer.activate_pointermode (Some "continuous") Examples.shown))
     = Pointer.POINTER_SHOW /\
   Pointer.pointer_mode
     (Run.final (Pointer.activate_pointermode (Some "continuous") Examples.shown))
     = Pointer.POINTERMODE_MANUAL).
Proof.
  split.
  - apply (activate_pointermode_other_mode None Examples.shown); discriminate.
  - apply (activate_pointermode_other_mode (Some "continuous") Examples.shown);
      discriminate.
Defined.

Lemma name_in_In name names :
  Pointer.name_in name names = true <-> In name names.
Proof.
  unfold Pointer.name_in. rewrite existsb_exists. split.
  - intros (x & Hx & E). apply String.eqb_eq in E. now subst.
  - intros H. exists name. split; [exact H|apply String.eqb_refl].
Qed.

(** C7. [load_pointer] raises [ValueError] exactly for the names that are
    not one of ['pointer_red'], ['pointer_green'] and ['pointer_blue']; it
    returns normally only for one of the three, and does so, storing the
    image, whenever the icon file of the name loads. *)
Theorem load_pointer_raises_iff
    (get_icon_path : string -> string)
    (new_from_file : string -> option GdkPixbuf.Pixbuf)
    (name : string) (self : Pointer.t) :
  let o := Pointer.load_pointer get_icon_path new_from_file name self in
  (Run.value o = Py.Err Py.ValueError <->
     ~ (name = "pointer_red" \/ name = "pointer_green" \/ name = "pointer_blue")) /\
  (Run.value o = Py.Ok tt ->
     name = "pointer_red" \/ name = "pointer_green" \/ name = "pointer_blue") /\
  (forall pixbuf,
     name = "pointer_red" \/ name = "pointer_green" \/ name = "pointer_blue" ->
     new_from_file (get_icon_path (name ++ ".png")) = Some pixbuf ->
     o = Run.Outcome (Pointer.set_pointer pixbuf self) [] (Py.Ok tt)).
Proof.
  assert (Hin : In name Pointer.icon_names <->
                name = "pointer_red" \/ name = "pointer_green" \/ name = "pointer_blue").
  { unfold Pointer.icon_names. cbn [In]. intuition congruence. }
  unfold Pointer.load_pointer.
  destruct (Pointer.name_in name Pointer.icon_names) eqn:E.
  - apply name_in_In in E. apply Hin in E.
    destruct (new_from_file (get_icon_path (name ++ ".png"))) as [pixbuf|];
      run_method; (split; [|split]).
    + split; [discriminate|intros H; now elim H].
    + intros _. exact E.
    + intros pb _ H. injection H as <-. reflexivity.
    + split; [discriminate|intros H; now elim H].
    + intros _. exact E.
    + intros pb _ H. discriminate.
  - assert (Hn : ~ (name = "pointer_red" \/ name = "pointer_green"
                    \/ name = "pointer_blue")).
    { intros H. apply Hin in H. apply name_in_In in H. congruence. }
    run_method. split; [|split].
    + split; [intros _; exact Hn|reflexivity].
    + discriminate.
    + intros pb H. now elim Hn.
Qed.

Lemma load_pointer_raises_iff_witness :
  Pointer.load_pointer Examples.get_icon_path Examples.new_from_file
    "pointer_green" Examples.manual_red
  = Run.Outcome
      (Pointer.set_pointer
         {| GdkPixbuf.file := Some "share/pixmaps/pointer_green.png";
            GdkPixbuf.get_width := 48; GdkPixbuf.get_height := 48 |}
         Examples.manual_red)
      [] (Py.Ok tt)
  /\ Run.value (Pointer.load_pointer Examples.get_icon_path
                  Examples.new_from_file "green" Examples.manual_red)
     = Py.Err Py.ValueError.
Proof.
  split.
  - apply (load_pointer_raises_iff Examples.get_icon_path Examples.new_from_file
             "pointer_green" Examples.manual_red).
    + right. left. reflexivity.
    + reflexivity.
  - apply (load_pointer_raises_iff Examples.get_icon_path Examples.new_from_file
             "green" Examples.manual_red).
    intros [H|[H|H]]; discriminate.
Defined.

(** C10. When [load_pointer] raises its [ValueError], the pointer object is
    exactly as before the call, its image included, and no call was made
    outside of it. *)
Theorem load_pointer_error_keeps_icon
    (get_icon_path : string -> string)
    (new_from_file : string -> option GdkPixbuf.Pixbuf)
    (name : string) (self : Pointer.t) :
  let o := Pointer.load_pointer get_icon_path new_from_file name self in
  Run.value o = Py.Err Py.ValueError ->
  Pointer.pointer (Run.final o) = Pointer.pointer self /\
  Run.final o = self /\ Run.calls o = [].
Proof.
  unfold Pointer.load_pointer.
  destruct (Pointer.name_in name Pointer.icon_names).
  - destruct (new_from_file (get_icon_path (name ++ ".png")));
      run_method; [discriminate|]. repeat split.
  - run_method. repeat split.
Qed.

Lemma load_pointer_error_keeps_icon_witness :
  Pointer.pointer
    (Run.final (Pointer.load_pointer Examples.get_icon_path
                  Examples.new_from_file "pointer_yellow" Examples.manual_red))
  = Pointer.pointer Examples.manual_red.
Proof.
  apply (load_pointer_error_keeps_icon Examples.get_icon_path
           Examples.new_from_file "pointer_yellow" Examples.manual_red).
  reflexivity.
Defined.

(** [track_pointer] while the pointer is shown, on a valid allocation: the
    two sides convert to positive finite floats and the quotients are
    stored. *)
Lemma track_pointer_shown (widget : Gtk.Widget) (event : Gdk.Event)
    (self : Pointer.t) :
  Pointer.show_pointer self = Pointer.POINTER_SHOW ->
  Gtk.allocated widget ->
  exists fw fh mw ew mh eh,
    Py.float_of_int (Gtk.get_allocated_width widget) = Py.Ok fw /\
    Py.float_of_int (Gtk.get_allocated_height widget) = Py.Ok fh /\
    Prim2SF fw = S754_finite false mw ew /\
    Prim2SF fh = S754_finite false mh eh /\
    Pointer.track_pointer widget event self
    = Run.Outcome
        (Pointer.set_pointer_pos
           (fst (Gdk.get_coords event) / fw,
            snd (Gdk.get_coords event) / fh)%float self)
        [Pointer.redraw_current_slide] (Py.Ok true).
Proof.
  intros Hs [Hw Hh]. unfold Pointer.track_pointer. run_method. rewrite Hs.
  destruct (Gdk.get_coords event) as [ex ey].
  destruct (truediv_allocated ex _ Hw) as (fw & mw & ew & Fw & Sw & Dw).
  destruct (truediv_allocated ey _ Hh) as (fh & mh & eh & Fh & Sh & Dh).
  exists fw, fh, mw, ew, mh, eh. repeat (split; [assumption|]).
  cbn [Z.eqb Pointer.POINTER_SHOW Pos.eqb]. rewrite Dw. cbn iota beta.
  rewrite Dh. reflexivity.
Qed.

Lemma track_pointer_not_shown (widget : Gtk.Widget) (event : Gdk.Event)
    (self : Pointer.t) :
  Pointer.show_pointer self <> Pointer.POINTER_SHOW ->
  Pointer.track_pointer widget event self = Run.Outcome self [] (Py.Ok false).
Proof.
  intros Hs. unfold Pointer.track_pointer. run_method.
  apply Z.eqb_neq in Hs. rewrite Hs. reflexivity.
Qed.

(** C6. With the pointer shown, on a widget with a valid allocation,
    [track_pointer] sets the position to the event's coordinates divided by
    the widget's width and height, requests one redraw and reports the event
    consumed; with the pointer hidden it changes nothing, requests nothing
    and reports the event not consumed. *)
Theorem track_pointer_spec (widget : Gtk.Widget) (event : Gdk.Event)
    (self : Pointer.t) :
  (Pointer.show_pointer self = Pointer.POINTER_SHOW ->
   Gtk.allocated widget ->
   exists fw fh,
     Py.float_of_int (Gtk.get_allocated_width widget) = Py.Ok fw /\
     Py.float_of_int (Gtk.get_allocated_height widget) = Py.Ok fh /\
     Pointer.track_pointer widget event self
     = Run.Outcome
         (Pointer.set_pointer_pos
            (fst (Gdk.get_coords event) / fw,
             snd (Gdk.get_coords event) / fh)%float self)
         [Pointer.redraw_current_slide] (Py.Ok true)) /\
  (Pointer.show_pointer self = Pointer.POINTER_HIDE ->
   Pointer.track_pointer widget event self = Run.Outcome self [] (Py.Ok false)).
Proof.
  split.
  - intros Hs Ha.
    destruct (track_pointer_shown widget event self Hs Ha)
      as (fw & fh & mw & ew & mh & eh & Fw & Fh & _ & _ & E).
    exists fw, fh. auto.
  - intros Hs. apply track_pointer_not_shown. rewrite Hs. discriminate.
Qed.

Lemma track_pointer_spec_witness :
  Pointer.track_pointer Examples.drawing_area Examples.press_ctrl Examples.shown
  = Run.Outcome (Pointer.set_pointer_pos (0.5, 0.5)%float Examples.shown)
      [Pointer.redraw_current_slide] (Py.Ok true)
  /\ Pointer.track_pointer Examples.drawing_area Examples.press_ctrl
       Examples.manual_red
     = Run.Outcome Examples.manual_red [] (Py.Ok false).
Proof.
  destruct (track_pointer_spec Examples.drawing_area Examples.press_ctrl
              Examples.shown) as [Hshown _].
  destruct (track_pointer_spec Examples.drawing_area Examples.press_ctrl
              Examples.manual_red) as [_ Hhidden].
  split.
  - destruct (Hshown eq_refl) as (fw & fh & Fw & Fh & E).
    { split; cbn; lia. }
    rewrite E. vm_compute in Fw, Fh.
    injection Fw as <-. injection Fh as <-. vm_compute. reflexivity.
  - apply Hhidden. reflexivity.
Defined.

(** [track_pointer] writes nothing but the position, whatever happens. *)
Lemma track_pointer_frame (widget : Gtk.Widget) (event : Gdk.Event)
    (self : Pointer.t) :
  let o := Pointer.track_pointer widget event self in
  Pointer.show_pointer (Run.final o) = Pointer.show_pointer self /\
  Pointer.pointer_mode (Run.final o) = Pointer.pointer_mode self /\
  Pointer.pointer (Run.final o) = Pointer.pointer self /\
  Pointer.p_da_cur (Run.final o) = Pointer.p_da_cur self.
Proof.
  unfold Pointer.track_pointer. run_method.
  destruct (Pointer.show_pointer self =? Pointer.POINTER_SHOW);
    [|repeat split].
  destruct (Gdk.get_coords event) as [ex ey].
  destruct (Py.truediv ex (Gtk.get_allocated_width widget));
    [|repeat split].
  destruct (Py.truediv ey (Gtk.get_allocated_height widget)); repeat split.
Qed.

(** C1. In the DISABLED and CONTINEOUS modes [toggle_pointer] consumes no
    event and changes nothing.  In the MANUAL mode a button press with the
    control modifier held leaves the pointer shown and, on a widget with a
    valid allocation, is consumed; a button release while the pointer is
    shown hides it and is consumed; any other event is not consumed and
    changes nothing. *)
Theorem toggle_pointer_spec (widget : Gtk.Widget) (event : Gdk.Event)
    (self : Pointer.t) :
  let o := Pointer.toggle_pointer widget event self in
  let ctrl_press :=
    Z.land (Gdk.get_state event) Gdk.CONTROL_MASK <> 0 /\
    Gdk.type event = Gdk.BUTTON_PRESS in
  let shown_release :=
    Pointer.show_pointer self = Pointer.POINTER_SHOW /\
    Gdk.type event = Gdk.BUTTON_RELEASE in
  (Pointer.pointer_mode self = Pointer.POINTERMODE_DISABLED \/
   Pointer.pointer_mode self = Pointer.POINTERMODE_CONTINEOUS ->
   o = Run.Outcome self [] (Py.Ok false)) /\
  (Pointer.pointer_mode self = Pointer.POINTERMODE_MANUAL ->
   (ctrl_press ->
    Pointer.show_pointer (Run.final o) = Pointer.POINTER_SHOW /\
    (Gtk.allocated widget -> Run.value o = Py.Ok true)) /\
   (shown_release ->
    Pointer.show_pointer (Run.final o) = Pointer.POINTER_HIDE /\
    Run.value o = Py.Ok true) /\
   (~ ctrl_press -> ~ shown_release ->
    o = Run.Outcome self [] (Py.Ok false))).
Proof.
  cbv zeta. unfold Pointer.toggle_pointer. split.
  - intros [H|H]; run_method; rewrite H; reflexivity.
  - intros Hm. run_method. rewrite Hm.
    cbn [Z.eqb Pointer.POINTERMODE_MANUAL Pointer.POINTERMODE_DISABLED
         Pointer.POINTERMODE_CONTINEOUS].
    split; [|split].
    + intros [Hc Hp].
      apply Z.eqb_neq in Hc. rewrite Hc, Hp. cbn [negb andb Z.eqb Gdk.BUTTON_PRESS Pos.eqb].
      pose proof (track_pointer_frame widget event
                    (Pointer.set_show_pointer Pointer.POINTER_SHOW self)) as F.
      cbv zeta in F. destruct F as (Fs & _).
      split.
      * destruct (Run.value (Pointer.track_pointer widget event
                    (Pointer.set_show_pointer Pointer.POINTER_SHOW self)));
          cbn [Run.final]; exact Fs.
      * intros Ha.
        destruct (track_pointer_shown widget event
                    (Pointer.set_show_pointer Pointer.POINTER_SHOW self)
                    eq_refl Ha)
          as (fw & fh & mw & ew & mh & eh & _ & _ & _ & _ & E).
        rewrite E. reflexivity.
    + intros [Hs Hr].
      rewrite Hs, Hr.
      rewrite Bool.andb_false_r. cbn. split; reflexivity.
    + intros Hnp Hnr.
      destruct (negb (Z.land (Gdk.get_state event) Gdk.CONTROL_MASK =? 0)
                && (Gdk.type event =? Gdk.BUTTON_PRESS)) eqn:E1.
      { exfalso. apply Hnp. apply andb_true_iff in E1. destruct E1 as [A B].
        apply negb_true_iff, Z.eqb_neq in A. apply Z.eqb_eq in B. auto. }
      destruct ((Pointer.show_pointer self =? Pointer.POINTER_SHOW)
                && (Gdk.type event =? Gdk.BUTTON_RELEASE)) eqn:E2.
      { exfalso. apply Hnr. apply andb_true_iff in E2. destruct E2 as [A B].
        apply Z.eqb_eq in A. apply Z.eqb_eq in B. auto. }
      reflexivity.
Qed.

Lemma toggle_pointer_spec_witness :
  (Pointer.show_pointer
     (Run.final (Pointer.toggle_pointer Examples.drawing_area
                   Examples.press_ctrl Examples.manual_red))
   = Pointer.POINTER_SHOW /\
   Run.value (Pointer.toggle_pointer Examples.drawing_area
                Examples.press_ctrl Examples.manual_red) = Py.Ok true) /\
  (Pointer.show_pointer
     (Run.final (Pointer.toggle_pointer Examples.drawing_area
                   Examples.release Examples.shown))
   = Pointer.POINTER_HIDE /\
   Run.value (Pointer.toggle_pointer Examples.drawing_area
                Examples.release Examples.shown) = Py.Ok true) /\
  Pointer.toggle_pointer Examples.drawing_area Examples.release
    Examples.manual_red
  = Run.Outcome Examples.manual_red [] (Py.Ok false) /\
  Pointer.toggle_pointer Examples.drawing_area Examples.press_ctrl
    (Pointer.set_pointer_mode Pointer.POINTERMODE_DISABLED Examples.shown)
  = Run.Outcome
      (Pointer.set_pointer_mode Pointer.POINTERMODE_DISABLED Examples.shown)
      [] (Py.Ok false).
Proof.
  split; [|split; [|split]].
  - destruct (toggle_pointer_spec Examples.drawing_area Examples.press_ctrl
                Examples.manual_red) as [_ H].
    destruct (H eq_refl) as [Hp _].
    destruct Hp as [Hs Hv].
    { split; [discriminate|reflexivity]. }
    split; [exact Hs|]. apply Hv. split; cbn; lia.
  - destruct (toggle_pointer_spec Examples.drawing_area Examples.release
                Examples.shown) as [_ H].
    destruct (H eq_refl) as [_ [Hr _]].
    apply Hr. split; reflexivity.
  - destruct (toggle_pointer_spec Examples.drawing_area Examples.release
                Examples.manual_red) as [_ H].
    destruct (H eq_refl) as [_ [_ Hn]].
    apply Hn; intros [A B]; discriminate.
  - destruct (toggle_pointer_spec Examples.drawing_area Examples.press_ctrl
                (Pointer.set_pointer_mode Pointer.POINTERMODE_DISABLED
                   Examples.shown)) as [H _].
    apply H. left. reflexivity.
Defined.

(** *** The position of the pointer *)

Ltac case_split :=
  match goal with
  | |- context [match ?x with _ => _ end] =>
      lazymatch x with
      | context [match _ with _ => _ end] => fail
      | _ => destruct x
      end
  end.

Ltac run_cases := run_method; repeat (case_split; run_method).

Lemma load_pointer_pos get_icon_path new_from_file name self :
  Pointer.pointer_pos
    (Run.final (Pointer.load_pointer get_icon_path new_from_file name self))
  = Pointer.pointer_pos self.
Proof.
  unfold Pointer.load_pointer. run_cases; reflexivity.
Qed.

Lemma change_pointer_pos get_icon_path new_from_file widget self :
  Pointer.pointer_pos
    (Run.final (Pointer.change_pointer get_icon_path new_from_file widget self))
  = Pointer.pointer_pos self.
Proof.
  unfold Pointer.change_pointer, Pointer.load_pointer. run_cases; reflexivity.
Qed.

Lemma activate_pointermode_pos mode self :
  Pointer.pointer_pos (Run.final (Pointer.activate_pointermode mode self))
  = Pointer.pointer_pos self.
Proof.
  unfold Pointer.activate_pointermode. run_cases; reflexivity.
Qed.

Lemma change_pointermode_pos widget self :
  Pointer.pointer_pos (Run.final (Pointer.change_pointermode widget self))
  = Pointer.pointer_pos self.
Proof.
  unfold Pointer.change_pointermode. run_method.
  destruct (Gtk.get_active widget); [|reflexivity].
  destruct (prefix "pointermode_" (Gtk.item_name widget)); [|reflexivity].
  pose proof (activate_pointermode_pos
                (Some (Pointer.drop_prefix "pointermode_" (Gtk.item_name widget)))
                self) as A.
  destruct (Pointer.activate_pointermode
              (Some (Pointer.drop_prefix "pointermode_" (Gtk.item_name widget)))
              self) as [s1 c1 [[]|e1]];
    cbn [Run.final Run.value Run.calls] in *; exact A.
Qed.

Lemma render_pointer_pos v ww wh self :
  Pointer.pointer_pos (Run.final (Pointer.render_pointer v ww wh self))
  = Pointer.pointer_pos self.
Proof.
  unfold Pointer.render_pointer. run_cases; reflexivity.
Qed.

Lemma init_pos get_icon_path new_from_file default_mode color self :
  Pointer.pointer_pos
    (Run.final (Pointer.init get_icon_path new_from_file default_mode color self))
  = Pointer.pointer_pos self.
Proof.
  unfold Pointer.init. run_method.
  pose proof (activate_pointermode_pos (Some default_mode) self) as A.
  destruct (Pointer.activate_pointermode (Some default_mode) self)
    as [s1 c1 [[]|e1]]; cbn [Run.final Run.value Run.calls] in *;
    [|exact A].
  pose proof (load_pointer_pos get_icon_path new_from_file
                ("pointer_" ++ color) s1) as L.
  destruct (Pointer.load_pointer get_icon_path new_from_file
              ("pointer_" ++ color) s1)
    as [s2 c2 [[]|e2]]; cbn [Run.final Run.value Run.calls] in *;
    congruence.
Qed.

Lemma positive_finite_bounds f m e :
  Prim2SF f = S754_finite false m e ->
  (0 <? f)%float = true /\ (f <? infinity)%float = true.
Proof.
  intros H. rewrite !ltb_spec, H, Prim2SF_zero, Prim2SF_infinity.
  split; reflexivity.
Qed.

Lemma track_pointer_in_unit_square widget event self :
  Gtk.allocated widget ->
  Geometry.on_widget widget event = true ->
  Geometry.in_unit_square (Pointer.pointer_pos self) = true ->
  Geometry.in_unit_square
    (Pointer.pointer_pos (Run.final (Pointer.track_pointer widget event self)))
  = true.
Proof.
  intros Ha Hon Hin.
  destruct (Z.eq_dec (Pointer.show_pointer self) Pointer.POINTER_SHOW) as [Hs|Hs].
  - destruct (track_pointer_shown widget event self Hs Ha)
      as (fw & fh & mw & ew & mh & eh & Fw & Fh & Sw & Sh & E).
    rewrite E. cbn [Run.final Pointer.set_pointer_pos Pointer.pointer_pos].
    unfold Geometry.on_widget, Geometry.within in Hon.
    rewrite Fw, Fh in Hon.
    apply andb_true_iff in Hon. destruct Hon as [Hx Hy].
    apply andb_true_iff in Hx. destruct Hx as [Hx0 Hx1].
    apply andb_true_iff in Hy. destruct Hy as [Hy0 Hy1].
    destruct (positive_finite_bounds fw mw ew Sw) as [Pw Iw].
    destruct (positive_finite_bounds fh mh eh Sh) as [Ph Ih].
    destruct (div_unit_interval _ _ Hx0 Hx1 Pw Iw) as [X0 X1].
    destruct (div_unit_interval _ _ Hy0 Hy1 Ph Ih) as [Y0 Y1].
    unfold Geometry.in_unit_square. cbn [fst snd].
    rewrite X0, X1, Y0, Y1. reflexivity.
  - rewrite (track_pointer_not_shown widget event self Hs). exact Hin.
Qed.

Lemma toggle_pointer_in_unit_square widget event self :
  Gtk.allocated widget ->
  Geometry.on_widget widget event = true ->
  Geometry.in_unit_square (Pointer.pointer_pos self) = true ->
  Geometry.in_unit_square
    (Pointer.pointer_pos (Run.final (Pointer.toggle_pointer widget event self)))
  = true.
Proof.
  intros Ha Hon Hin. unfold Pointer.toggle_pointer. run_method.
  destruct (Pointer.pointer_mode self =? Pointer.POINTERMODE_DISABLED);
    [exact Hin|].
  destruct (Pointer.pointer_mode self =? Pointer.POINTERMODE_CONTINEOUS);
    [exact Hin|].
  destruct (negb (Z.land (Gdk.get_state event) Gdk.CONTROL_MASK =? 0)
            && (Gdk.type event =? Gdk.BUTTON_PRESS)).
  - pose proof (track_pointer_in_unit_square widget event
                  (Pointer.set_show_pointer Pointer.POINTER_SHOW self)
                  Ha Hon Hin) as T.
    destruct (Run.value (Pointer.track_pointer widget event
                (Pointer.set_show_pointer Pointer.POINTER_SHOW self)));
      cbn [Run.final]; exact T.
  - destruct ((Pointer.show_pointer self =? Pointer.POINTER_SHOW)
              && (Gdk.type event =? Gdk.BUTTON_RELEASE)); exact Hin.
Qed.

(** A call that divides no coordinates leaves the position alone. *)
Lemma step_not_tracked v get_icon_path new_from_file o self :
  Session.tracked self o = None ->
  Pointer.pointer_pos (Session.step v get_icon_path new_from_file self o)
  = Pointer.pointer_pos self.
Proof.
  intros Ht. destruct o; cbn [Session.step Session.tracked] in *.
  - apply load_pointer_pos.
  - apply change_pointer_pos.
  - apply activate_pointermode_pos.
  - apply change_pointermode_pos.
  - apply render_pointer_pos.
  - destruct (Pointer.show_pointer self =? Pointer.POINTER_SHOW) eqn:E;
      [discriminate|].
    apply Z.eqb_neq in E.
    now rewrite (track_pointer_not_shown widget event self E).
  - unfold Pointer.toggle_pointer. run_method.
    destruct (Pointer.pointer_mode self =? Pointer.POINTERMODE_DISABLED);
      [reflexivity|].
    destruct (Pointer.pointer_mode self =? Pointer.POINTERMODE_CONTINEOUS);
      [reflexivity|].
    destruct (negb (Z.land (Gdk.get_state event) Gdk.CONTROL_MASK =? 0)
              && (Gdk.type event =? Gdk.BUTTON_PRESS)); [discriminate|].
    destruct ((Pointer.show_pointer self =? Pointer.POINTER_SHOW)
              && (Gdk.type event =? Gdk.BUTTON_RELEASE)); reflexivity.
Qed.

(** The event that a call divides is the one it received. *)
Lemma tracked_event self o widget event :
  Session.tracked self o = Some (widget, event) ->
  o = Session.Track_pointer widget event \/
  o = Session.Toggle_pointer widget event.
Proof.
  destruct o; cbn [Session.tracked]; try discriminate.
  - destruct (_ =? _); [|discriminate]. intros [= -> ->]. now left.
  - repeat (destruct (_ =? _); try discriminate);
      cbn [negb andb]; try discriminate; intros [= -> ->]; now right.
Qed.

Lemma step_in_unit_square v get_icon_path new_from_file o self :
  match Session.tracked self o with
  | Some (widget, event) =>
      Gtk.allocated widget /\ Geometry.on_widget widget event = true
  | None => True
  end ->
  Geometry.in_unit_square (Pointer.pointer_pos self) = true ->
  Geometry.in_unit_square
    (Pointer.pointer_pos (Session.step v get_icon_path new_from_file self o))
  = true.
Proof.
  intros Hon Hin.
  destruct (Session.tracked self o) as [[widget event]|] eqn:Ht.
  - destruct Hon as [Ha Hon].
    destruct (tracked_event self o widget event Ht) as [-> | ->];
      cbn [Session.step].
    + now apply track_pointer_in_unit_square.
    + now apply toggle_pointer_in_unit_square.
  - now rewrite step_not_tracked.
Qed.

Lemma run_in_unit_square v get_icon_path new_from_file ops :
  forall self,
    Session.on_widgets v get_icon_path new_from_file ops self ->
    Geometry.in_unit_square (Pointer.pointer_pos self) = true ->
    Geometry.in_unit_square
      (Pointer.pointer_pos (Session.run v get_icon_path new_from_file ops self))
    = true.
Proof.
  induction ops as [|o ops IH]; intros self Hon Hin; [exact Hin|].
  cbn [Session.on_widgets] in Hon. destruct Hon as [Ho Hops].
  cbn [Session.run fold_left]. apply IH; [exact Hops|].
  now apply step_in_unit_square.
Qed.

(** C8, as the code has it.  The position starts at (0.5, 0.5), in the unit
    square, and stays in the square along every sequence of calls in which
    each event whose coordinates are divided by the size of a widget lies on
    that widget (0 <= x <= width and 0 <= y <= height, on a valid
    allocation).  Those are the events given to [track_pointer] while the
    pointer is shown, and the events given to [toggle_pointer] in the manual
    mode when they are a press with the control key.  Every other event is
    free: a release, a press without the control key, any event while the
    pointer is hidden or disabled.  No other method writes the position. *)
Theorem pointer_pos_in_unit_square
    (v : Py.Version) (get_icon_path : string -> string)
    (new_from_file : string -> option GdkPixbuf.Pixbuf)
    (default_mode color : string) (p_da_cur : Gtk.Widget)
    (ops : list Session.op) :
  let built :=
    Session.built get_icon_path new_from_file default_mode color p_da_cur in
  Pointer.pointer_pos built = (0.5, 0.5)%float /\
  (Session.on_widgets v get_icon_path new_from_file ops built ->
   Geometry.in_unit_square
     (Pointer.pointer_pos (Session.run v get_icon_path new_from_file ops built))
   = true).
Proof.
  cbv zeta.
  assert (P : Pointer.pointer_pos
                (Session.built get_icon_path new_from_file default_mode color
                   p_da_cur) = (0.5, 0.5)%float).
  { unfold Session.built. rewrite init_pos. reflexivity. }
  split; [exact P|].
  intros H. apply run_in_unit_square; [exact H|].
  rewrite P. vm_compute. reflexivity.
Qed.

Lemma pointer_pos_in_unit_square_witness :
  Geometry.on_widget Examples.drawing_area Examples.release_outside = false /\
  Geometry.on_widget Examples.drawing_area Examples.motion_outside = false /\
  Geometry.in_unit_square
    (Pointer.pointer_pos
       (Session.run Py.Py3 Examples.get_icon_path Examples.new_from_file
          Examples.release_past_the_side
          (Session.built Examples.get_icon_path Examples.new_from_file
             "manual" "red" Examples.drawing_area)))
  = true.
Proof.
  split; [vm_compute; reflexivity|]. split; [vm_compute; reflexivity|].
  apply (pointer_pos_in_unit_square Py.Py3 Examples.get_icon_path
           Examples.new_from_file "manual" "red" Examples.drawing_area
           Examples.release_past_the_side).
  assert (A : Gtk.allocated Examples.drawing_area) by (split; cbn; lia).
  cbn.
  exact (conj (conj A eq_refl) (conj (conj A eq_refl) (conj I (conj I I)))).
Defined.

(** C8, as the specification states it, fails: built with [manual] and
    [red], after a press with the control key and a motion reported at
    x = 300 on a widget 200 pixels wide, the position is (1.5, 0.5). *)
Lemma pointer_pos_leaves_unit_square :
  let self :=
    Session.run Py.Py3 Examples.get_icon_path Examples.new_from_file
      Examples.drag_outside
      (Session.built Examples.get_icon_path Examples.new_from_file
         "manual" "red" Examples.drawing_area) in
  Pointer.pointer_pos self = (1.5, 0.5)%float /\
  Geometry.in_unit_square (Pointer.pointer_pos self) = false /\
  ~ (forall widget event self,
       Gtk.allocated widget ->
       Geometry.in_unit_square (Pointer.pointer_pos self) = true ->
       Geometry.in_unit_square
         (Pointer.pointer_pos
            (Run.final (Pointer.track_pointer widget event self))) = true).
Proof.
  cbv zeta. split; [vm_compute; reflexivity|].
  split; [vm_compute; reflexivity|].
  intros H.
  specialize (H Examples.drawing_area Examples.motion_outside Examples.shown).
  assert (A : Gtk.allocated Examples.drawing_area) by (split; cbn; lia).
  specialize (H A). vm_compute in H. specialize (H eq_refl). discriminate.
Qed.

(** ** The time label *)

Lemma string_app_nil (s : string) : s ++ "" = s.
Proof. induction s; cbn; congruence. Qed.

Lemma string_app_assoc (a b c : string) : (a ++ b) ++ c = a ++ b ++ c.
Proof. induction a; cbn; congruence. Qed.

Lemma brace_free_app a b :
  TimeText.brace_free (a ++ b) = TimeText.brace_free a && TimeText.brace_free b.
Proof.
  induction a as [|c a IH]; [reflexivity|].
  cbn [append TimeText.brace_free]. rewrite IH.
  now rewrite !andb_assoc.
Qed.

Lemma brace_free_replicate k :
  TimeText.brace_free (Py.replicate k "0") = true.
Proof. induction k; [reflexivity|exact IHk]. Qed.

Lemma brace_free_decimal n : TimeText.brace_free (Py.decimal n) = true.
Proof.
  unfold Py.decimal. induction (N.to_uint (Z.abs_N n)); [reflexivity|..];
    cbn [NilEmpty.string_of_uint TimeText.brace_free]; exact IHu.
Qed.

Lemma brace_free_format_zero w n :
  TimeText.brace_free (Py.format_zero w n) = true.
Proof.
  unfold Py.format_zero, Py.pad_left. destruct (n <? 0).
  - cbn [TimeText.brace_free].
    now rewrite brace_free_app, brace_free_replicate, brace_free_decimal.
  - now rewrite brace_free_app, brace_free_replicate, brace_free_decimal.
Qed.

(** Text without braces goes through [format] unchanged. *)
Lemma format_from_text s args :
  TimeText.brace_free s = true ->
  Py.format_from Py.Text s args = Py.Ok s.
Proof.
  induction s as [|c s IH]; [reflexivity|].
  cbn [TimeText.brace_free Py.format_from]. intros H.
  apply andb_true_iff in H. destruct H as [H Hs].
  apply andb_true_iff in H. destruct H as [Ho Hc].
  apply negb_true_iff in Ho. apply negb_true_iff in Hc.
  rewrite Ho, Hc, (IH Hs). reflexivity.
Qed.

Lemma decimal_length n : (1 <= String.length (Py.decimal n))%nat.
Proof.
  unfold Py.decimal. destruct (Z.abs_N n) as [|p]; [cbn; lia|].
  cbn [N.to_uint]. pose proof (DecimalPos.Unsigned.to_uint_nonnil p) as H.
  destruct (Pos.to_uint p); [now elim H|..]; cbn; lia.
Qed.

(** Minutes come out unpadded. *)
Lemma format_zero_1 n : Py.format_zero 1 n = TimeText.str_int n.
Proof.
  unfold Py.format_zero, TimeText.str_int, Py.pad_left.
  pose proof (decimal_length n) as H.
  destruct (n <? 0).
  - reflexivity.
  - replace (1 - String.length (Py.decimal n))%nat with 0%nat by lia.
    reflexivity.
Qed.

(** Seconds come out as two digits. *)
Lemma format_zero_2 s :
  0 <= s < 60 -> Py.format_zero 2 s = TimeText.two_digits s.
Proof.
  intros H. rewrite <- (Z2Nat.id s) by lia.
  assert (Hk : (Z.to_nat s < 60)%nat) by lia.
  generalize dependent (Z.to_nat s). clear. intros k Hk.
  do 60 (destruct k as [|k]; [reflexivity|]). lia.
Qed.

Lemma format_default m s :
  Py.format VideoOverlay.default_time_format [m; s]
  = Py.Ok (Py.format_zero 1 m ++ String ":" (Py.format_zero 2 s ++ "")).
Proof. reflexivity. Qed.

(** The format that [update_range] fills in: its doubled braces become
    the fields of the position, followed by the separator and the total. *)
Lemma format_with_total m s :
  Py.format "{{:01}}:{{:02}} / {:01}:{:02}" [m; s]
  = Py.Ok (VideoOverlay.default_time_format ++ TimeText.separator
           ++ Py.format_zero 1 m ++ String ":" (Py.format_zero 2 s ++ "")).
Proof. reflexivity. Qed.

Lemma format_current_and_total total m s :
  Py.format (VideoOverlay.default_time_format ++ TimeText.separator ++ total)
    [m; s]
  = Py.emit_str (Py.format_zero 1 m)
      (Py.emit ":"
         (Py.emit_str (Py.format_zero 2 s)
            (Py.emit "194" (Py.emit "160" (Py.emit "/"
               (Py.emit "194" (Py.emit "160"
                  (Py.format_from Py.Text total [])))))))).
Proof. reflexivity. Qed.

(** The two fields of a time, as [format] renders them. *)
Lemma fields_m_ss n :
  Py.format_zero 1 (n / 60) ++ String ":" (Py.format_zero 2 (n mod 60) ++ "")
  = TimeText.m_ss n.
Proof.
  rewrite format_zero_1, format_zero_2, string_app_nil
    by (apply Z.mod_pos_bound; lia).
  reflexivity.
Qed.

(** C3. With the format of the class, [format_millis] turns a second count
    into minutes and seconds by division and remainder by 60 of the rounded
    count: the minutes unpadded, a colon, the seconds on two digits; it
    changes nothing and calls nothing.  On 0, 59, 60 and 125 it gives
    [0:00], [0:59], [1:00] and [2:05]. *)
Theorem format_millis_default (v : Py.Version) (prog : float)
    (self : VideoOverlay.t) :
  VideoOverlay.time_format self = VideoOverlay.default_time_format ->
  let o := VideoOverlay.format_millis v prog self in
  Run.final o = self /\ Run.calls o = [] /\
  Run.value o
  = Py.rbind (Py.int_round v prog) (fun n => Py.Ok (TimeText.m_ss n)) /\
  Run.value (VideoOverlay.format_millis v 0 self) = Py.Ok "0:00" /\
  Run.value (VideoOverlay.format_millis v 59 self) = Py.Ok "0:59" /\
  Run.value (VideoOverlay.format_millis v 60 self) = Py.Ok "1:00" /\
  Run.value (VideoOverlay.format_millis v 125 self) = Py.Ok "2:05".
Proof.
  intros Hf.
  assert (G : forall x,
             let o := VideoOverlay.format_millis v x self in
             Run.final o = self /\ Run.calls o = [] /\
             Run.value o
             = Py.rbind (Py.int_round v x) (fun n => Py.Ok (TimeText.m_ss n))).
  { intros x. unfold VideoOverlay.format_millis. run_method.
    destruct (Py.int_round v x) as [n|e]; cbn [Py.rbind]; [|repeat split].
    unfold Py.divmod. run_method.
    rewrite Hf, format_default, fields_m_ss. repeat split. }
  cbv zeta in *.
  destruct (G prog) as (G1 & G2 & G3).
  repeat split; try assumption.
  - destruct (G 0%float) as (_ & _ & ->). vm_compute. reflexivity.
  - destruct (G 59%float) as (_ & _ & ->). vm_compute. reflexivity.
  - destruct (G 60%float) as (_ & _ & ->). vm_compute. reflexivity.
  - destruct (G 125%float) as (_ & _ & ->). vm_compute. reflexivity.
Qed.

Lemma format_millis_default_witness :
  Run.value (VideoOverlay.format_millis Py.Py3 90.25 Examples.overlay)
  = Py.Ok "1:30".
Proof.
  destruct (format_millis_default Py.Py3 90.25 Examples.overlay eq_refl)
    as (_ & _ & H & _).
  rewrite H. vm_compute. reflexivity.
Defined.

(** *** The order of binary64 numbers *)

Lemma SFcompare_swap x y :
  SFcompare y x = option_map CompOpp (SFcompare x y).
Proof.
  destruct x as [sx|sx| |sx mx ex], y as [sy|sy| |sy my ey];
    try reflexivity; try (destruct sx; reflexivity);
    try (destruct sy; reflexivity);
    try (destruct sx, sy; reflexivity).
  unfold SFcompare. cbn [option_map]. f_equal.
  rewrite (Z.compare_antisym ex ey).
  pose proof (Pos.compare_cont_antisym mx my Eq) as A. cbn [CompOpp] in A.
  destruct sx, sy; try reflexivity;
    destruct (ex ?= ey); cbn [CompOpp]; try reflexivity;
    rewrite <- A; destruct (Pos.compare_cont Eq mx my); reflexivity.
Qed.

Lemma leb_not_ltb (x y : float) :
  (x <=? y)%float = true -> (y <? x)%float = false.
Proof.
  rewrite leb_spec, ltb_spec. unfold SFleb, SFltb.
  rewrite (SFcompare_swap (Prim2SF x) (Prim2SF y)).
  destruct (SFcompare (Prim2SF x) (Prim2SF y)) as [[| |]|];
    cbn; congruence.
Qed.

Lemma Prim2SF_half :
  Prim2SF 0.5 = S754_finite false 4503599627370496 (-53).
Proof. vm_compute. reflexivity. Qed.

Lemma round_mantissa_nonneg v m e : 0 <= Py.round_mantissa v m e.
Proof.
  unfold Py.round_mantissa. destruct e as [|p|p].
  - lia.
  - apply Z.mul_nonneg_nonneg; [lia|]. apply Z.lt_le_incl, pow2_pos. lia.
  - assert (Hd : 0 < 2 ^ Zpos p) by (apply pow2_pos; lia).
    assert (Hq : 0 <= Zpos m / 2 ^ Zpos p) by (apply Z.div_pos; lia).
    cbv zeta.
    destruct (2 * (Zpos m mod 2 ^ Zpos p) ?= 2 ^ Zpos p); [|lia|lia].
    destruct v; [lia|]. destruct (Z.even _); lia.
Qed.

(** A finite time above half a second rounds to a count that is not
    negative. *)
Lemma int_round_above_half v (x : float) :
  (0.5 <? x)%float = true -> (x <? infinity)%float = true ->
  exists n, Py.int_round v x = Py.Ok n /\ 0 <= n.
Proof.
  rewrite !ltb_spec, Prim2SF_half, Prim2SF_infinity.
  unfold Py.int_round.
  destruct (Prim2SF x) as [s|s| |s m e]; intros H1 H2.
  - discriminate.
  - destruct s; discriminate.
  - discriminate.
  - destruct s; [discriminate|].
    eexists. split; [reflexivity|]. apply round_mantissa_nonneg.
Qed.

Lemma brace_free_m_ss n : TimeText.brace_free (TimeText.m_ss n) = true.
Proof.
  rewrite <- fields_m_ss.
  rewrite brace_free_app, brace_free_format_zero.
  cbn [TimeText.brace_free Ascii.eqb Bool.eqb negb andb].
  rewrite brace_free_app, brace_free_format_zero. reflexivity.
Qed.

(** [update_range] once the whole seconds of the total are known. *)
Lemma update_range_outcome v (max_time : float) (self : VideoOverlay.t) sec :
  (if (0.5 <? max_time)%float then Py.int_round v max_time else Py.Ok 1)
  = Py.Ok sec ->
  Run.value (VideoOverlay.update_range v max_time self) = Py.Ok tt /\
  Run.calls (VideoOverlay.update_range v max_time self) = [] /\
  VideoOverlay.time_format
    (Run.final (VideoOverlay.update_range v max_time self))
  = VideoOverlay.default_time_format ++ TimeText.separator
    ++ TimeText.m_ss sec.
Proof.
  intros H. unfold VideoOverlay.update_range. run_method.
  cbn [VideoOverlay.maxval VideoOverlay.set_maxval VideoOverlay.set_progress].
  rewrite H. unfold Py.divmod. run_method.
  rewrite format_with_total, fields_m_ss. run_method.
  repeat split.
Qed.

(** [format_millis] once a total is in the format. *)
Lemma format_millis_with_total v (prog : float) (self : VideoOverlay.t) total :
  VideoOverlay.time_format self
  = VideoOverlay.default_time_format ++ TimeText.separator ++ total ->
  TimeText.brace_free total = true ->
  Run.value (VideoOverlay.format_millis v prog self)
  = Py.rbind (Py.int_round v prog)
      (fun n => Py.Ok (TimeText.m_ss n ++ TimeText.separator ++ total)).
Proof.
  intros Hf Hb. unfold VideoOverlay.format_millis. run_method.
  destruct (Py.int_round v prog) as [n|e]; cbn [Py.rbind]; [|reflexivity].
  unfold Py.divmod. run_method.
  rewrite Hf, format_current_and_total, (format_from_text total [] Hb).
  cbn [Py.emit Py.emit_str Py.rbind].
  rewrite <- fields_m_ss, string_app_nil, string_app_assoc.
  reflexivity.
Qed.

(** C4, as the code has it.  For a [max_time] above 0.5 other than
    +infinity, [update_range] returns and the label of [prog = max_time] is
    [M:SS], a slash between two no-break spaces (U+00A0, not ASCII spaces),
    and [M:SS] again: the same minutes and two-digit seconds on both sides,
    those of the rounded [max_time].  For a [max_time] of 0.5 or less the
    total shown after the same separator is [0:01].  For +infinity, which is
    above 0.5, [update_range] raises [OverflowError] and leaves the format
    it found. *)
Theorem update_range_then_format (v : Py.Version) (max_time : float)
    (self : VideoOverlay.t) :
  let ranged := VideoOverlay.update_range v max_time self in
  ((0.5 <? max_time)%float = true -> (max_time <? infinity)%float = true ->
   exists n,
     Py.int_round v max_time = Py.Ok n /\ 0 <= n /\
     Run.value ranged = Py.Ok tt /\
     Run.value (VideoOverlay.format_millis v max_time (Run.final ranged))
     = Py.Ok (TimeText.m_ss n ++ TimeText.separator ++ TimeText.m_ss n)) /\
  ((max_time <=? 0.5)%float = true ->
   Run.value ranged = Py.Ok tt /\
   VideoOverlay.time_format (Run.final ranged)
   = VideoOverlay.default_time_format ++ TimeText.separator ++ "0:01" /\
   forall prog,
     Run.value (VideoOverlay.format_millis v prog (Run.final ranged))
     = Py.rbind (Py.int_round v prog)
         (fun n => Py.Ok (TimeText.m_ss n ++ TimeText.separator ++ "0:01"))) /\
  (max_time = infinity ->
   Run.value ranged = Py.Err Py.OverflowError /\
   VideoOverlay.time_format (Run.final ranged) = VideoOverlay.time_format self).
Proof.
  cbv zeta. split; [|split].
  - intros Hlo Hfin.
    destruct (int_round_above_half v max_time Hlo Hfin) as (n & Hn & Hpos).
    destruct (update_range_outcome v max_time self n) as (Hv & _ & Hf).
    { rewrite Hlo. exact Hn. }
    exists n. repeat (split; [assumption|]).
    rewrite (format_millis_with_total v max_time _ _ Hf (brace_free_m_ss n)).
    rewrite Hn. reflexivity.
  - intros Hle. apply leb_not_ltb in Hle.
    destruct (update_range_outcome v max_time self 1) as (Hv & _ & Hf).
    { rewrite Hle. reflexivity. }
    split; [exact Hv|]. split; [exact Hf|].
    intros prog.
    exact (format_millis_with_total v prog _ _ Hf (brace_free_m_ss 1)).
  - intros ->. unfold VideoOverlay.update_range. run_method.
    split; reflexivity.
Qed.

Lemma update_range_then_format_witness :
  Run.value
    (VideoOverlay.format_millis Py.Py3 125.5
       (Run.final (VideoOverlay.update_range Py.Py3 125.5 Examples.overlay)))
  = Py.Ok ("2:06" ++ TimeText.separator ++ "2:06")
  /\ VideoOverlay.time_format
       (Run.final (VideoOverlay.update_range Py.Py3 0.25 Examples.overlay))
     = "{:01}:{:02}" ++ TimeText.separator ++ "0:01"
  /\ Run.value (VideoOverlay.update_range Py.Py3 infinity Examples.overlay)
     = Py.Err Py.OverflowError.
Proof.
  split; [|split].
  - destruct (update_range_then_format Py.Py3 125.5 Examples.overlay)
      as [H _].
    destruct H as (n & Hn & _ & _ & E);
      [vm_compute; reflexivity|vm_compute; reflexivity|].
    rewrite E. vm_compute in Hn. injection Hn as <-.
    vm_compute. reflexivity.
  - destruct (update_range_then_format Py.Py3 0.25 Examples.overlay)
      as (_ & H & _).
    destruct H as (_ & E & _); [vm_compute; reflexivity|exact E].
  - destruct (update_range_then_format Py.Py3 infinity Examples.overlay)
      as (_ & _ & H).
    destruct (H eq_refl) as (E & _). exact E.
Defined.

(** C4, as the specification states it, fails on two counts.  +infinity is
    a [max_time] above 0.5, and there [update_range] raises
    [OverflowError], as [format_millis] does on that position: no label is
    made.  And for a finite duration, 125.5 seconds, the label is not
    [2:06 / 2:06] written with ASCII spaces: its two blanks are no-break
    spaces. *)
Lemma update_range_then_format_fails :
  (0.5 <? infinity)%float = true /\
  Run.value (VideoOverlay.update_range Py.Py3 infinity Examples.overlay)
  = Py.Err Py.OverflowError /\
  Run.value
    (VideoOverlay.format_millis Py.Py3 infinity
       (Run.final (VideoOverlay.update_range Py.Py3 infinity Examples.overlay)))
  = Py.Err Py.OverflowError /\
  Run.value
    (VideoOverlay.format_millis Py.Py3 125.5
       (Run.final (VideoOverlay.update_range Py.Py3 125.5 Examples.overlay)))
  <> Py.Ok "2:06 / 2:06".
Proof.
  split; [reflexivity|]. split; [reflexivity|]. split; [reflexivity|].
  vm_compute. discriminate.
Qed.

(** ** Showing the overlay *)

Lemma is_nan_false (x : float) :
  is_nan x = false -> Prim2SF x <> S754_nan.
Proof.
  unfold is_nan. rewrite eqb_spec. intros H E. rewrite E in H. discriminate.
Qed.

(** The binary64 numbers below zero. *)
Lemma ltb_zero (x : float) :
  (x <? 0)%float = true <->
  (exists m e, Prim2SF x = S754_finite true m e) \/
  Prim2SF x = S754_infinity true.
Proof.
  rewrite ltb_spec, Prim2SF_zero.
  destruct (Prim2SF x) as [s|[|]| |[|] m e]; cbn; split;
    try discriminate; try (intros [(m' & e' & H)|H]; discriminate);
    eauto.
Qed.

Lemma min2_choice a b : Py.min2 a b = a \/ Py.min2 a b = b.
Proof. unfold Py.min2. destruct (b <? a)%float; auto. Qed.

(** What compares below something is a number. *)
Lemma ltb_not_nan (a b : float) :
  (b <? a)%float = true -> is_nan b = false.
Proof.
  rewrite ltb_spec. unfold is_nan. rewrite eqb_spec.
  unfold SFltb, SFeqb, SFcompare.
  destruct (Prim2SF b) as [s|s| |s m e]; try reflexivity;
    try (destruct s; reflexivity); [discriminate|].
  intros _. rewrite Z.compare_refl, Pos.compare_cont_refl.
  destruct s; reflexivity.
Qed.

(** [min] of two items, of which the first is a number, is below zero as
    soon as one of them is: the second item may be a NaN, which never
    replaces the first. *)
Lemma min2_negative (a b : float) :
  is_nan a = false ->
  (a <? 0)%float = true \/ (b <? 0)%float = true ->
  (Py.min2 a b <? 0)%float = true.
Proof.
  intros Na H. apply is_nan_false in Na.
  unfold Py.min2. destruct (b <? a)%float eqn:E.
  - destruct H as [H|H]; [|exact H].
    apply ltb_zero in H. apply ltb_zero.
    rewrite ltb_spec in E. unfold SFltb in E.
    destruct H as [(m & e & H)|H]; rewrite H in E;
      destruct (Prim2SF b) as [s|[|]| |[|] m' e']; cbn in E;
      try discriminate; eauto.
  - destruct H as [H|H]; [exact H|].
    apply ltb_zero in H. apply ltb_zero.
    rewrite ltb_spec in E. unfold SFltb in E.
    destruct H as [(m & e & H)|H]; rewrite H in E;
      destruct (Prim2SF a) as [s|[|]| |[|] m' e']; cbn in E;
      try discriminate; try (now elim Na); eauto.
Qed.

Lemma min2_not_nan (a b : float) :
  is_nan a = false -> is_nan (Py.min2 a b) = false.
Proof.
  intros Na. unfold Py.min2. destruct (b <? a)%float eqn:E; [|exact Na].
  exact (ltb_not_nan a b E).
Qed.

Lemma min2_not_negative (a b : float) :
  (a <? 0)%float = false -> (b <? 0)%float = false ->
  (Py.min2 a b <? 0)%float = false.
Proof. intros. destruct (min2_choice a b) as [-> | ->]; assumption. Qed.

Lemma mul_int_allocated n :
  1 <= n <= 2147483647 ->
  exists f, forall x, Py.mul_int n x = Py.Ok (f * x)%float.
Proof.
  intros Hn. destruct (float_of_int_allocated n Hn) as (f & m & e & Hf & _).
  exists f. intros x. unfold Py.mul_int. rewrite Hf. reflexivity.
Qed.

(** [resize] on an attached overlay whose parent has a valid allocation:
    it returns, calls nothing, and leaves the overlay attached. *)
Lemma resize_attached (self : VideoOverlay.t) :
  VideoOverlay.get_parent (VideoOverlay.media_overlay self) = true ->
  Gtk.allocated (VideoOverlay.parent self) ->
  let o := VideoOverlay.resize self in
  Run.value o = Py.Ok tt /\ Run.calls o = [] /\
  VideoOverlay.get_parent (VideoOverlay.media_overlay (Run.final o)) = true.
Proof.
  intros Hp [Hw Hh].
  destruct (mul_int_allocated _ Hw) as (fw & Fw).
  destruct (mul_int_allocated _ Hh) as (fh & Fh).
  unfold VideoOverlay.resize, VideoOverlay.is_shown. run_method.
  rewrite Hp. cbn [negb]. rewrite !Fw, !Fh. cbn. rewrite Hp. repeat split.
Qed.

(** C5, as the code has it.  The guard of [show] is
    [min(relative_margins) < 0], and [min] keeps its first item until one
    compares below it.  When the first margin is a number (not a NaN) and
    one of the four margins is negative, [show] only logs a warning: the
    overlay is exactly as before, nothing is attached, resized or shown.
    With four margins that are not negative, on a parent with a valid
    allocation, [show] adds the overlay to its parent unless it is there
    already, and shows it. *)
Theorem show_spec (self : VideoOverlay.t) :
  let m := VideoOverlay.relative_margins self in
  let o := VideoOverlay.show self in
  (is_nan (VideoOverlay.margin_0 m) = false ->
   (VideoOverlay.margin_0 m <? 0)%float = true \/
   (VideoOverlay.margin_1 m <? 0)%float = true \/
   (VideoOverlay.margin_2 m <? 0)%float = true \/
   (VideoOverlay.margin_3 m <? 0)%float = true ->
   o = Run.Outcome self [VideoOverlay.logger_warning m] (Py.Ok tt)) /\
  ((0 <=? VideoOverlay.margin_0 m)%float = true ->
   (0 <=? VideoOverlay.margin_1 m)%float = true ->
   (0 <=? VideoOverlay.margin_2 m)%float = true ->
   (0 <=? VideoOverlay.margin_3 m)%float = true ->
   Gtk.allocated (VideoOverlay.parent self) ->
   Run.value o = Py.Ok tt /\
   VideoOverlay.get_parent (VideoOverlay.media_overlay (Run.final o)) = true /\
   VideoOverlay.visible (VideoOverlay.media_overlay (Run.final o)) = true /\
   Run.calls o
   = if VideoOverlay.get_parent (VideoOverlay.media_overlay self) then []
     else [VideoOverlay.add_overlay; VideoOverlay.reorder_overlay 2;
           VideoOverlay.queue_draw]).
Proof.
  cbv zeta. split.
  - intros N0 H.
    assert (Hmin : (VideoOverlay.min_margin (VideoOverlay.relative_margins self)
                    <? 0)%float = true).
    { unfold VideoOverlay.min_margin, Py.min_of. cbn [fold_left].
      destruct H as [H|[H|[H|H]]].
      - apply min2_negative; [repeat apply min2_not_nan; assumption|].
        left. apply min2_negative; [apply min2_not_nan; assumption|].
        left. apply min2_negative; auto.
      - apply min2_negative; [repeat apply min2_not_nan; assumption|].
        left. apply min2_negative; [apply min2_not_nan; assumption|].
        left. apply min2_negative; auto.
      - apply min2_negative; [repeat apply min2_not_nan; assumption|].
        left. apply min2_negative; [apply min2_not_nan; assumption|].
        right. exact H.
      - apply min2_negative; [repeat apply min2_not_nan; assumption|].
        right. exact H. }
    unfold VideoOverlay.show. run_method. rewrite Hmin. reflexivity.
  - intros P0 P1 P2 P3 Ha.
    apply leb_not_ltb in P0, P1, P2, P3.
    assert (Hmin : (VideoOverlay.min_margin (VideoOverlay.relative_margins self)
                    <? 0)%float = false).
    { unfold VideoOverlay.min_margin, Py.min_of. cbn [fold_left].
      repeat apply min2_not_negative; assumption. }
    unfold VideoOverlay.show. run_method. rewrite Hmin.
    destruct (VideoOverlay.get_parent (VideoOverlay.media_overlay self)) eqn:E.
    + cbn. rewrite E. repeat split.
    + cbn [negb].
      destruct (resize_attached
                  (VideoOverlay.set_media_overlay
                     (VideoOverlay.set_box_parent true
                        (VideoOverlay.media_overlay self)) self))
        as (Rv & Rc & Rp); [reflexivity|exact Ha|].
      cbv zeta in Rv, Rc, Rp.
      destruct (VideoOverlay.resize _) as [s1 c1 v1].
      cbn [Run.final Run.calls Run.value] in *. subst c1 v1.
      cbn. rewrite Rp. repeat split.
Qed.

Lemma show_spec_witness :
  VideoOverlay.show Examples.overlay_off_slide
  = Run.Outcome Examples.overlay_off_slide
      [VideoOverlay.logger_warning (0.25, -0.125, 0.25, 0.5)%float] (Py.Ok tt)
  /\ VideoOverlay.show Examples.overlay_nan_top
     = Run.Outcome Examples.overlay_nan_top
         [VideoOverlay.logger_warning (0.25, nan, -0.125, 0.5)%float] (Py.Ok tt)
  /\ VideoOverlay.get_parent
       (VideoOverlay.media_overlay (Run.final (VideoOverlay.show Examples.overlay)))
     = true
  /\ VideoOverlay.visible
       (VideoOverlay.media_overlay (Run.final (VideoOverlay.show Examples.overlay)))
     = true.
Proof.
  split; [|split].
  - destruct (show_spec Examples.overlay_off_slide) as [H _].
    apply H; [vm_compute; reflexivity|].
    right. left. vm_compute. reflexivity.
  - destruct (show_spec Examples.overlay_nan_top) as [H _].
    apply H; [vm_compute; reflexivity|].
    right. right. left. vm_compute. reflexivity.
  - destruct (show_spec Examples.overlay) as [_ H].
    destruct H as (_ & Hp & Hv & _); try (vm_compute; reflexivity).
    { split; cbn; lia. }
    split; assumption.
Defined.

(** C5, as the specification states it, fails: it does not hold for every
    value of the margins.  With a left margin that is a NaN and a negative
    top margin, [min] returns the NaN, which is not below zero: [show] logs
    nothing, adds the overlay to its parent and shows it. *)
Lemma show_with_a_negative_margin :
  (VideoOverlay.margin_1
     (VideoOverlay.relative_margins Examples.overlay_nan_margin) <? 0)%float
  = true /\
  VideoOverlay.get_parent
    (VideoOverlay.media_overlay Examples.overlay_nan_margin) = false /\
  Run.value (VideoOverlay.show Examples.overlay_nan_margin) = Py.Ok tt /\
  Run.calls (VideoOverlay.show Examples.overlay_nan_margin)
  = [VideoOverlay.add_overlay; VideoOverlay.reorder_overlay 2;
     VideoOverlay.queue_draw] /\
  VideoOverlay.get_parent
    (VideoOverlay.media_overlay
       (Run.final (VideoOverlay.show Examples.overlay_nan_margin))) = true /\
  VideoOverlay.visible
    (VideoOverlay.media_overlay
       (Run.final (VideoOverlay.show Examples.overlay_nan_margin))) = true.
Proof. repeat split; vm_compute; reflexivity. Qed.

(** * Further properties *)

(** ** The mode and the visibility of the pointer *)

Lemma activate_pointermode_returns mode self :
  Run.value (Pointer.activate_pointermode mode self) = Py.Ok tt.
Proof. unfold Pointer.activate_pointermode. run_cases; reflexivity. Qed.

(** What [activate_pointermode] leaves in the two fields, by the mode it
    was given. *)
Lemma activate_pointermode_fields mode self :
  let s := Run.final (Pointer.activate_pointermode mode self) in
  (Pointer.show_pointer s, Pointer.pointer_mode s)
  = if Pointer.mode_is mode "continous"
    then (Pointer.POINTER_SHOW, Pointer.POINTERMODE_CONTINEOUS)
    else if Pointer.mode_is mode "manual"
    then (Pointer.POINTER_HIDE, Pointer.POINTERMODE_MANUAL)
    else if Pointer.mode_is mode "none"
    then (Pointer.POINTER_HIDE, Pointer.POINTERMODE_DISABLED)
    else (Pointer.show_pointer self, Pointer.pointer_mode self).
Proof.
  unfold Pointer.activate_pointermode.
  destruct (Pointer.mode_is mode "continous");
    [|destruct (Pointer.mode_is mode "manual");
      [|destruct (Pointer.mode_is mode "none")]];
    run_cases; reflexivity.
Qed.

Lemma activate_pointermode_frame mode self :
  let s := Run.final (Pointer.activate_pointermode mode self) in
  Pointer.pointer s = Pointer.pointer self /\
  Pointer.p_da_cur s = Pointer.p_da_cur self.
Proof.
  unfold Pointer.activate_pointermode. run_cases; split; reflexivity.
Qed.

Lemma coherent_fields self s :
  Pointer.show_pointer s = Pointer.show_pointer self ->
  Pointer.pointer_mode s = Pointer.pointer_mode self ->
  Session.coherent self -> Session.coherent s.
Proof. unfold Session.coherent. intros -> ->. exact (fun H => H). Qed.

Lemma activate_pointermode_coherent mode self :
  Session.coherent self ->
  Session.coherent (Run.final (Pointer.activate_pointermode mode self)).
Proof.
  intros H. pose proof (activate_pointermode_fields mode self) as F.
  cbv zeta in F. unfold Session.coherent.
  destruct (Pointer.mode_is mode "continous");
    [|destruct (Pointer.mode_is mode "manual");
      [|destruct (Pointer.mode_is mode "none")]];
    injection F as -> ->; auto.
Qed.

Lemma load_pointer_fields get_icon_path new_from_file name self :
  let s := Run.final (Pointer.load_pointer get_icon_path new_from_file name self) in
  Pointer.show_pointer s = Pointer.show_pointer self /\
  Pointer.pointer_mode s = Pointer.pointer_mode self /\
  Pointer.p_da_cur s = Pointer.p_da_cur self.
Proof.
  unfold Pointer.load_pointer. run_cases; repeat split.
Qed.

Lemma change_pointer_fields get_icon_path new_from_file widget self :
  let s := Run.final (Pointer.change_pointer get_icon_path new_from_file
                        widget self) in
  Pointer.show_pointer s = Pointer.show_pointer self /\
  Pointer.pointer_mode s = Pointer.pointer_mode self.
Proof.
  unfold Pointer.change_pointer, Pointer.load_pointer.
  run_cases; repeat split.
Qed.

Lemma change_pointermode_coherent widget self :
  Session.coherent self ->
  Session.coherent (Run.final (Pointer.change_pointermode widget self)).
Proof.
  intros H. unfold Pointer.change_pointermode. run_method.
  destruct (Gtk.get_active widget); [|exact H].
  destruct (prefix "pointermode_" (Gtk.item_name widget)); [|exact H].
  pose proof (activate_pointermode_coherent
                (Some (Pointer.drop_prefix "pointermode_" (Gtk.item_name widget)))
                self H) as A.
  destruct (Pointer.activate_pointermode
              (Some (Pointer.drop_prefix "pointermode_" (Gtk.item_name widget)))
              self) as [s1 c1 [[]|e1]];
    cbn [Run.final Run.value Run.calls] in *; exact A.
Qed.

Lemma render_pointer_final v ww wh self :
  Run.final (Pointer.render_pointer v ww wh self) = self.
Proof.
  unfold Pointer.render_pointer. run_cases; reflexivity.
Qed.

Lemma toggle_pointer_coherent widget event self :
  Session.coherent self ->
  Session.coherent (Run.final (Pointer.toggle_pointer widget event self)).
Proof.
  intros H. unfold Pointer.toggle_pointer. run_method.
  destruct (Pointer.pointer_mode self =? Pointer.POINTERMODE_DISABLED) eqn:Ed;
    [exact H|].
  destruct (Pointer.pointer_mode self =? Pointer.POINTERMODE_CONTINEOUS) eqn:Ec;
    [exact H|].
  apply Z.eqb_neq in Ed, Ec.
  assert (Hm : Pointer.pointer_mode self = Pointer.POINTERMODE_MANUAL).
  { destruct H as [[A _]|[[A _]|[A _]]]; congruence. }
  destruct (negb (Z.land (Gdk.get_state event) Gdk.CONTROL_MASK =? 0)
            && (Gdk.type event =? Gdk.BUTTON_PRESS)).
  - pose proof (track_pointer_frame widget event
                  (Pointer.set_show_pointer Pointer.POINTER_SHOW self)) as F.
    cbv zeta in F. destruct F as (Fs & Fm & _).
    assert (C : Session.coherent
                  (Run.final (Pointer.track_pointer widget event
                     (Pointer.set_show_pointer Pointer.POINTER_SHOW self)))).
    { right. left. rewrite Fs, Fm. cbn. auto. }
    destruct (Run.value (Pointer.track_pointer widget event
                (Pointer.set_show_pointer Pointer.POINTER_SHOW self)));
      cbn [Run.final]; exact C.
  - destruct ((Pointer.show_pointer self =? Pointer.POINTER_SHOW)
              && (Gdk.type event =? Gdk.BUTTON_RELEASE)); [|exact H].
    cbn. right. left. cbn. auto.
Qed.

Lemma step_coherent v get_icon_path new_from_file o self :
  Session.coherent self ->
  Session.coherent (Session.step v get_icon_path new_from_file self o).
Proof.
  intros H. destruct o; cbn [Session.step].
  - destruct (load_pointer_fields get_icon_path new_from_file name self)
      as (A & B & _).
    exact (coherent_fields _ _ A B H).
  - destruct (change_pointer_fields get_icon_path new_from_file widget self)
      as (A & B).
    exact (coherent_fields _ _ A B H).
  - now apply activate_pointermode_coherent.
  - now apply change_pointermode_coherent.
  - now rewrite render_pointer_final.
  - destruct (track_pointer_frame widget event self) as (A & B & _).
    exact (coherent_fields _ _ A B H).
  - now apply toggle_pointer_coherent.
Qed.

Lemma run_coherent v get_icon_path new_from_file ops :
  forall self,
    Session.coherent self ->
    Session.coherent (Session.run v get_icon_path new_from_file ops self).
Proof.
  induction ops as [|o ops IH]; intros self H; [exact H|].
  cbn [Session.run fold_left]. apply IH. now apply step_coherent.
Qed.

Lemma class_defaults_coherent p_da_cur :
  Session.coherent (Pointer.class_defaults p_da_cur).
Proof. right. left. cbn. auto. Qed.

Lemma init_fields get_icon_path new_from_file default_mode color self :
  let s := Run.final (Pointer.init get_icon_path new_from_file default_mode
                        color self) in
  let a := Run.final (Pointer.activate_pointermode (Some default_mode) self) in
  Pointer.show_pointer s = Pointer.show_pointer a /\
  Pointer.pointer_mode s = Pointer.pointer_mode a /\
  Pointer.p_da_cur s = Pointer.p_da_cur self.
Proof.
  unfold Pointer.init. run_method.
  destruct (activate_pointermode_frame (Some default_mode) self) as (_ & P).
  destruct (Pointer.activate_pointermode (Some default_mode) self)
    as [s1 c1 [[]|e1]]; cbn [Run.final Run.value Run.calls] in *;
    [|repeat split; assumption].
  destruct (load_pointer_fields get_icon_path new_from_file
              ("pointer_" ++ color) s1) as (A & B & C).
  destruct (Pointer.load_pointer get_icon_path new_from_file
              ("pointer_" ++ color) s1)
    as [s2 c2 [[]|e2]]; cbn [Run.final Run.value Run.calls] in *;
    repeat split; congruence.
Qed.

Lemma built_coherent get_icon_path new_from_file default_mode color p_da_cur :
  Session.coherent
    (Session.built get_icon_path new_from_file default_mode color p_da_cur).
Proof.
  unfold Session.built.
  destruct (init_fields get_icon_path new_from_file default_mode color
              (Pointer.class_defaults p_da_cur)) as (A & B & _).
  apply (coherent_fields _ _ A B).
  apply activate_pointermode_coherent, class_defaults_coherent.
Qed.

(** X1. Whatever the preferences the pointer was built from and whatever
    calls follow, returning or raising, the mode and the visibility agree:
    in the continuous mode the pointer is shown, in the disabled mode it is
    hidden, and in the manual mode it is one of the two. *)
Theorem mode_and_visibility_agree
    (v : Py.Version) (get_icon_path : string -> string)
    (new_from_file : string -> option GdkPixbuf.Pixbuf)
    (default_mode color : string) (p_da_cur : Gtk.Widget)
    (ops : list Session.op) :
  Session.coherent
    (Session.run v get_icon_path new_from_file ops
       (Session.built get_icon_path new_from_file default_mode color
          p_da_cur)).
Proof. apply run_coherent, built_coherent. Qed.

Lemma render_pointer_hidden v ww wh self :
  Pointer.show_pointer self <> Pointer.POINTER_SHOW ->
  Pointer.render_pointer v ww wh self = Run.Outcome self [] (Py.Ok tt).
Proof.
  intros H. apply Z.eqb_neq in H. unfold Pointer.render_pointer. run_method.
  rewrite H. reflexivity.
Qed.

Lemma toggle_pointer_off_manual widget event self :
  Pointer.pointer_mode self <> Pointer.POINTERMODE_MANUAL ->
  Session.coherent self ->
  Pointer.toggle_pointer widget event self = Run.Outcome self [] (Py.Ok false).
Proof.
  intros Hm H. unfold Pointer.toggle_pointer. run_method.
  destruct H as [[A _]|[[A _]|[A _]]]; [|congruence|]; rewrite A; reflexivity.
Qed.

(** X2. Once the mode is disabled, in any state the pointer can reach,
    nothing shows or draws it: [toggle_pointer] and [track_pointer] refuse
    every event and change nothing, and [render_pointer] draws nothing. *)
Theorem disabled_pointer_is_never_drawn
    (v : Py.Version) (get_icon_path : string -> string)
    (new_from_file : string -> option GdkPixbuf.Pixbuf)
    (default_mode color : string) (p_da_cur : Gtk.Widget)
    (ops : list Session.op) :
  let self :=
    Session.run v get_icon_path new_from_file ops
      (Session.built get_icon_path new_from_file default_mode color p_da_cur) in
  Pointer.pointer_mode self = Pointer.POINTERMODE_DISABLED ->
  forall (widget : Gtk.Widget) (event : Gdk.Event) (ww wh : Z),
    Pointer.toggle_pointer widget event self
    = Run.Outcome self [] (Py.Ok false) /\
    Pointer.track_pointer widget event self
    = Run.Outcome self [] (Py.Ok false) /\
    Pointer.render_pointer v ww wh self = Run.Outcome self [] (Py.Ok tt).
Proof.
  cbv zeta. intros Hm widget event ww wh.
  pose proof (run_coherent v get_icon_path new_from_file ops _
                (built_coherent get_icon_path new_from_file default_mode color
                   p_da_cur)) as H.
  assert (Hs : Pointer.show_pointer
                 (Session.run v get_icon_path new_from_file ops
                    (Session.built get_icon_path new_from_file default_mode
                       color p_da_cur)) <> Pointer.POINTER_SHOW).
  { destruct H as [[A _]|[[A _]|[_ B]]];
      [rewrite A in Hm; discriminate Hm|rewrite A in Hm; discriminate Hm|].
    rewrite B. discriminate. }
  split; [|split].
  - apply toggle_pointer_off_manual; [rewrite Hm; discriminate|exact H].
  - now apply track_pointer_not_shown.
  - now apply render_pointer_hidden.
Qed.

Lemma disabled_pointer_is_never_drawn_witness :
  let self :=
    Session.run Py.Py3 Examples.get_icon_path Examples.new_from_file
      [Session.Toggle_pointer Examples.drawing_area Examples.press_ctrl;
       Session.Change_pointermode Examples.item_none]
      (Session.built Examples.get_icon_path Examples.new_from_file
         "manual" "red" Examples.drawing_area) in
  Pointer.toggle_pointer Examples.drawing_area Examples.press_ctrl self
  = Run.Outcome self [] (Py.Ok false) /\
  Pointer.track_pointer Examples.drawing_area Examples.motion_inside self
  = Run.Outcome self [] (Py.Ok false) /\
  Pointer.render_pointer Py.Py3 200 100 self = Run.Outcome self [] (Py.Ok tt).
Proof.
  cbv zeta.
  destruct (disabled_pointer_is_never_drawn Py.Py3 Examples.get_icon_path
              Examples.new_from_file "manual" "red" Examples.drawing_area
              [Session.Toggle_pointer Examples.drawing_area Examples.press_ctrl;
               Session.Change_pointermode Examples.item_none]
              eq_refl Examples.drawing_area Examples.press_ctrl 200 100)
    as (A & _ & C).
  destruct (disabled_pointer_is_never_drawn Py.Py3 Examples.get_icon_path
              Examples.new_from_file "manual" "red" Examples.drawing_area
              [Session.Toggle_pointer Examples.drawing_area Examples.press_ctrl;
               Session.Change_pointermode Examples.item_none]
              eq_refl Examples.drawing_area Examples.motion_inside 200 100)
    as (_ & B & _).
  split; [exact A|]. split; [exact B|exact C].
Defined.

(** X3. In the continuous mode, in any state the pointer can reach, every
    event on a widget with a valid allocation moves the pointer: the
    position becomes the quotient of the coordinates by the sides, a redraw
    is requested and the event is consumed; [toggle_pointer] cannot hide
    the pointer. *)
Theorem continuous_pointer_follows_every_event
    (v : Py.Version) (get_icon_path : string -> string)
    (new_from_file : string -> option GdkPixbuf.Pixbuf)
    (default_mode color : string) (p_da_cur : Gtk.Widget)
    (ops : list Session.op) :
  let self :=
    Session.run v get_icon_path new_from_file ops
      (Session.built get_icon_path new_from_file default_mode color p_da_cur) in
  Pointer.pointer_mode self = Pointer.POINTERMODE_CONTINEOUS ->
  forall (widget : Gtk.Widget) (event : Gdk.Event),
    Gtk.allocated widget ->
    Pointer.toggle_pointer widget event self
    = Run.Outcome self [] (Py.Ok false) /\
    exists fw fh,
      Py.float_of_int (Gtk.get_allocated_width widget) = Py.Ok fw /\
      Py.float_of_int (Gtk.get_allocated_height widget) = Py.Ok fh /\
      Pointer.track_pointer widget event self
      = Run.Outcome
          (Pointer.set_pointer_pos
             (fst (Gdk.get_coords event) / fw,
              snd (Gdk.get_coords event) / fh)%float self)
          [Pointer.redraw_current_slide] (Py.Ok true).
Proof.
  cbv zeta. intros Hm widget event Ha.
  pose proof (run_coherent v get_icon_path new_from_file ops _
                (built_coherent get_icon_path new_from_file default_mode color
                   p_da_cur)) as H.
  assert (Hs : Pointer.show_pointer
                 (Session.run v get_icon_path new_from_file ops
                    (Session.built get_icon_path new_from_file default_mode
                       color p_da_cur)) = Pointer.POINTER_SHOW).
  { destruct H as [[_ B]|[[A _]|[A _]]];
      [exact B|rewrite A in Hm; discriminate Hm
      |rewrite A in Hm; discriminate Hm]. }
  split.
  - apply toggle_pointer_off_manual; [rewrite Hm; discriminate|exact H].
  - destruct (track_pointer_shown widget event _ Hs Ha)
      as (fw & fh & mw & ew & mh & eh & Fw & Fh & _ & _ & E).
    exists fw, fh. auto.
Qed.

Lemma continuous_pointer_follows_every_event_witness :
  let self :=
    Session.run Py.Py3 Examples.get_icon_path Examples.new_from_file
      [Session.Change_pointermode Examples.item_continous]
      (Session.built Examples.get_icon_path Examples.new_from_file
         "manual" "red" Examples.drawing_area) in
  Pointer.toggle_pointer Examples.drawing_area Examples.release self
  = Run.Outcome self [] (Py.Ok false) /\
  Pointer.track_pointer Examples.drawing_area Examples.motion_inside self
  = Run.Outcome (Pointer.set_pointer_pos (0.75, 0.25)%float self)
      [Pointer.redraw_current_slide] (Py.Ok true).
Proof.
  cbv zeta.
  destruct (continuous_pointer_follows_every_event Py.Py3
              Examples.get_icon_path Examples.new_from_file "manual" "red"
              Examples.drawing_area
              [Session.Change_pointermode Examples.item_continous]
              eq_refl Examples.drawing_area Examples.release) as (A & _).
  { split; cbn; lia. }
  destruct (continuous_pointer_follows_every_event Py.Py3
              Examples.get_icon_path Examples.new_from_file "manual" "red"
              Examples.drawing_area
              [Session.Change_pointermode Examples.item_continous]
              eq_refl Examples.drawing_area Examples.motion_inside)
    as (_ & fw & fh & Fw & Fh & E).
  { split; cbn; lia. }
  split; [exact A|].
  rewrite E. vm_compute in Fw, Fh.
  injection Fw as <-. injection Fh as <-. vm_compute. reflexivity.
Defined.

(** ** Drawing the pointer *)

(** The sizes the toolkit reports are C ints: they convert to floats. *)
Lemma float_of_int_size n :
  0 <= n <= 2147483647 -> exists f, Py.float_of_int n = Py.Ok f.
Proof.
  intros Hn. destruct (Z.eq_dec n 0) as [->|Hz].
  - eexists. reflexivity.
  - destruct (float_of_int_allocated n) as (f & _ & _ & Hf & _); [lia|].
    now exists f.
Qed.

(** Half an int below [2^53] is a binary64 number. *)
Lemma binary_normalize_half n :
  0 < n < 2 ^ 53 ->
  exists m e, bounded prec emax m e = true /\
              binary_normalize prec emax n (-1) false = S754_finite false m e.
Proof.
  intros Hn. destruct n as [|p|p]; try lia.
  cbn [binary_normalize]. unfold binary_round.
  pose proof (digits2_bounds p) as [Hl Hu].
  assert (Hd : Zpos (digits2_pos p) <= 53).
  { apply (Zdigits2_le (Zpos p)); lia. }
  rewrite fexp_eq.
  replace (Z.max (Zpos (digits2_pos p) + -1 - 53) (-1074))
    with (Zpos (digits2_pos p) - 54) by lia.
  unfold shl_align.
  destruct (Zpos (digits2_pos p) - 54 - -1) as [|k|k] eqn:E; try lia.
  - assert (B : bounded prec emax p (-1) = true).
    { unfold bounded, canonical_mantissa. rewrite fexp_eq.
      apply andb_true_iff. split; [apply Z.eqb_eq; lia|reflexivity]. }
    exists p, (-1). split; [exact B|]. now apply binary_round_aux_canonical.
  - assert (B : bounded prec emax (Pos.iter xO p k)
                  (Zpos (digits2_pos p) - 54) = true).
    { unfold bounded, canonical_mantissa.
      rewrite fexp_eq, digits2_pos_iter_xO, Pos2Z.inj_add.
      apply andb_true_iff. split; [apply Z.eqb_eq; lia|].
      apply Z.leb_le. change (emax - prec) with 971. lia. }
    exists (Pos.iter xO p k), (Zpos (digits2_pos p) - 54). split; [exact B|].
    now apply binary_round_aux_canonical.
Qed.

Lemma half_size v n :
  0 <= n <= 2147483647 -> exists f, Pointer.half v n = Py.Ok f.
Proof.
  intros Hn. destruct v; cbn [Pointer.half].
  - apply float_of_int_size.
    split; [apply Z.div_pos; lia|].
    apply Z.div_le_upper_bound; lia.
  - destruct (Z.eq_dec n 0) as [->|Hz]; [eexists; reflexivity|].
    destruct (binary_normalize_half n) as (m & e & _ & ->).
    { change (2 ^ 53) with 9007199254740992. lia. }
    eexists. reflexivity.
Qed.

(** X4. For sizes in the range of the toolkit, [render_pointer] returns and
    leaves the pointer as it was; it draws nothing while the pointer is
    hidden, and while it is shown it sets the image as the source at the
    position scaled to the widget minus half the image, then paints,
    once. *)
Theorem render_pointer_paints_when_shown (v : Py.Version) (ww wh : Z)
    (self : Pointer.t) :
  1 <= ww <= 2147483647 -> 1 <= wh <= 2147483647 ->
  0 <= GdkPixbuf.get_width (Pointer.pointer self) <= 2147483647 ->
  0 <= GdkPixbuf.get_height (Pointer.pointer self) <= 2147483647 ->
  let o := Pointer.render_pointer v ww wh self in
  Run.value o = Py.Ok tt /\ Run.final o = self /\
  (Pointer.show_pointer self <> Pointer.POINTER_SHOW -> Run.calls o = []) /\
  (Pointer.show_pointer self = Pointer.POINTER_SHOW ->
   exists fw fh hw hh,
     Py.float_of_int ww = Py.Ok fw /\ Py.float_of_int wh = Py.Ok fh /\
     Pointer.half v (GdkPixbuf.get_width (Pointer.pointer self)) = Py.Ok hw /\
     Pointer.half v (GdkPixbuf.get_height (Pointer.pointer self)) = Py.Ok hh /\
     Run.calls o
     = [Pointer.cairo_set_source_pixbuf (Pointer.pointer self)
          (fw * fst (Pointer.pointer_pos self) - hw)%float
          (fh * snd (Pointer.pointer_pos self) - hh)%float;
        Pointer.paint]).
Proof.
  intros Hw Hh Hpw Hph. cbv zeta.
  destruct (float_of_int_size ww) as (fw & Fw); [lia|].
  destruct (float_of_int_size wh) as (fh & Fh); [lia|].
  destruct (half_size v _ Hpw) as (hw & Hhw).
  destruct (half_size v _ Hph) as (hh & Hhh).
  unfold Pointer.render_pointer, Py.mul_int. run_method.
  destruct (Pointer.show_pointer self =? Pointer.POINTER_SHOW) eqn:E.
  - rewrite Fw, Fh, Hhw, Hhh. cbn [Py.rbind app].
    repeat split.
    + intros H. apply Z.eqb_eq in E. now elim H.
    + intros _. exists fw, fh, hw, hh. repeat split.
  - repeat split. intros H. apply Z.eqb_neq in E. now elim E.
Qed.

Lemma render_pointer_paints_when_shown_witness :
  Run.calls (Pointer.render_pointer Py.Py3 200 100 Examples.shown)
  = [Pointer.cairo_set_source_pixbuf (Pointer.pointer Examples.shown) 76 26;
     Pointer.paint] /\
  Run.calls (Pointer.render_pointer Py.Py3 200 100 Examples.manual_red) = [].
Proof.
  split.
  - destruct (render_pointer_paints_when_shown Py.Py3 200 100 Examples.shown)
      as (_ & _ & _ & H); try (cbn; lia).
    destruct (H eq_refl) as (fw & fh & hw & hh & Fw & Fh & Hw & Hh & E).
    rewrite E. vm_compute in Fw, Fh, Hw, Hh.
    injection Fw as <-. injection Fh as <-.
    injection Hw as <-. injection Hh as <-.
    vm_compute. reflexivity.
  - destruct (render_pointer_paints_when_shown Py.Py3 200 100
                Examples.manual_red) as (_ & _ & H & _); try (cbn; lia).
    apply H. discriminate.
Defined.

(** ** Pressing, dragging and releasing *)

(** A press with the control key in the manual mode: the pointer is
    switched on, the cursor hidden, and the rest is [track_pointer]. *)
Lemma toggle_pointer_press widget event self :
  Pointer.pointer_mode self = Pointer.POINTERMODE_MANUAL ->
  Z.land (Gdk.get_state event) Gdk.CONTROL_MASK <> 0 ->
  Gdk.type event = Gdk.BUTTON_PRESS ->
  let o := Pointer.track_pointer widget event
             (Pointer.set_show_pointer Pointer.POINTER_SHOW self) in
  Pointer.toggle_pointer widget event self
  = Run.Outcome (Run.final o)
      (Pointer.set_cursor widget "invisible" :: Run.calls o) (Run.value o).
Proof.
  intros Hm Hc Hp. cbv zeta. unfold Pointer.toggle_pointer. run_method.
  apply Z.eqb_neq in Hc. rewrite Hm, Hc, Hp.
  cbn [Z.eqb Pointer.POINTERMODE_MANUAL Pointer.POINTERMODE_DISABLED
       Pointer.POINTERMODE_CONTINEOUS negb andb Gdk.BUTTON_PRESS Pos.eqb].
  destruct (Pointer.track_pointer widget event
              (Pointer.set_show_pointer Pointer.POINTER_SHOW self))
    as [s c [b|e]]; reflexivity.
Qed.

(** A release while the pointer is shown in the manual mode. *)
Lemma toggle_pointer_release widget event self :
  Pointer.pointer_mode self = Pointer.POINTERMODE_MANUAL ->
  Pointer.show_pointer self = Pointer.POINTER_SHOW ->
  Gdk.type event = Gdk.BUTTON_RELEASE ->
  Pointer.toggle_pointer widget event self
  = Run.Outcome (Pointer.set_show_pointer Pointer.POINTER_HIDE self)
      [Pointer.set_cursor widget "parent"; Pointer.redraw_current_slide]
      (Py.Ok true).
Proof.
  intros Hm Hs Hr. unfold Pointer.toggle_pointer. run_method.
  rewrite Hm, Hs, Hr.
  cbn [Z.eqb Pointer.POINTERMODE_MANUAL Pointer.POINTERMODE_DISABLED
       Pointer.POINTERMODE_CONTINEOUS].
  rewrite Bool.andb_false_r. reflexivity.
Qed.

(** X5. In the manual mode, on a widget with a valid allocation, a press
    with the control key, a motion and a release are all consumed: the
    press hides the cursor and the release restores it, each step requests
    a redraw, and at the end the pointer is hidden again at the place of
    the motion, with its mode and image untouched. *)
Theorem press_drag_release (widget : Gtk.Widget)
    (press motion release : Gdk.Event) (self : Pointer.t) :
  Pointer.pointer_mode self = Pointer.POINTERMODE_MANUAL ->
  Gtk.allocated widget ->
  Z.land (Gdk.get_state press) Gdk.CONTROL_MASK <> 0 ->
  Gdk.type press = Gdk.BUTTON_PRESS ->
  Gdk.type release = Gdk.BUTTON_RELEASE ->
  let pressed := Pointer.toggle_pointer widget press self in
  let dragged := Pointer.track_pointer widget motion (Run.final pressed) in
  let released := Pointer.toggle_pointer widget release (Run.final dragged) in
  exists fw fh,
    Py.float_of_int (Gtk.get_allocated_width widget) = Py.Ok fw /\
    Py.float_of_int (Gtk.get_allocated_height widget) = Py.Ok fh /\
    Run.value pressed = Py.Ok true /\
    Run.calls pressed
    = [Pointer.set_cursor widget "invisible"; Pointer.redraw_current_slide] /\
    Pointer.pointer_pos (Run.final pressed)
    = (fst (Gdk.get_coords press) / fw, snd (Gdk.get_coords press) / fh)%float /\
    Run.value dragged = Py.Ok true /\
    Run.calls dragged = [Pointer.redraw_current_slide] /\
    released
    = Run.Outcome
        (Pointer.set_show_pointer Pointer.POINTER_HIDE
           (Pointer.set_pointer_pos
              (fst (Gdk.get_coords motion) / fw,
               snd (Gdk.get_coords motion) / fh)%float self))
        [Pointer.set_cursor widget "parent"; Pointer.redraw_current_slide]
        (Py.Ok true).
Proof.
  intros Hm Ha Hc Hp Hr. cbv zeta.
  rewrite (toggle_pointer_press widget press self Hm Hc Hp). cbv zeta.
  destruct (track_pointer_shown widget press
              (Pointer.set_show_pointer Pointer.POINTER_SHOW self) eq_refl Ha)
    as (fw & fh & mw & ew & mh & eh & Fw & Fh & _ & _ & E1).
  rewrite E1. cbn [Run.final Run.calls Run.value].
  destruct (track_pointer_shown widget motion
              (Pointer.set_pointer_pos
                 (fst (Gdk.get_coords press) / fw,
                  snd (Gdk.get_coords press) / fh)%float
                 (Pointer.set_show_pointer Pointer.POINTER_SHOW self))
              eq_refl Ha)
    as (fw' & fh' & mw' & ew' & mh' & eh' & Fw' & Fh' & _ & _ & E2).
  rewrite Fw in Fw'. rewrite Fh in Fh'.
  injection Fw' as <-. injection Fh' as <-.
  rewrite E2. cbn [Run.final Run.calls Run.value].
  exists fw, fh. repeat (split; [reflexivity || assumption|]).
  rewrite toggle_pointer_release; [reflexivity|exact Hm|reflexivity|exact Hr].
Qed.

Lemma press_drag_release_witness :
  Pointer.toggle_pointer Examples.drawing_area Examples.release
    (Run.final
       (Pointer.track_pointer Examples.drawing_area Examples.motion_inside
          (Run.final
             (Pointer.toggle_pointer Examples.drawing_area Examples.press_ctrl
                Examples.manual_red))))
  = Run.Outcome
      (Pointer.set_pointer_pos (0.75, 0.25)%float Examples.manual_red)
      [Pointer.set_cursor Examples.drawing_area "parent";
       Pointer.redraw_current_slide]
      (Py.Ok true).
Proof.
  destruct (press_drag_release Examples.drawing_area Examples.press_ctrl
              Examples.motion_inside Examples.release Examples.manual_red)
    as (fw & fh & Fw & Fh & _ & _ & _ & _ & _ & E);
    [reflexivity|split; cbn; lia|discriminate|reflexivity|reflexivity|].
  rewrite E. vm_compute in Fw, Fh.
  injection Fw as <-. injection Fh as <-. vm_compute. reflexivity.
Defined.

(** ** Events on a widget without size *)

(** [track_pointer] assigns the position only once both quotients are
    computed. *)
Lemma track_pointer_raises widget event self e :
  Run.value (Pointer.track_pointer widget event self) = Py.Err e ->
  Pointer.track_pointer widget event self = Run.Outcome self [] (Py.Err e).
Proof.
  unfold Pointer.track_pointer. run_method.
  destruct (Pointer.show_pointer self =? Pointer.POINTER_SHOW);
    [|discriminate].
  destruct (Gdk.get_coords event) as [ex ey].
  destruct (Py.truediv ex (Gtk.get_allocated_width widget)) as [px|e1];
    [|intros H; injection H as <-; reflexivity].
  destruct (Py.truediv ey (Gtk.get_allocated_height widget)) as [py|e2];
    [discriminate|intros H; injection H as <-; reflexivity].
Qed.

(** X6. [track_pointer] is all or nothing: when it raises, the position is
    not half updated and no redraw was requested.  It raises
    [ZeroDivisionError] when the pointer is shown and the widget has no
    width, or a valid width and no height. *)
Theorem track_pointer_all_or_nothing (widget : Gtk.Widget) (event : Gdk.Event)
    (self : Pointer.t) :
  let o := Pointer.track_pointer widget event self in
  (forall e, Run.value o = Py.Err e -> Run.final o = self /\ Run.calls o = []) /\
  (Pointer.show_pointer self = Pointer.POINTER_SHOW ->
   Gtk.get_allocated_width widget = 0 \/
   (1 <= Gtk.get_allocated_width widget <= 2147483647 /\
    Gtk.get_allocated_height widget = 0) ->
   Run.value o = Py.Err Py.ZeroDivisionError).
Proof.
  cbv zeta. split.
  - intros e H. rewrite (track_pointer_raises widget event self e H).
    split; reflexivity.
  - intros Hs Hz. unfold Pointer.track_pointer. run_method. rewrite Hs.
    cbn [Z.eqb Pointer.POINTER_SHOW Pos.eqb].
    destruct (Gdk.get_coords event) as [ex ey].
    destruct Hz as [Hz|[Hw Hz]].
    + unfold Py.truediv at 1. rewrite Hz. reflexivity.
    + destruct (truediv_allocated ex _ Hw) as (f & m & e & _ & _ & ->).
      unfold Py.truediv. rewrite Hz. reflexivity.
Qed.

Lemma track_pointer_all_or_nothing_witness :
  Pointer.track_pointer Examples.flat_area Examples.motion_inside Examples.shown
  = Run.Outcome Examples.shown [] (Py.Err Py.ZeroDivisionError).
Proof.
  destruct (track_pointer_all_or_nothing Examples.flat_area
              Examples.motion_inside Examples.shown) as [A B].
  assert (E : Run.value (Pointer.track_pointer Examples.flat_area
                           Examples.motion_inside Examples.shown)
              = Py.Err Py.ZeroDivisionError).
  { apply B; [reflexivity|left; reflexivity]. }
  destruct (A _ E) as [F C].
  destruct (Pointer.track_pointer Examples.flat_area Examples.motion_inside
              Examples.shown) as [s c r].
  cbn [Run.final Run.calls Run.value] in *. now subst.
Defined.

(** X7. [toggle_pointer] is not all or nothing: when the placement of the
    pointer raises during a press with the control key, the exception
    leaves the pointer switched on and the cursor hidden, at the old
    position and without a redraw. *)
Theorem toggle_pointer_press_raises (widget : Gtk.Widget) (event : Gdk.Event)
    (self : Pointer.t) (e : Py.exn) :
  Pointer.pointer_mode self = Pointer.POINTERMODE_MANUAL ->
  Z.land (Gdk.get_state event) Gdk.CONTROL_MASK <> 0 ->
  Gdk.type event = Gdk.BUTTON_PRESS ->
  Run.value (Pointer.track_pointer widget event
               (Pointer.set_show_pointer Pointer.POINTER_SHOW self))
  = Py.Err e ->
  Pointer.toggle_pointer widget event self
  = Run.Outcome (Pointer.set_show_pointer Pointer.POINTER_SHOW self)
      [Pointer.set_cursor widget "invisible"] (Py.Err e).
Proof.
  intros Hm Hc Hp He.
  rewrite (toggle_pointer_press widget event self Hm Hc Hp). cbv zeta.
  rewrite (track_pointer_raises _ _ _ _ He). reflexivity.
Qed.

Lemma toggle_pointer_press_raises_witness :
  Pointer.toggle_pointer Examples.flat_area Examples.press_ctrl
    Examples.manual_red
  = Run.Outcome Examples.shown
      [Pointer.set_cursor Examples.flat_area "invisible"]
      (Py.Err Py.ZeroDivisionError).
Proof.
  apply (toggle_pointer_press_raises Examples.flat_area Examples.press_ctrl
           Examples.manual_red Py.ZeroDivisionError);
    try reflexivity.
  discriminate.
Defined.

(** ** The cursor over the drawing area *)

(** X8. [activate_pointermode] always returns and touches neither the
    image nor the position.  When the drawing area is not realized it calls
    nothing; when it is, it sets the cursor of the drawing area, invisible
    exactly when the mode it leaves is the continuous one, and then
    requests one redraw: also when it was called with no mode or with a
    mode it does not know. *)
Theorem activate_pointermode_sets_cursor (mode : option string)
    (self : Pointer.t) :
  let o := Pointer.activate_pointermode mode self in
  Run.value o = Py.Ok tt /\
  Pointer.pointer (Run.final o) = Pointer.pointer self /\
  Pointer.pointer_pos (Run.final o) = Pointer.pointer_pos self /\
  Pointer.p_da_cur (Run.final o) = Pointer.p_da_cur self /\
  Run.calls o
  = if Gtk.get_window (Pointer.p_da_cur self)
    then [Pointer.set_cursor (Pointer.p_da_cur self)
            (if Pointer.pointer_mode (Run.final o)
                =? Pointer.POINTERMODE_CONTINEOUS
             then "invisible" else "parent");
          Pointer.redraw_current_slide]
    else [].
Proof.
  cbv zeta. unfold Pointer.activate_pointermode.
  destruct (Pointer.mode_is mode "continous");
    [|destruct (Pointer.mode_is mode "manual");
      [|destruct (Pointer.mode_is mode "none")]];
    run_method;
    cbn [Pointer.set_show_pointer Pointer.set_pointer_mode
         Pointer.pointer_mode Pointer.show_pointer Pointer.p_da_cur
         Pointer.pointer Pointer.pointer_pos];
    destruct (Gtk.get_window (Pointer.p_da_cur self));
    try destruct (Pointer.pointer_mode self =? Pointer.POINTERMODE_CONTINEOUS)
      eqn:E;
    cbn; rewrite ?E; repeat split.
Qed.

(** ** Choosing the image of the pointer *)

Lemma eqb_app_prefix (p a b : string) :
  String.eqb (p ++ a) (p ++ b) = String.eqb a b.
Proof.
  induction p as [|c p IH]; [reflexivity|].
  cbn [append String.eqb]. now rewrite Ascii.eqb_refl.
Qed.

(** The three names of [load_pointer] are the prefix followed by a
    colour. *)
Lemma name_in_colors (color : string) :
  Pointer.name_in ("pointer_" ++ color) Pointer.icon_names
  = Pointer.name_in color ["red"; "green"; "blue"].
Proof.
  unfold Pointer.name_in, Pointer.icon_names. cbn [existsb].
  change "pointer_red" with ("pointer_" ++ "red").
  change "pointer_green" with ("pointer_" ++ "green").
  change "pointer_blue" with ("pointer_" ++ "blue").
  now rewrite !eqb_app_prefix.
Qed.

(** [__init__] when the image of the configured colour loads. *)
Lemma init_loaded get_icon_path new_from_file default_mode color self pixbuf :
  Pointer.name_in ("pointer_" ++ color) Pointer.icon_names = true ->
  new_from_file (get_icon_path (("pointer_" ++ color) ++ ".png")) = Some pixbuf ->
  let a := Pointer.activate_pointermode (Some default_mode) self in
  Pointer.init get_icon_path new_from_file default_mode color self
  = Run.Outcome (Pointer.set_pointer pixbuf (Run.final a))
      (Run.calls a ++
       [Pointer.radio_init "pointermode_continous"
          (String.eqb "pointermode_continous" ("pointermode_" ++ default_mode));
        Pointer.radio_init "pointermode_manual"
          (String.eqb "pointermode_manual" ("pointermode_" ++ default_mode));
        Pointer.radio_init "pointermode_none"
          (String.eqb "pointermode_none" ("pointermode_" ++ default_mode));
        Pointer.radio_init "pointer_red"
          (String.eqb "pointer_red" ("pointer_" ++ color));
        Pointer.radio_init "pointer_blue"
          (String.eqb "pointer_blue" ("pointer_" ++ color));
        Pointer.radio_init "pointer_green"
          (String.eqb "pointer_green" ("pointer_" ++ color))])
      (Py.Ok tt).
Proof.
  intros Hn Hf. cbv zeta. unfold Pointer.init, Pointer.load_pointer.
  pose proof (activate_pointermode_returns (Some default_mode) self) as R.
  run_method.
  destruct (Pointer.activate_pointermode (Some default_mode) self)
    as [s1 c1 r1]. cbn [Run.value] in R. subst r1.
  rewrite Hn, Hf. reflexivity.
Qed.

(** [__init__] when the configured colour is not one of the three. *)
Lemma init_not_loaded get_icon_path new_from_file default_mode color self :
  Pointer.name_in ("pointer_" ++ color) Pointer.icon_names = false ->
  let a := Pointer.activate_pointermode (Some default_mode) self in
  Pointer.init get_icon_path new_from_file default_mode color self
  = Run.Outcome (Run.final a)
      (Run.calls a ++
       [Pointer.radio_init "pointermode_continous"
          (String.eqb "pointermode_continous" ("pointermode_" ++ default_mode));
        Pointer.radio_init "pointermode_manual"
          (String.eqb "pointermode_manual" ("pointermode_" ++ default_mode));
        Pointer.radio_init "pointermode_none"
          (String.eqb "pointermode_none" ("pointermode_" ++ default_mode))])
      (Py.Err Py.ValueError).
Proof.
  intros Hn. cbv zeta. unfold Pointer.init, Pointer.load_pointer.
  pose proof (activate_pointermode_returns (Some default_mode) self) as R.
  run_method.
  destruct (Pointer.activate_pointermode (Some default_mode) self)
    as [s1 c1 r1]. cbn [Run.value] in R. subst r1.
  rewrite Hn. reflexivity.
Qed.

Lemma icon_name_cases name :
  In name Pointer.icon_names ->
  name = "pointer_red" \/ name = "pointer_green" \/ name = "pointer_blue".
Proof.
  unfold Pointer.icon_names. cbn [In]. intuition congruence.
Qed.

(** X9. Selecting an item named after one of the three images, when its
    file loads, stores the image and writes the colour, the name without
    its prefix, in the configuration; a pointer built later from that
    preference holds the same image.  Nothing else is called. *)
Theorem change_pointer_saves_the_color
    (get_icon_path : string -> string)
    (new_from_file : string -> option GdkPixbuf.Pixbuf)
    (widget : Gtk.RadioMenuItem) (self : Pointer.t)
    (pixbuf : GdkPixbuf.Pixbuf) :
  Gtk.get_active widget = true ->
  In (Gtk.item_name widget) Pointer.icon_names ->
  new_from_file (get_icon_path (Gtk.item_name widget ++ ".png")) = Some pixbuf ->
  exists color,
    "pointer_" ++ color = Gtk.item_name widget /\
    Pointer.change_pointer get_icon_path new_from_file widget self
    = Run.Outcome (Pointer.set_pointer pixbuf self)
        [Pointer.config_set "presenter" "pointer" color] (Py.Ok tt) /\
    forall (default_mode : string) (p_da_cur : Gtk.Widget),
      Pointer.pointer
        (Session.built get_icon_path new_from_file default_mode color p_da_cur)
      = pixbuf.
Proof.
  destruct widget as [name active]. cbn [Gtk.get_active Gtk.item_name].
  intros -> Hin Hf.
  assert (Hn : Pointer.name_in name Pointer.icon_names = true)
    by now apply name_in_In.
  assert (G : forall color,
             "pointer_" ++ color = name ->
             Pointer.drop_prefix "pointer_" name = color ->
             prefix "pointer_" name = true ->
             exists color,
               "pointer_" ++ color = name /\
               Pointer.change_pointer get_icon_path new_from_file
                 {| Gtk.item_name := name; Gtk.get_active := true |} self
               = Run.Outcome (Pointer.set_pointer pixbuf self)
                   [Pointer.config_set "presenter" "pointer" color] (Py.Ok tt) /\
               forall default_mode p_da_cur,
                 Pointer.pointer
                   (Session.built get_icon_path new_from_file default_mode
                      color p_da_cur) = pixbuf).
  { intros color Hc Hd Hp. exists color. split; [exact Hc|]. split.
    - unfold Pointer.change_pointer, Pointer.load_pointer.
      cbn [Gtk.get_active Gtk.item_name]. rewrite Hp, Hn, Hf, Hd.
      reflexivity.
    - intros default_mode p_da_cur. unfold Session.built.
      rewrite (init_loaded get_icon_path new_from_file default_mode color
                 (Pointer.class_defaults p_da_cur) pixbuf).
      + reflexivity.
      + rewrite Hc. exact Hn.
      + rewrite Hc. exact Hf. }
  destruct (icon_name_cases name Hin) as [E|[E|E]]; subst name.
  - apply (G "red"); reflexivity.
  - apply (G "green"); reflexivity.
  - apply (G "blue"); reflexivity.
Qed.

Lemma change_pointer_saves_the_color_witness :
  Pointer.change_pointer Examples.get_icon_path Examples.new_from_file
    Examples.item_blue Examples.manual_red
  = Run.Outcome
      (Pointer.set_pointer
         {| GdkPixbuf.file := Some "share/pixmaps/pointer_blue.png";
            GdkPixbuf.get_width := 48; GdkPixbuf.get_height := 48 |}
         Examples.manual_red)
      [Pointer.config_set "presenter" "pointer" "blue"] (Py.Ok tt).
Proof.
  destruct (change_pointer_saves_the_color Examples.get_icon_path
              Examples.new_from_file Examples.item_blue Examples.manual_red
              {| GdkPixbuf.file := Some "share/pixmaps/pointer_blue.png";
                 GdkPixbuf.get_width := 48; GdkPixbuf.get_height := 48 |})
    as (color & Hc & E & _).
  - reflexivity.
  - right. right. left. reflexivity.
  - reflexivity.
  - cbn [Examples.item_blue Gtk.item_name] in Hc.
    change "pointer_blue" with ("pointer_" ++ "blue") in Hc.
    assert (color = "blue") as ->.
    { apply String.eqb_eq. rewrite <- (eqb_app_prefix "pointer_"), Hc.
      apply String.eqb_refl. }
    exact E.
Defined.

(** X10. An item that is not active changes nothing.  When
    [change_pointer] raises, the pointer is as before and nothing was
    written to the configuration: [AssertionError] for a name that does
    not start with [pointer_], [ValueError] for another name that is not
    one of the three. *)
Theorem change_pointer_failure_saves_nothing
    (get_icon_path : string -> string)
    (new_from_file : string -> option GdkPixbuf.Pixbuf)
    (widget : Gtk.RadioMenuItem) (self : Pointer.t) :
  let o := Pointer.change_pointer get_icon_path new_from_file widget self in
  (Gtk.get_active widget = false -> o = Run.Outcome self [] (Py.Ok tt)) /\
  (forall e, Run.value o = Py.Err e -> Run.final o = self /\ Run.calls o = []) /\
  (Gtk.get_active widget = true ->
   prefix "pointer_" (Gtk.item_name widget) = false ->
   Run.value o = Py.Err Py.AssertionError) /\
  (Gtk.get_active widget = true ->
   prefix "pointer_" (Gtk.item_name widget) = true ->
   ~ In (Gtk.item_name widget) Pointer.icon_names ->
   Run.value o = Py.Err Py.ValueError).
Proof.
  cbv zeta. unfold Pointer.change_pointer, Pointer.load_pointer.
  repeat split.
  - intros ->. reflexivity.
  - revert H. run_cases; cbn; try discriminate; reflexivity.
  - revert H. run_cases; cbn; try discriminate; reflexivity.
  - intros -> ->. reflexivity.
  - intros -> -> Hn.
    destruct (Pointer.name_in (Gtk.item_name widget) Pointer.icon_names) eqn:E.
    + apply name_in_In in E. now elim Hn.
    + reflexivity.
Qed.

Lemma change_pointer_failure_saves_nothing_witness :
  Run.value (Pointer.change_pointer Examples.get_icon_path
               Examples.new_from_file Examples.item_yellow Examples.manual_red)
  = Py.Err Py.ValueError /\
  Run.final (Pointer.change_pointer Examples.get_icon_path
               Examples.new_from_file Examples.item_yellow Examples.manual_red)
  = Examples.manual_red /\
  Run.calls (Pointer.change_pointer Examples.get_icon_path
               Examples.new_from_file Examples.item_yellow Examples.manual_red)
  = [] /\
  Run.value (Pointer.change_pointer Examples.get_icon_path
               Examples.new_from_file Examples.item_none Examples.manual_red)
  = Py.Err Py.AssertionError.
Proof.
  destruct (change_pointer_failure_saves_nothing Examples.get_icon_path
              Examples.new_from_file Examples.item_yellow Examples.manual_red)
    as (_ & A & _ & B).
  destruct (change_pointer_failure_saves_nothing Examples.get_icon_path
              Examples.new_from_file Examples.item_none Examples.manual_red)
    as (_ & _ & C & _).
  assert (E : Run.value (Pointer.change_pointer Examples.get_icon_path
                           Examples.new_from_file Examples.item_yellow
                           Examples.manual_red) = Py.Err Py.ValueError).
  { apply B; [reflexivity|reflexivity|].
    intros H. apply icon_name_cases in H.
    destruct H as [H|[H|H]]; discriminate H. }
  destruct (A _ E) as [F G].
  split; [exact E|]. split; [exact F|]. split; [exact G|].
  apply C; reflexivity.
Defined.

(** ** Choosing the mode of the pointer *)

(** An active item whose name starts with [pointermode_]: the rest of the
    name is written to the configuration, then activated. *)
Lemma change_pointermode_active widget self :
  Gtk.get_active widget = true ->
  prefix "pointermode_" (Gtk.item_name widget) = true ->
  let mode := Pointer.drop_prefix "pointermode_" (Gtk.item_name widget) in
  let a := Pointer.activate_pointermode (Some mode) self in
  Pointer.change_pointermode widget self
  = Run.Outcome (Run.final a)
      (Pointer.config_set "presenter" "pointer_mode" mode :: Run.calls a)
      (Py.Ok tt).
Proof.
  intros Ha Hp. cbv zeta. unfold Pointer.change_pointermode.
  rewrite Ha, Hp.
  pose proof (activate_pointermode_returns
                (Some (Pointer.drop_prefix "pointermode_" (Gtk.item_name widget)))
                self) as R.
  run_method.
  destruct (Pointer.activate_pointermode
              (Some (Pointer.drop_prefix "pointermode_" (Gtk.item_name widget)))
              self) as [s1 c1 r1].
  cbn [Run.value] in R. subst r1. reflexivity.
Qed.

(** A mode that [activate_pointermode] knows decides the two fields on its
    own. *)
Lemma activate_pointermode_known mode self self' :
  In mode ["continous"; "manual"; "none"] ->
  Pointer.show_pointer (Run.final (Pointer.activate_pointermode (Some mode) self))
  = Pointer.show_pointer
      (Run.final (Pointer.activate_pointermode (Some mode) self')) /\
  Pointer.pointer_mode (Run.final (Pointer.activate_pointermode (Some mode) self))
  = Pointer.pointer_mode
      (Run.final (Pointer.activate_pointermode (Some mode) self')).
Proof.
  intros Hin.
  pose proof (activate_pointermode_fields (Some mode) self) as F.
  pose proof (activate_pointermode_fields (Some mode) self') as F'.
  cbv zeta in F, F'.
  assert (E : (Pointer.show_pointer
                 (Run.final (Pointer.activate_pointermode (Some mode) self)),
               Pointer.pointer_mode
                 (Run.final (Pointer.activate_pointermode (Some mode) self)))
              = (Pointer.show_pointer
                   (Run.final (Pointer.activate_pointermode (Some mode) self')),
                 Pointer.pointer_mode
                   (Run.final (Pointer.activate_pointermode (Some mode) self')))).
  { rewrite F, F'.
    cbn [In] in Hin. destruct Hin as [<-|[<-|[<-|[]]]]; reflexivity. }
  injection E as E1 E2. split; assumption.
Qed.

(** X11. Selecting the item of one of the three modes writes the name of
    the mode, the item's name without its prefix, in the configuration,
    before anything else, and then activates it.  A pointer built later
    from that preference starts in the same mode with the same
    visibility. *)
Theorem change_pointermode_saves_the_mode (widget : Gtk.RadioMenuItem)
    (self : Pointer.t) :
  Gtk.get_active widget = true ->
  In (Gtk.item_name widget)
     ["pointermode_continous"; "pointermode_manual"; "pointermode_none"] ->
  exists mode,
    "pointermode_" ++ mode = Gtk.item_name widget /\
    let o := Pointer.change_pointermode widget self in
    Run.value o = Py.Ok tt /\
    Run.final o = Run.final (Pointer.activate_pointermode (Some mode) self) /\
    Run.calls o
    = Pointer.config_set "presenter" "pointer_mode" mode
      :: Run.calls (Pointer.activate_pointermode (Some mode) self) /\
    forall (get_icon_path : string -> string)
           (new_from_file : string -> option GdkPixbuf.Pixbuf)
           (color : string) (p_da_cur : Gtk.Widget),
      let restarted :=
        Session.built get_icon_path new_from_file mode color p_da_cur in
      Pointer.show_pointer restarted = Pointer.show_pointer (Run.final o) /\
      Pointer.pointer_mode restarted = Pointer.pointer_mode (Run.final o).
Proof.
  destruct widget as [name active]. cbn [Gtk.get_active Gtk.item_name].
  intros -> Hin.
  assert (G : forall mode,
             In mode ["continous"; "manual"; "none"] ->
             "pointermode_" ++ mode = name ->
             Pointer.drop_prefix "pointermode_" name = mode ->
             prefix "pointermode_" name = true ->
             exists mode,
               "pointermode_" ++ mode = name /\
               let o := Pointer.change_pointermode
                          {| Gtk.item_name := name; Gtk.get_active := true |}
                          self in
               Run.value o = Py.Ok tt /\
               Run.final o
               = Run.final (Pointer.activate_pointermode (Some mode) self) /\
               Run.calls o
               = Pointer.config_set "presenter" "pointer_mode" mode
                 :: Run.calls (Pointer.activate_pointermode (Some mode) self) /\
               forall get_icon_path new_from_file color p_da_cur,
                 let restarted :=
                   Session.built get_icon_path new_from_file mode color
                     p_da_cur in
                 Pointer.show_pointer restarted
                 = Pointer.show_pointer (Run.final o) /\
                 Pointer.pointer_mode restarted
                 = Pointer.pointer_mode (Run.final o)).
  { intros mode Hk Hc Hd Hp. exists mode. split; [exact Hc|]. cbv zeta.
    rewrite (change_pointermode_active
               {| Gtk.item_name := name; Gtk.get_active := true |} self
               eq_refl Hp).
    cbn [Gtk.item_name]. rewrite Hd. cbn [Run.value Run.final Run.calls].
    repeat split.
    - destruct (init_fields get_icon_path new_from_file mode color
                  (Pointer.class_defaults p_da_cur)) as (A & _ & _).
      unfold Session.built. rewrite A.
      apply (activate_pointermode_known mode _ _ Hk).
    - destruct (init_fields get_icon_path new_from_file mode color
                  (Pointer.class_defaults p_da_cur)) as (_ & B & _).
      unfold Session.built. rewrite B.
      apply (activate_pointermode_known mode _ _ Hk). }
  cbn [In] in Hin. destruct Hin as [<-|[<-|[<-|[]]]].
  - apply (G "continous"); [cbn; auto|reflexivity..].
  - apply (G "manual"); [cbn; auto|reflexivity..].
  - apply (G "none"); [cbn; auto|reflexivity..].
Qed.

Lemma change_pointermode_saves_the_mode_witness :
  Run.calls (Pointer.change_pointermode Examples.item_continous
               Examples.manual_red)
  = [Pointer.config_set "presenter" "pointer_mode" "continous";
     Pointer.set_cursor Examples.drawing_area "invisible";
     Pointer.redraw_current_slide].
Proof.
  destruct (change_pointermode_saves_the_mode Examples.item_continous
              Examples.manual_red) as (mode & Hc & _ & _ & E & _).
  - reflexivity.
  - left. reflexivity.
  - cbn [Examples.item_continous Gtk.item_name] in Hc.
    change "pointermode_continous" with ("pointermode_" ++ "continous") in Hc.
    assert (mode = "continous") as ->.
    { apply String.eqb_eq. rewrite <- (eqb_app_prefix "pointermode_"), Hc.
      apply String.eqb_refl. }
    rewrite E. reflexivity.
Defined.

(** X12. The preference is written before the mode is looked at: an active
    item whose name starts with [pointermode_] but goes on with anything
    other than the three known modes, the usual spelling [continuous]
    included, has the rest of its name written to the configuration while
    the mode and the visibility stay as they were.  A pointer built later
    from that preference is in the manual mode, hidden. *)
Theorem change_pointermode_saves_an_unknown_mode (widget : Gtk.RadioMenuItem)
    (self : Pointer.t) :
  Gtk.get_active widget = true ->
  prefix "pointermode_" (Gtk.item_name widget) = true ->
  let mode := Pointer.drop_prefix "pointermode_" (Gtk.item_name widget) in
  ~ In mode ["continous"; "manual"; "none"] ->
  let o := Pointer.change_pointermode widget self in
  Run.value o = Py.Ok tt /\
  Pointer.show_pointer (Run.final o) = Pointer.show_pointer self /\
  Pointer.pointer_mode (Run.final o) = Pointer.pointer_mode self /\
  (exists rest,
     Run.calls o = Pointer.config_set "presenter" "pointer_mode" mode :: rest) /\
  forall (get_icon_path : string -> string)
         (new_from_file : string -> option GdkPixbuf.Pixbuf)
         (color : string) (p_da_cur : Gtk.Widget),
    let restarted :=
      Session.built get_icon_path new_from_file mode color p_da_cur in
    Pointer.show_pointer restarted = Pointer.POINTER_HIDE /\
    Pointer.pointer_mode restarted = Pointer.POINTERMODE_MANUAL.
Proof.
  intros Ha Hp mode Hk. cbv zeta.
  rewrite (change_pointermode_active widget self Ha Hp). cbv zeta.
  fold mode. cbn [Run.value Run.final Run.calls].
  assert (Hf : forall s,
             (Pointer.show_pointer
                (Run.final (Pointer.activate_pointermode (Some mode) s)),
              Pointer.pointer_mode
                (Run.final (Pointer.activate_pointermode (Some mode) s)))
             = (Pointer.show_pointer s, Pointer.pointer_mode s)).
  { intros s. pose proof (activate_pointermode_fields (Some mode) s) as F.
    cbv zeta in F. rewrite F.
    rewrite !mode_is_false; [reflexivity|..];
      intros E; injection E as E; apply Hk; rewrite E; cbn; auto. }
  split; [reflexivity|].
  pose proof (Hf self) as F. injection F as F1 F2.
  split; [exact F1|]. split; [exact F2|].
  split; [eexists; reflexivity|].
  intros get_icon_path new_from_file color p_da_cur.
  destruct (init_fields get_icon_path new_from_file mode color
              (Pointer.class_defaults p_da_cur)) as (A & B & _).
  pose proof (Hf (Pointer.class_defaults p_da_cur)) as G.
  injection G as G1 G2.
  unfold Session.built. rewrite A, B, G1, G2. split; reflexivity.
Qed.

Lemma change_pointermode_saves_an_unknown_mode_witness :
  Run.calls (Pointer.change_pointermode Examples.item_continuous
               Examples.manual_red)
  = [Pointer.config_set "presenter" "pointer_mode" "continuous";
     Pointer.set_cursor Examples.drawing_area "parent";
     Pointer.redraw_current_slide] /\
  Pointer.pointer_mode
    (Run.final (Pointer.change_pointermode Examples.item_continuous
                  Examples.manual_red))
  = Pointer.POINTERMODE_MANUAL.
Proof.
  destruct (change_pointermode_saves_an_unknown_mode Examples.item_continuous
              Examples.manual_red) as (_ & _ & M & _ & _).
  - reflexivity.
  - reflexivity.
  - cbn. intros [H|[H|[H|[]]]]; discriminate H.
  - split; [reflexivity|]. rewrite M. reflexivity.
Defined.

(** ** Building the pointer *)

Lemma eqb_with_prefix (p a b : string) :
  String.eqb (p ++ a) (p ++ b) = true <-> b = a.
Proof.
  rewrite eqb_app_prefix, String.eqb_eq. split; congruence.
Qed.

(** X13. Built from a colour among [red], [green] and [blue] whose image
    loads, the pointer holds that image, and [__init__] returns after
    initializing the six radio items, the three of the modes and then the
    three of the colours: an item is initialized active exactly when it is
    the one of the configured mode, or of the configured colour. *)
Theorem init_marks_the_configured_items
    (get_icon_path : string -> string)
    (new_from_file : string -> option GdkPixbuf.Pixbuf)
    (default_mode color : string) (self : Pointer.t)
    (pixbuf : GdkPixbuf.Pixbuf) :
  In color ["red"; "green"; "blue"] ->
  new_from_file (get_icon_path (("pointer_" ++ color) ++ ".png")) = Some pixbuf ->
  let a := Pointer.activate_pointermode (Some default_mode) self in
  let o := Pointer.init get_icon_path new_from_file default_mode color self in
  Run.value o = Py.Ok tt /\
  Run.final o = Pointer.set_pointer pixbuf (Run.final a) /\
  exists continous manual none red blue green,
    Run.calls o
    = (Run.calls a ++
       [Pointer.radio_init "pointermode_continous" continous;
        Pointer.radio_init "pointermode_manual" manual;
        Pointer.radio_init "pointermode_none" none;
        Pointer.radio_init "pointer_red" red;
        Pointer.radio_init "pointer_blue" blue;
        Pointer.radio_init "pointer_green" green])%list /\
    (continous = true <-> default_mode = "continous") /\
    (manual = true <-> default_mode = "manual") /\
    (none = true <-> default_mode = "none") /\
    (red = true <-> color = "red") /\
    (blue = true <-> color = "blue") /\
    (green = true <-> color = "green").
Proof.
  intros Hin Hf. cbv zeta.
  assert (Hn : Pointer.name_in ("pointer_" ++ color) Pointer.icon_names = true).
  { rewrite name_in_colors. now apply name_in_In. }
  rewrite (init_loaded get_icon_path new_from_file default_mode color self
             pixbuf Hn Hf). cbv zeta.
  cbn [Run.value Run.final Run.calls].
  split; [reflexivity|]. split; [reflexivity|].
  do 6 eexists. split; [reflexivity|].
  repeat split;
    first [ apply (eqb_with_prefix "pointermode_" "continous")
          | apply (eqb_with_prefix "pointermode_" "manual")
          | apply (eqb_with_prefix "pointermode_" "none")
          | apply (eqb_with_prefix "pointer_" "red")
          | apply (eqb_with_prefix "pointer_" "blue")
          | apply (eqb_with_prefix "pointer_" "green") ].
Qed.

Lemma init_marks_the_configured_items_witness :
  Pointer.init Examples.get_icon_path Examples.new_from_file "manual" "red"
    (Pointer.class_defaults Examples.drawing_area)
  = Run.Outcome Examples.manual_red
      [Pointer.set_cursor Examples.drawing_area "parent";
       Pointer.redraw_current_slide;
       Pointer.radio_init "pointermode_continous" false;
       Pointer.radio_init "pointermode_manual" true;
       Pointer.radio_init "pointermode_none" false;
       Pointer.radio_init "pointer_red" true;
       Pointer.radio_init "pointer_blue" false;
       Pointer.radio_init "pointer_green" false]
      (Py.Ok tt).
Proof.
  destruct (init_marks_the_configured_items Examples.get_icon_path
              Examples.new_from_file "manual" "red"
              (Pointer.class_defaults Examples.drawing_area)
              {| GdkPixbuf.file := Some "share/pixmaps/pointer_red.png";
                 GdkPixbuf.get_width := 48; GdkPixbuf.get_height := 48 |})
    as (V & F & _).
  - left. reflexivity.
  - reflexivity.
  - reflexivity.
Defined.

(** X14. [__init__] raises [ValueError] exactly when the configured colour
    is not [red], [green] or [blue].  It does so after the mode was
    activated and the three items of the modes initialized: the pointer
    keeps the mode, but holds no new image, and the items of the colours
    were not initialized. *)
Theorem init_unknown_color_raises
    (get_icon_path : string -> string)
    (new_from_file : string -> option GdkPixbuf.Pixbuf)
    (default_mode color : string) (self : Pointer.t) :
  let a := Pointer.activate_pointermode (Some default_mode) self in
  let o := Pointer.init get_icon_path new_from_file default_mode color self in
  (Run.value o = Py.Err Py.ValueError <-> ~ In color ["red"; "green"; "blue"]) /\
  (~ In color ["red"; "green"; "blue"] ->
   Run.final o = Run.final a /\
   Pointer.pointer (Run.final o) = Pointer.pointer self /\
   exists continous manual none,
     Run.calls o
     = (Run.calls a ++
        [Pointer.radio_init "pointermode_continous" continous;
         Pointer.radio_init "pointermode_manual" manual;
         Pointer.radio_init "pointermode_none" none])%list).
Proof.
  cbv zeta.
  destruct (Pointer.name_in ("pointer_" ++ color) Pointer.icon_names) eqn:Hn.
  - assert (Hin : In color ["red"; "green"; "blue"]).
    { apply name_in_In. now rewrite <- name_in_colors. }
    split; [|intros H; now elim H].
    split; [|intros H; now elim H].
    unfold Pointer.init, Pointer.load_pointer.
    pose proof (activate_pointermode_returns (Some default_mode) self) as R.
    run_method.
    destruct (Pointer.activate_pointermode (Some default_mode) self)
      as [s1 c1 r1]. cbn [Run.value] in R. subst r1.
    rewrite Hn.
    destruct (new_from_file _); cbn; discriminate.
  - assert (Hout : ~ In color ["red"; "green"; "blue"]).
    { intros H. apply name_in_In in H. rewrite <- name_in_colors in H.
      congruence. }
    rewrite (init_not_loaded get_icon_path new_from_file default_mode color
               self Hn). cbv zeta.
    cbn [Run.value Run.final Run.calls].
    split; [split; [intros _; exact Hout|reflexivity]|].
    intros _. split; [reflexivity|].
    split; [apply activate_pointermode_frame|].
    do 3 eexists. reflexivity.
Qed.

Lemma init_unknown_color_raises_witness :
  Run.value (Pointer.init Examples.get_icon_path Examples.new_from_file
               "continous" "yellow"
               (Pointer.class_defaults Examples.drawing_area))
  = Py.Err Py.ValueError /\
  Pointer.pointer
    (Run.final (Pointer.init Examples.get_icon_path Examples.new_from_file
                  "continous" "yellow"
                  (Pointer.class_defaults Examples.drawing_area)))
  = GdkPixbuf.empty.
Proof.
  destruct (init_unknown_color_raises Examples.get_icon_path
              Examples.new_from_file "continous" "yellow"
              (Pointer.class_defaults Examples.drawing_area)) as [A B].
  assert (H : ~ In "yellow" ["red"; "green"; "blue"]).
  { cbn. intros [H|[H|[H|[]]]]; discriminate H. }
  split; [now apply A|].
  destruct (B H) as (_ & P & _). rewrite P. reflexivity.
Defined.

(** ** Attaching and detaching the overlay *)

Lemma min_margin_not_negative (m : VideoOverlay.margins) :
  (0 <=? VideoOverlay.margin_0 m)%float = true ->
  (0 <=? VideoOverlay.margin_1 m)%float = true ->
  (0 <=? VideoOverlay.margin_2 m)%float = true ->
  (0 <=? VideoOverlay.margin_3 m)%float = true ->
  (VideoOverlay.min_margin m <? 0)%float = false.
Proof.
  intros P0 P1 P2 P3. apply leb_not_ltb in P0, P1, P2, P3.
  unfold VideoOverlay.min_margin, Py.min_of. cbn [fold_left].
  repeat apply min2_not_negative; assumption.
Qed.

(** [resize] on an attached overlay whose parent has a valid allocation:
    the four margins in pixels. *)
Lemma resize_margins (self : VideoOverlay.t) :
  VideoOverlay.get_parent (VideoOverlay.media_overlay self) = true ->
  Gtk.allocated (VideoOverlay.parent self) ->
  exists pw ph,
    Py.float_of_int (Gtk.get_allocated_width (VideoOverlay.parent self))
    = Py.Ok pw /\
    Py.float_of_int (Gtk.get_allocated_height (VideoOverlay.parent self))
    = Py.Ok ph /\
    VideoOverlay.resize self
    = Run.Outcome
        (VideoOverlay.set_media_overlay
           {| VideoOverlay.get_parent := true;
              VideoOverlay.visible :=
                VideoOverlay.visible (VideoOverlay.media_overlay self);
              VideoOverlay.margin_left :=
                (pw * VideoOverlay.margin_0 (VideoOverlay.relative_margins self))%float;
              VideoOverlay.margin_right :=
                (pw * VideoOverlay.margin_2 (VideoOverlay.relative_margins self))%float;
              VideoOverlay.margin_bottom :=
                (ph * VideoOverlay.margin_3 (VideoOverlay.relative_margins self))%float;
              VideoOverlay.margin_top :=
                (ph * VideoOverlay.margin_1 (VideoOverlay.relative_margins self))%float |}
           self)
        [] (Py.Ok tt).
Proof.
  intros Hp [Hw Hh].
  destruct (float_of_int_allocated _ Hw) as (pw & mw & ew & Fw & _).
  destruct (float_of_int_allocated _ Hh) as (ph & mh & eh & Fh & _).
  exists pw, ph. split; [exact Fw|]. split; [exact Fh|].
  unfold VideoOverlay.resize, VideoOverlay.is_shown, Py.mul_int. run_method.
  rewrite Hp, Fw, Fh. cbn [negb Py.rbind Run.final app].
  cbv [VideoOverlay.set_media_overlay VideoOverlay.set_margin_left
       VideoOverlay.set_margin_right VideoOverlay.set_margin_bottom
       VideoOverlay.set_margin_top].
  cbn [VideoOverlay.media_overlay VideoOverlay.get_parent VideoOverlay.visible
       VideoOverlay.margin_left VideoOverlay.margin_right
       VideoOverlay.margin_bottom VideoOverlay.margin_top
       VideoOverlay.parent VideoOverlay.progress
       VideoOverlay.relative_page_margins VideoOverlay.relative_margins
       VideoOverlay.time_format VideoOverlay.maxval].
  rewrite Hp. reflexivity.
Qed.

(** [show] when no margin is negative, on a parent with a valid
    allocation. *)
Lemma show_accepted (self : VideoOverlay.t) :
  (VideoOverlay.min_margin (VideoOverlay.relative_margins self) <? 0)%float
  = false ->
  Gtk.allocated (VideoOverlay.parent self) ->
  exists box,
    VideoOverlay.get_parent box = true /\
    VideoOverlay.visible box = true /\
    (VideoOverlay.get_parent (VideoOverlay.media_overlay self) = true ->
     box = VideoOverlay.set_box_visible true (VideoOverlay.media_overlay self)) /\
    (forall pw ph,
       VideoOverlay.get_parent (VideoOverlay.media_overlay self) = false ->
       Py.float_of_int (Gtk.get_allocated_width (VideoOverlay.parent self))
       = Py.Ok pw ->
       Py.float_of_int (Gtk.get_allocated_height (VideoOverlay.parent self))
       = Py.Ok ph ->
       box
       = {| VideoOverlay.get_parent := true;
            VideoOverlay.visible := true;
            VideoOverlay.margin_left :=
              (pw * VideoOverlay.margin_0 (VideoOverlay.relative_margins self))%float;
            VideoOverlay.margin_right :=
              (pw * VideoOverlay.margin_2 (VideoOverlay.relative_margins self))%float;
            VideoOverlay.margin_bottom :=
              (ph * VideoOverlay.margin_3 (VideoOverlay.relative_margins self))%float;
            VideoOverlay.margin_top :=
              (ph * VideoOverlay.margin_1 (VideoOverlay.relative_margins self))%float |}) /\
    VideoOverlay.show self
    = Run.Outcome (VideoOverlay.set_media_overlay box self)
        (if VideoOverlay.get_parent (VideoOverlay.media_overlay self) then []
         else [VideoOverlay.add_overlay; VideoOverlay.reorder_overlay 2;
               VideoOverlay.queue_draw])
        (Py.Ok tt).
Proof.
  intros Hmin Ha.
  destruct (VideoOverlay.get_parent (VideoOverlay.media_overlay self)) eqn:E.
  - exists (VideoOverlay.set_box_visible true (VideoOverlay.media_overlay self)).
    split; [exact E|]. split; [reflexivity|]. split; [reflexivity|].
    split; [discriminate|].
    unfold VideoOverlay.show. run_method. rewrite Hmin, E. reflexivity.
  - destruct (resize_margins
                (VideoOverlay.set_media_overlay
                   (VideoOverlay.set_box_parent true
                      (VideoOverlay.media_overlay self)) self))
      as (pw & ph & Fw & Fh & R); [reflexivity|exact Ha|].
    cbn [VideoOverlay.set_media_overlay VideoOverlay.parent] in Fw, Fh.
    exists {| VideoOverlay.get_parent := true;
              VideoOverlay.visible := true;
              VideoOverlay.margin_left :=
                (pw * VideoOverlay.margin_0 (VideoOverlay.relative_margins self))%float;
              VideoOverlay.margin_right :=
                (pw * VideoOverlay.margin_2 (VideoOverlay.relative_margins self))%float;
              VideoOverlay.margin_bottom :=
                (ph * VideoOverlay.margin_3 (VideoOverlay.relative_margins self))%float;
              VideoOverlay.margin_top :=
                (ph * VideoOverlay.margin_1 (VideoOverlay.relative_margins self))%float |}.
    split; [reflexivity|]. split; [reflexivity|]. split; [discriminate|].
    split.
    + intros pw' ph' _ Fw' Fh'. rewrite Fw in Fw'. rewrite Fh in Fh'.
      injection Fw' as <-. injection Fh' as <-. reflexivity.
    + unfold VideoOverlay.show. run_method. rewrite Hmin, E. cbn [negb].
      rewrite R. reflexivity.
Qed.

(** X15. [show] is idempotent.  When no margin is negative and the parent
    has a valid allocation, a second [show] right after the first makes no
    call and leaves the overlay exactly as the first one left it: it is
    not added to its parent twice. *)
Theorem show_is_idempotent (self : VideoOverlay.t) :
  let m := VideoOverlay.relative_margins self in
  (0 <=? VideoOverlay.margin_0 m)%float = true ->
  (0 <=? VideoOverlay.margin_1 m)%float = true ->
  (0 <=? VideoOverlay.margin_2 m)%float = true ->
  (0 <=? VideoOverlay.margin_3 m)%float = true ->
  Gtk.allocated (VideoOverlay.parent self) ->
  let shown := Run.final (VideoOverlay.show self) in
  VideoOverlay.show shown = Run.Outcome shown [] (Py.Ok tt).
Proof.
  cbv zeta. intros P0 P1 P2 P3 Ha.
  pose proof (min_margin_not_negative _ P0 P1 P2 P3) as Hmin.
  destruct (show_accepted self Hmin Ha) as (box & Hp & Hv & _ & _ & E).
  rewrite E. cbn [Run.final].
  unfold VideoOverlay.show. run_method.
  cbn [VideoOverlay.set_media_overlay VideoOverlay.relative_margins
       VideoOverlay.media_overlay].
  rewrite Hmin, Hp. cbn [negb].
  destruct box as [gp vis ml mr mb mt]. cbn in Hp, Hv. subst. reflexivity.
Qed.

Lemma show_is_idempotent_witness :
  VideoOverlay.show (Run.final (VideoOverlay.show Examples.overlay))
  = Run.Outcome (Run.final (VideoOverlay.show Examples.overlay)) [] (Py.Ok tt).
Proof.
  apply (show_is_idempotent Examples.overlay);
    try (vm_compute; reflexivity).
  split; cbn; lia.
Defined.

(** [do_hide] on the [do_stop] found on the object: it stops where
    [do_stop] raises, and goes on from the state [do_stop] leaves when it
    returns. *)
Lemma do_hide_outcome (stop : VideoOverlay.method unit)
    (self : VideoOverlay.t) :
  VideoOverlay.do_hide stop self
  = match Run.value (stop self) with
    | Py.Ok _ =>
        Run.Outcome
          (VideoOverlay.set_media_overlay
             (VideoOverlay.set_box_parent false
                (VideoOverlay.set_box_visible false
                   (VideoOverlay.media_overlay (Run.final (stop self)))))
             (Run.final (stop self)))
          (Run.calls (stop self) ++
           if VideoOverlay.get_parent
                (VideoOverlay.media_overlay (Run.final (stop self)))
           then [VideoOverlay.remove] else [])%list
          (Py.Ok false)
    | Py.Err e =>
        Run.Outcome (Run.final (stop self)) (Run.calls (stop self)) (Py.Err e)
    end.
Proof.
  unfold VideoOverlay.do_hide. run_method.
  destruct (stop self) as [s c [[]|e]]; cbn [Run.final Run.calls Run.value];
    [|reflexivity].
  destruct s as [p [gp vis ml mr mb mt] pr rpm rm tf mv].
  cbn. destruct gp; reflexivity.
Qed.

Lemma set_media_overlay_same (self : VideoOverlay.t) :
  VideoOverlay.set_media_overlay (VideoOverlay.media_overlay self) self = self.
Proof. destruct self. reflexivity. Qed.

(** X16. [do_hide] starts with [self.do_stop()].  On an instance of this
    class [do_stop] raises [NotImplementedError], and so does [do_hide],
    before anything is hidden or removed.  With the [do_stop] of a backend,
    when that raises [do_hide] raises the same exception from the state and
    after the calls of [do_stop], and does no more; when it returns,
    [do_hide] hides the box, removes it from the parent only when it is
    attached, and returns [False], so that the idle loop does not run it
    again.  The overlay then ends detached and not visible, and a second
    [do_hide], on a [do_stop] that returns again and leaves the box alone,
    adds nothing to the calls of [do_stop]: it does not remove again. *)
Theorem do_hide_detaches_once (stop : VideoOverlay.method unit)
    (self : VideoOverlay.t) :
  let stopped := stop self in
  let o := VideoOverlay.do_hide stop self in
  VideoOverlay.do_hide VideoOverlay.do_stop self
  = Run.Outcome self [] (Py.Err Py.NotImplementedError) /\
  (forall e, Run.value stopped = Py.Err e ->
     o = Run.Outcome (Run.final stopped) (Run.calls stopped) (Py.Err e)) /\
  (Run.value stopped = Py.Ok tt ->
   Run.value o = Py.Ok false /\
   Run.calls o
   = (Run.calls stopped ++
      if VideoOverlay.get_parent
           (VideoOverlay.media_overlay (Run.final stopped))
      then [VideoOverlay.remove] else [])%list /\
   Run.final o
   = VideoOverlay.set_media_overlay
       (VideoOverlay.set_box_parent false
          (VideoOverlay.set_box_visible false
             (VideoOverlay.media_overlay (Run.final stopped))))
       (Run.final stopped) /\
   VideoOverlay.get_parent (VideoOverlay.media_overlay (Run.final o)) = false /\
   VideoOverlay.visible (VideoOverlay.media_overlay (Run.final o)) = false /\
   (Run.value (stop (Run.final o)) = Py.Ok tt ->
    VideoOverlay.media_overlay (Run.final (stop (Run.final o)))
    = VideoOverlay.media_overlay (Run.final o) ->
    VideoOverlay.do_hide stop (Run.final o)
    = Run.Outcome (Run.final (stop (Run.final o)))
        (Run.calls (stop (Run.final o))) (Py.Ok false))).
Proof.
  cbv zeta. split; [reflexivity|]. split.
  - intros e He. rewrite do_hide_outcome, He. reflexivity.
  - intros Hv. rewrite (do_hide_outcome stop self), Hv.
    cbn [Run.value Run.final Run.calls].
    repeat (split; [reflexivity|]).
    match goal with
    | |- Run.value (stop ?x) = _ -> _ => set (s1 := x)
    end.
    intros Hv' Hb. rewrite do_hide_outcome, Hv'.
    set (s' := Run.final (stop s1)) in *.
    unfold s1 in Hb.
    cbn [VideoOverlay.set_media_overlay VideoOverlay.media_overlay] in Hb.
    rewrite Hb.
    cbn [VideoOverlay.set_box_parent VideoOverlay.set_box_visible
         VideoOverlay.get_parent VideoOverlay.visible
         VideoOverlay.margin_left VideoOverlay.margin_right
         VideoOverlay.margin_bottom VideoOverlay.margin_top].
    rewrite app_nil_r. f_equal.
    transitivity
      (VideoOverlay.set_media_overlay (VideoOverlay.media_overlay s') s');
      [rewrite Hb; reflexivity|apply set_media_overlay_same].
Qed.

Lemma do_hide_detaches_once_witness :
  VideoOverlay.do_hide VideoOverlay.do_stop Examples.overlay_attached
  = Run.Outcome Examples.overlay_attached [] (Py.Err Py.NotImplementedError) /\
  VideoOverlay.do_hide Examples.player_fails Examples.overlay_attached
  = Run.Outcome Examples.overlay_attached
      [VideoOverlay.backend "player.stop"] (Py.Err Py.GLibError) /\
  Run.value (VideoOverlay.do_hide Examples.player_stop Examples.overlay_attached)
  = Py.Ok false /\
  Run.calls (VideoOverlay.do_hide Examples.player_stop Examples.overlay_attached)
  = [VideoOverlay.backend "player.stop"; VideoOverlay.remove] /\
  Run.calls
    (VideoOverlay.do_hide Examples.player_stop
       (Run.final
          (VideoOverlay.do_hide Examples.player_stop
             Examples.overlay_attached)))
  = [VideoOverlay.backend "player.stop"].
Proof.
  destruct (do_hide_detaches_once Examples.player_fails
              Examples.overlay_attached) as (A & B & _).
  destruct (do_hide_detaches_once Examples.player_stop
              Examples.overlay_attached) as (_ & _ & C).
  destruct (C eq_refl) as (C1 & C2 & _ & _ & _ & C3).
  split; [exact A|]. split; [exact (B Py.GLibError eq_refl)|].
  split; [exact C1|]. split; [exact C2|].
  rewrite (C3 eq_refl eq_refl). reflexivity.
Defined.

(** X17. Hiding and showing again restores the overlay, on a backend whose
    [do_stop] returns and leaves the overlay as it is.  When no margin is
    negative, the parent has a valid allocation and the overlay starts
    detached, [do_hide] after [show] runs [do_stop], removes the overlay and
    returns [False], and a [show] after that adds it again, at position 2,
    and leaves exactly the state the first [show] had left. *)
Theorem show_hide_show (stop : VideoOverlay.method unit)
    (self : VideoOverlay.t) :
  let m := VideoOverlay.relative_margins self in
  (0 <=? VideoOverlay.margin_0 m)%float = true ->
  (0 <=? VideoOverlay.margin_1 m)%float = true ->
  (0 <=? VideoOverlay.margin_2 m)%float = true ->
  (0 <=? VideoOverlay.margin_3 m)%float = true ->
  Gtk.allocated (VideoOverlay.parent self) ->
  VideoOverlay.get_parent (VideoOverlay.media_overlay self) = false ->
  let shown := Run.final (VideoOverlay.show self) in
  Run.value (stop shown) = Py.Ok tt ->
  Run.final (stop shown) = shown ->
  let hidden := VideoOverlay.do_hide stop shown in
  let again := VideoOverlay.show (Run.final hidden) in
  Run.value hidden = Py.Ok false /\
  Run.calls hidden = (Run.calls (stop shown) ++ [VideoOverlay.remove])%list /\
  VideoOverlay.is_shown (Run.final hidden) = false /\
  again
  = Run.Outcome shown
      [VideoOverlay.add_overlay; VideoOverlay.reorder_overlay 2;
       VideoOverlay.queue_draw]
      (Py.Ok tt).
Proof.
  cbv zeta. intros P0 P1 P2 P3 Ha Hd.
  pose proof (min_margin_not_negative _ P0 P1 P2 P3) as Hmin.
  destruct Ha as [Hw Hh].
  destruct (float_of_int_allocated _ Hw) as (pw & mw & ew & Fw & _).
  destruct (float_of_int_allocated _ Hh) as (ph & mh & eh & Fh & _).
  destruct (show_accepted self Hmin (conj Hw Hh)) as (box & Hp & Hv & _ & B & E).
  specialize (B pw ph Hd Fw Fh).
  rewrite E. cbn [Run.final]. intros Sv Sf.
  rewrite do_hide_outcome, Sv, Sf.
  cbn [Run.final Run.calls Run.value].
  change (VideoOverlay.media_overlay (VideoOverlay.set_media_overlay box self))
    with box.
  rewrite Hp. split; [reflexivity|]. split; [reflexivity|].
  split; [reflexivity|].
  destruct (show_accepted
              (VideoOverlay.set_media_overlay
                 (VideoOverlay.set_box_parent false
                    (VideoOverlay.set_box_visible false box)) self))
    as (box' & _ & _ & _ & B' & E'); [exact Hmin|exact (conj Hw Hh)|].
  specialize (B' pw ph eq_refl Fw Fh).
  subst box box'. exact E'.
Qed.

Lemma show_hide_show_witness :
  Run.calls
    (VideoOverlay.do_hide Examples.player_stop
       (Run.final (VideoOverlay.show Examples.overlay)))
  = [VideoOverlay.backend "player.stop"; VideoOverlay.remove] /\
  VideoOverlay.show
    (Run.final (VideoOverlay.do_hide Examples.player_stop
                  (Run.final (VideoOverlay.show Examples.overlay))))
  = Run.Outcome (Run.final (VideoOverlay.show Examples.overlay))
      [VideoOverlay.add_overlay; VideoOverlay.reorder_overlay 2;
       VideoOverlay.queue_draw]
      (Py.Ok tt).
Proof.
  assert (A : Gtk.allocated (VideoOverlay.parent Examples.overlay))
    by (split; cbn; lia).
  assert (Sv : forall s, Run.value (Examples.player_stop s) = Py.Ok tt)
    by (intros s; reflexivity).
  assert (Sf : forall s, Run.final (Examples.player_stop s) = s)
    by (intros s; reflexivity).
  destruct (show_hide_show Examples.player_stop Examples.overlay
              eq_refl eq_refl eq_refl eq_refl A eq_refl (Sv _) (Sf _))
    as (_ & C & _ & E).
  split; [exact C|exact E].
Defined.

(** ** The margins in pixels *)

(** X18. [resize] does nothing on an overlay that is not attached.  On an
    attached overlay whose parent has a valid allocation it returns, calls
    nothing and writes the four margins of the box and nothing else: the
    left and right ones are the parent's width times the first and third
    relative margins, the top and bottom ones the parent's height times
    the second and fourth. *)
Theorem resize_scales_the_margins (self : VideoOverlay.t) :
  (VideoOverlay.get_parent (VideoOverlay.media_overlay self) = false ->
   VideoOverlay.resize self = Run.Outcome self [] (Py.Ok tt)) /\
  (VideoOverlay.get_parent (VideoOverlay.media_overlay self) = true ->
   Gtk.allocated (VideoOverlay.parent self) ->
   exists pw ph,
     Py.float_of_int (Gtk.get_allocated_width (VideoOverlay.parent self))
     = Py.Ok pw /\
     Py.float_of_int (Gtk.get_allocated_height (VideoOverlay.parent self))
     = Py.Ok ph /\
     VideoOverlay.resize self
     = Run.Outcome
         (VideoOverlay.set_media_overlay
            {| VideoOverlay.get_parent := true;
               VideoOverlay.visible :=
                 VideoOverlay.visible (VideoOverlay.media_overlay self);
               VideoOverlay.margin_left :=
                 (pw * VideoOverlay.margin_0 (VideoOverlay.relative_margins self))%float;
               VideoOverlay.margin_right :=
                 (pw * VideoOverlay.margin_2 (VideoOverlay.relative_margins self))%float;
               VideoOverlay.margin_bottom :=
                 (ph * VideoOverlay.margin_3 (VideoOverlay.relative_margins self))%float;
               VideoOverlay.margin_top :=
                 (ph * VideoOverlay.margin_1 (VideoOverlay.relative_margins self))%float |}
            self)
         [] (Py.Ok tt)).
Proof.
  split.
  - intros Hp. unfold VideoOverlay.resize, VideoOverlay.is_shown. run_method.
    rewrite Hp. reflexivity.
  - apply resize_margins.
Qed.

Lemma resize_scales_the_margins_witness :
  VideoOverlay.resize Examples.overlay
  = Run.Outcome Examples.overlay [] (Py.Ok tt) /\
  VideoOverlay.media_overlay
    (Run.final (VideoOverlay.resize Examples.overlay_attached))
  = {| VideoOverlay.get_parent := true;
       VideoOverlay.visible := false;
       VideoOverlay.margin_left := 50;
       VideoOverlay.margin_right := 50;
       VideoOverlay.margin_bottom := 50;
       VideoOverlay.margin_top := 12.5 |}%float.
Proof.
  split.
  - apply (resize_scales_the_margins Examples.overlay). reflexivity.
  - destruct (resize_scales_the_margins Examples.overlay_attached) as [_ H].
    destruct (H eq_refl) as (pw & ph & Fw & Fh & E).
    { split; cbn; lia. }
    rewrite E. vm_compute in Fw, Fh.
    injection Fw as <-. injection Fh as <-. vm_compute. reflexivity.
Defined.

(** X19. [resize] is idempotent: called again while neither the parent's
    allocation nor the relative margins have changed, it leaves the
    overlay as the first call left it, whether it returned or raised. *)
Theorem resize_is_idempotent (self : VideoOverlay.t) :
  let once := VideoOverlay.resize self in
  Run.final (VideoOverlay.resize (Run.final once)) = Run.final once /\
  Run.value (VideoOverlay.resize (Run.final once)) = Run.value once.
Proof.
  cbv zeta. unfold VideoOverlay.resize, VideoOverlay.is_shown, Py.mul_int.
  destruct self as [p [gp vis ml mr mb mt] pr rpm rm tf mv].
  run_method.
  cbn [VideoOverlay.media_overlay VideoOverlay.get_parent VideoOverlay.parent
       VideoOverlay.relative_margins].
  destruct gp; cbn [negb]; [|split; reflexivity].
  destruct (Py.float_of_int (Gtk.get_allocated_width p)) as [pw|e1] eqn:Ew;
    [destruct (Py.float_of_int (Gtk.get_allocated_height p)) as [ph|e2] eqn:Eh|];
    cbn - [Py.float_of_int]; rewrite ?Ew; cbn - [Py.float_of_int];
    rewrite ?Eh; split; reflexivity.
Qed.

(** ** The slider and the total of the label *)

Lemma Prim2SF_five : Prim2SF 5 = S754_finite false 5629499534213120 (-50).
Proof. vm_compute. reflexivity. Qed.

Lemma Prim2SF_sixty : Prim2SF 60 = S754_finite false 8444249301319680 (-47).
Proof. vm_compute. reflexivity. Qed.

Lemma ltb_irrefl (x : float) : (x <? x)%float = false.
Proof.
  rewrite ltb_spec. unfold SFltb, SFcompare.
  destruct (Prim2SF x) as [s|s| |s m e]; try reflexivity;
    try (destruct s; reflexivity).
  rewrite Z.compare_refl, Pos.compare_cont_refl. destruct s; reflexivity.
Qed.

(** What is below 5 is below 60: the exponents decide. *)
Lemma ltb_five_sixty (d : float) :
  (d <? 5)%float = true -> (d <? 60)%float = true.
Proof.
  rewrite !ltb_spec, Prim2SF_five, Prim2SF_sixty. unfold SFltb, SFcompare.
  destruct (Prim2SF d) as [s|s| |s m e]; try (intros H; exact H).
  destruct s; [intros H; exact H|].
  destruct (Z.compare_spec e (-50)) as [E|E|E].
  - subst e. intros _. reflexivity.
  - intros _. assert (C : (e ?= -47) = Lt) by (apply Z.compare_lt_iff; lia).
    rewrite C. reflexivity.
  - discriminate.
Qed.

(** The step of the slider is never above its page. *)
Lemma increments_ordered (d : float) :
  (Py.min2 60 d <? Py.min2 5 d)%float = false.
Proof.
  unfold Py.min2. destruct (d <? 5)%float eqn:A.
  - rewrite (ltb_five_sixty d A). apply ltb_irrefl.
  - destruct (d <? 60)%float eqn:B; [exact A|].
    vm_compute. reflexivity.
Qed.

(** [update_range] when the whole seconds of the total are known, and when
    rounding the total raises. *)
Lemma update_range_final v (max_time : float) (self : VideoOverlay.t) sec :
  (if (0.5 <? max_time)%float then Py.int_round v max_time else Py.Ok 1)
  = Py.Ok sec ->
  VideoOverlay.update_range v max_time self
  = Run.Outcome
      {| VideoOverlay.parent := VideoOverlay.parent self;
         VideoOverlay.media_overlay := VideoOverlay.media_overlay self;
         VideoOverlay.progress :=
           {| VideoOverlay.range := (0%float, max_time);
              VideoOverlay.increments :=
                (Py.min2 5 (max_time / 10), Py.min2 60 (max_time / 10))%float;
              VideoOverlay.scale_value :=
                VideoOverlay.scale_value (VideoOverlay.progress self) |};
         VideoOverlay.relative_page_margins :=
           VideoOverlay.relative_page_margins self;
         VideoOverlay.relative_margins := VideoOverlay.relative_margins self;
         VideoOverlay.time_format :=
           VideoOverlay.default_time_format ++ TimeText.separator
           ++ TimeText.m_ss sec;
         VideoOverlay.maxval := max_time |}
      [] (Py.Ok tt).
Proof.
  intros H. unfold VideoOverlay.update_range. run_method.
  cbn [VideoOverlay.maxval VideoOverlay.set_maxval VideoOverlay.set_progress].
  rewrite H. unfold Py.divmod. run_method.
  rewrite format_with_total, fields_m_ss. run_method.
  reflexivity.
Qed.

Lemma update_range_failed v (max_time : float) (self : VideoOverlay.t) e :
  (if (0.5 <? max_time)%float then Py.int_round v max_time else Py.Ok 1)
  = Py.Err e ->
  VideoOverlay.update_range v max_time self
  = Run.Outcome
      {| VideoOverlay.parent := VideoOverlay.parent self;
         VideoOverlay.media_overlay := VideoOverlay.media_overlay self;
         VideoOverlay.progress :=
           {| VideoOverlay.range := (0%float, max_time);
              VideoOverlay.increments :=
                (Py.min2 5 (max_time / 10), Py.min2 60 (max_time / 10))%float;
              VideoOverlay.scale_value :=
                VideoOverlay.scale_value (VideoOverlay.progress self) |};
         VideoOverlay.relative_page_margins :=
           VideoOverlay.relative_page_margins self;
         VideoOverlay.relative_margins := VideoOverlay.relative_margins self;
         VideoOverlay.time_format := VideoOverlay.time_format self;
         VideoOverlay.maxval := max_time |}
      [] (Py.Err e).
Proof.
  intros H. unfold VideoOverlay.update_range. run_method.
  cbn [VideoOverlay.maxval VideoOverlay.set_maxval VideoOverlay.set_progress].
  rewrite H. reflexivity.
Qed.

(** X20. Whether it returns or raises, [update_range] stores the
    duration, gives the slider the range from 0 to the duration and leaves
    the box, the margins and the parent alone; the step increment it sets
    is never above the page increment, whatever the duration. *)
Theorem update_range_sets_the_slider (v : Py.Version) (max_time : float)
    (self : VideoOverlay.t) :
  let s := Run.final (VideoOverlay.update_range v max_time self) in
  VideoOverlay.maxval s = max_time /\
  VideoOverlay.range (VideoOverlay.progress s) = (0%float, max_time) /\
  VideoOverlay.increments (VideoOverlay.progress s)
  = (Py.min2 5 (max_time / 10), Py.min2 60 (max_time / 10))%float /\
  (snd (VideoOverlay.increments (VideoOverlay.progress s))
   <? fst (VideoOverlay.increments (VideoOverlay.progress s)))%float = false /\
  VideoOverlay.media_overlay s = VideoOverlay.media_overlay self /\
  VideoOverlay.relative_margins s = VideoOverlay.relative_margins self /\
  VideoOverlay.parent s = VideoOverlay.parent self.
Proof.
  cbv zeta.
  destruct (if (0.5 <? max_time)%float then Py.int_round v max_time
            else Py.Ok 1) as [sec|e] eqn:H.
  - rewrite (update_range_final v max_time self sec H).
    cbn [Run.final VideoOverlay.maxval VideoOverlay.progress
         VideoOverlay.range VideoOverlay.increments
         VideoOverlay.media_overlay VideoOverlay.relative_margins
         VideoOverlay.parent fst snd].
    repeat split. apply increments_ordered.
  - rewrite (update_range_failed v max_time self e H).
    cbn [Run.final VideoOverlay.maxval VideoOverlay.progress
         VideoOverlay.range VideoOverlay.increments
         VideoOverlay.media_overlay VideoOverlay.relative_margins
         VideoOverlay.parent fst snd].
    repeat split. apply increments_ordered.
Qed.

(** A tie or more above a whole number of halves: rounding a number above
    one half gives at least 1. *)
Lemma round_mantissa_negative_exponent v m p :
  2 ^ Zpos p < 2 * Zpos m -> 1 <= Py.round_mantissa v m (Zneg p).
Proof.
  intros H. unfold Py.round_mantissa.
  assert (Hd : 0 < 2 ^ Zpos p) by (apply pow2_pos; lia).
  generalize dependent (2 ^ Zpos p). intros d H Hd.
  pose proof (Z.div_mod (Zpos m) d ltac:(lia)) as E.
  pose proof (Z.mod_pos_bound (Zpos m) d Hd) as R.
  assert (Q : 0 <= Zpos m / d) by (apply Z.div_pos; lia).
  cbv zeta.
  assert (Z0 : Zpos m / d = 0 -> Zpos m mod d = Zpos m).
  { intros Hq. rewrite Hq, Z.mul_0_r in E. lia. }
  destruct (Z.compare_spec (2 * (Zpos m mod d)) d) as [C|C|C].
  - destruct v; [lia|].
    destruct (Z.even (Zpos m / d)); [|lia].
    destruct (Z.eq_dec (Zpos m / d) 0) as [Hq|Hq]; [|lia].
    apply Z0 in Hq. lia.
  - destruct (Z.eq_dec (Zpos m / d) 0) as [Hq|Hq]; [|lia].
    apply Z0 in Hq. lia.
  - lia.
Qed.

Lemma round_mantissa_above_half v h m e :
  Zpos h = 2 ^ 52 ->
  bounded prec emax m e = true ->
  SFltb (S754_finite false h (-53)) (S754_finite false m e) = true ->
  1 <= Py.round_mantissa v m e.
Proof.
  intros Hh B H. apply bounded_canonical in B. destruct B as [C _].
  pose proof (digits2_bounds m) as [Dl _].
  unfold SFltb, SFcompare in H.
  destruct (Z.compare_spec (-53) e) as [E|E|E]; [| |discriminate].
  - subst e.
    change (Pos.compare_cont Eq h m) with (Zpos h ?= Zpos m) in H.
    destruct (Z.compare_spec (Zpos h) (Zpos m)) as [F|F|F];
      try discriminate.
    apply round_mantissa_negative_exponent.
    rewrite Hh in F. change (2 ^ 53) with (2 * 2 ^ 52). lia.
  - assert (D : Zpos (digits2_pos m) = 53) by lia.
    rewrite D in Dl. change (53 - 1) with 52 in Dl.
    destruct e as [|p|p].
    + unfold Py.round_mantissa. lia.
    + unfold Py.round_mantissa.
      assert (0 < 2 ^ Zpos p) by (apply pow2_pos; lia). nia.
    + apply round_mantissa_negative_exponent.
      assert (P : 2 ^ Zpos p <= 2 ^ 52) by (apply Z.pow_le_mono_r; lia).
      lia.
Qed.

(** The whole seconds of a duration: at least one, unless the duration is
    infinite. *)
Lemma whole_seconds v (x : float) :
  x <> infinity ->
  exists total,
    1 <= total /\
    (if (0.5 <? x)%float then Py.int_round v x else Py.Ok 1) = Py.Ok total.
Proof.
  intros Hx. destruct (0.5 <? x)%float eqn:E.
  - rewrite ltb_spec, Prim2SF_half in E.
    pose proof (Prim2SF_valid x) as V.
    unfold Py.int_round.
    destruct (Prim2SF x) as [s|s| |s m e] eqn:P.
    + discriminate E.
    + destruct s; [discriminate E|].
      exfalso. apply Hx. apply Prim2SF_inj.
      rewrite P, Prim2SF_infinity. reflexivity.
    + discriminate E.
    + destruct s; [discriminate E|].
      eexists. split; [|reflexivity].
      apply (round_mantissa_above_half v 4503599627370496 m e);
        [reflexivity|exact V|exact E].
  - exists 1. split; [lia|reflexivity].
Qed.

Lemma whole_seconds_infinity v :
  (if (0.5 <? infinity)%float then Py.int_round v infinity else Py.Ok 1)
  = Py.Err Py.OverflowError.
Proof. reflexivity. Qed.

(** X21. [update_range] raises only for an infinite duration.  For any
    other, a NaN included, it returns.  For the infinite one it raises
    [OverflowError] after the slider was given its new range and the
    duration was stored, and before the format of the label is written:
    the label keeps the total it had. *)
Theorem update_range_raises_on_infinity (v : Py.Version) (max_time : float)
    (self : VideoOverlay.t) :
  let o := VideoOverlay.update_range v max_time self in
  (max_time <> infinity -> Run.value o = Py.Ok tt) /\
  (max_time = infinity ->
   Run.value o = Py.Err Py.OverflowError /\
   VideoOverlay.maxval (Run.final o) = infinity /\
   VideoOverlay.range (VideoOverlay.progress (Run.final o))
   = (0%float, infinity) /\
   VideoOverlay.time_format (Run.final o) = VideoOverlay.time_format self).
Proof.
  cbv zeta. split.
  - intros Hx. destruct (whole_seconds v max_time Hx) as (total & _ & H).
    rewrite (update_range_final v max_time self total H). reflexivity.
  - intros ->.
    rewrite (update_range_failed v infinity self Py.OverflowError
               (whole_seconds_infinity v)).
    repeat split.
Qed.

Lemma update_range_raises_on_infinity_witness :
  Run.value (VideoOverlay.update_range Py.Py3 nan Examples.overlay)
  = Py.Ok tt /\
  Run.value (VideoOverlay.update_range Py.Py3 infinity Examples.overlay)
  = Py.Err Py.OverflowError /\
  VideoOverlay.time_format
    (Run.final (VideoOverlay.update_range Py.Py3 infinity Examples.overlay))
  = VideoOverlay.default_time_format.
Proof.
  destruct (update_range_raises_on_infinity Py.Py3 nan Examples.overlay)
    as [A _].
  destruct (update_range_raises_on_infinity Py.Py3 infinity Examples.overlay)
    as [_ B].
  destruct (B eq_refl) as (B1 & _ & _ & B2).
  split; [|split; [exact B1|exact B2]].
  apply A. intros H.
  assert (E : Prim2SF nan = Prim2SF infinity) by (rewrite H; reflexivity).
  vm_compute in E. discriminate E.
Defined.

(** X22. After [update_range] with a duration that is not infinite, the
    label of every position is the position as minutes and seconds, then a
    slash between two no-break spaces (U+00A0), then the total as minutes
    and seconds: the total does not depend on the position, it is the
    rounded duration when that is above 0.5 and one second otherwise, and
    it is never below one second. *)
Theorem label_shows_the_total (v : Py.Version) (max_time : float)
    (self : VideoOverlay.t) :
  max_time <> infinity ->
  exists total,
    1 <= total /\
    (if (0.5 <? max_time)%float then Py.int_round v max_time else Py.Ok 1)
    = Py.Ok total /\
    forall prog,
      Run.value
        (VideoOverlay.format_millis v prog
           (Run.final (VideoOverlay.update_range v max_time self)))
      = Py.rbind (Py.int_round v prog)
          (fun n => Py.Ok (TimeText.m_ss n ++ TimeText.separator
                           ++ TimeText.m_ss total)).
Proof.
  intros Hx. destruct (whole_seconds v max_time Hx) as (total & Ht & H).
  exists total. split; [exact Ht|]. split; [exact H|].
  intros prog.
  apply format_millis_with_total; [|apply brace_free_m_ss].
  rewrite (update_range_final v max_time self total H). reflexivity.
Qed.

Lemma label_shows_the_total_witness :
  Run.value
    (VideoOverlay.format_millis Py.Py3 59
       (Run.final (VideoOverlay.update_range Py.Py3 125.5 Examples.overlay)))
  = Py.Ok ("0:59" ++ TimeText.separator ++ "2:06") /\
  TimeText.separator
  = String "194" (String "160" (String "/" (String "194" (String "160" "")))).
Proof.
  split; [|reflexivity].
  destruct (label_shows_the_total Py.Py3 125.5 Examples.overlay)
    as (total & _ & H & L).
  - intros H.
    assert (E : Prim2SF 125.5 = Prim2SF infinity) by (rewrite H; reflexivity).
    vm_compute in E. discriminate E.
  - rewrite L. vm_compute in H. injection H as <-.
    vm_compute. reflexivity.
Defined.

(** X23. The last [update_range] wins: when the second of two calls is
    given a duration that is not infinite, the overlay ends exactly as if
    the first call had not been made, whether the first one returned or
    raised. *)
Theorem update_range_last_call_wins (v : Py.Version) (first second : float)
    (self : VideoOverlay.t) :
  second <> infinity ->
  VideoOverlay.update_range v second
    (Run.final (VideoOverlay.update_range v first self))
  = VideoOverlay.update_range v second self.
Proof.
  intros Hx. destruct (whole_seconds v second Hx) as (total & _ & H).
  rewrite !(update_range_final v second _ total H).
  destruct (if (0.5 <? first)%float then Py.int_round v first
            else Py.Ok 1) as [sec|e] eqn:F.
  - rewrite (update_range_final v first self sec F). reflexivity.
  - rewrite (update_range_failed v first self e F). reflexivity.
Qed.

Lemma update_range_last_call_wins_witness :
  VideoOverlay.time_format
    (Run.final
       (VideoOverlay.update_range Py.Py3 125.5
          (Run.final (VideoOverlay.update_range Py.Py3 infinity
                        Examples.overlay))))
  = "{:01}:{:02}" ++ TimeText.separator ++ "2:06".
Proof.
  rewrite (update_range_last_call_wins Py.Py3 infinity 125.5 Examples.overlay).
  - vm_compute. reflexivity.
  - intros H.
    assert (E : Prim2SF 125.5 = Prim2SF infinity) by (rewrite H; reflexivity).
    vm_compute in E. discriminate E.
Defined.

(** ** The margins of the page *)

(** X24. [update_margins_for_page] projects the margins of the PDF page,
    never margins that were projected before: after a change to one page
    type and then to another, the relative margins are those of the second
    alone.  It returns, calls nothing and leaves the box as it was; on an
    attached overlay whose parent has a valid allocation, the [resize]
    that follows sets the left margin of the box from the new
    projection. *)
Theorem update_margins_for_page_projects
    (to_screen to_other : VideoOverlay.margins -> VideoOverlay.margins)
    (self : VideoOverlay.t) :
  let o := VideoOverlay.update_margins_for_page to_screen self in
  Run.value o = Py.Ok tt /\ Run.calls o = [] /\
  VideoOverlay.relative_margins (Run.final o)
  = to_screen (VideoOverlay.relative_page_margins self) /\
  VideoOverlay.media_overlay (Run.final o) = VideoOverlay.media_overlay self /\
  VideoOverlay.update_margins_for_page to_other (Run.final o)
  = VideoOverlay.update_margins_for_page to_other self /\
  (VideoOverlay.get_parent (VideoOverlay.media_overlay self) = true ->
   Gtk.allocated (VideoOverlay.parent self) ->
   exists pw,
     Py.float_of_int (Gtk.get_allocated_width (VideoOverlay.parent self))
     = Py.Ok pw /\
     VideoOverlay.margin_left
       (VideoOverlay.media_overlay
          (Run.final (VideoOverlay.resize (Run.final o))))
     = (pw * VideoOverlay.margin_0
               (to_screen (VideoOverlay.relative_page_margins self)))%float).
Proof.
  cbv zeta. unfold VideoOverlay.update_margins_for_page. run_method.
  repeat split.
  intros Hp Ha.
  destruct (resize_margins
              (VideoOverlay.set_relative_margins
                 (to_screen (VideoOverlay.relative_page_margins self)) self)
              Hp Ha) as (pw & ph & Fw & _ & R).
  exists pw. split; [exact Fw|]. rewrite R. reflexivity.
Qed.

Lemma update_margins_for_page_projects_witness :
  VideoOverlay.margin_left
    (VideoOverlay.media_overlay
       (Run.final
          (VideoOverlay.resize
             (Run.final
                (VideoOverlay.update_margins_for_page
                   (fun m => (VideoOverlay.margin_2 m, VideoOverlay.margin_1 m,
                              VideoOverlay.margin_0 m, VideoOverlay.margin_3 m))
                   Examples.overlay_attached)))))
  = 50%float.
Proof.
  destruct (update_margins_for_page_projects
              (fun m => (VideoOverlay.margin_2 m, VideoOverlay.margin_1 m,
                         VideoOverlay.margin_0 m, VideoOverlay.margin_3 m))
              (fun m => m) Examples.overlay_attached)
    as (_ & _ & _ & _ & _ & H).
  destruct (H eq_refl) as (pw & Fw & E).
  { split; cbn; lia. }
  rewrite E. vm_compute in Fw. injection Fw as <-. vm_compute. reflexivity.
Defined.

(** ** The two versions of Python *)

(** Rounding in Python 2 is rounding in Python 3, or one more on a tie. *)
Lemma round_mantissa_versions m e :
  Py.round_mantissa Py.Py3 m e <= Py.round_mantissa Py.Py2 m e
  <= Py.round_mantissa Py.Py3 m e + 1.
Proof.
  unfold Py.round_mantissa. destruct e as [|p|p]; try lia.
  cbv zeta.
  destruct (2 * (Zpos m mod 2 ^ Zpos p) ?= 2 ^ Zpos p); try lia.
  destruct (Z.even (Zpos m / 2 ^ Zpos p)); lia.
Qed.

Lemma format_millis_class_format v (prog : float) (self : VideoOverlay.t) :
  VideoOverlay.time_format self = VideoOverlay.default_time_format ->
  Run.value (VideoOverlay.format_millis v prog self)
  = Py.rbind (Py.int_round v prog) (fun n => Py.Ok (TimeText.m_ss n)).
Proof.
  intros Hf. unfold VideoOverlay.format_millis. run_method.
  destruct (Py.int_round v prog) as [n|e]; cbn [Py.rbind]; [|reflexivity].
  unfold Py.divmod. run_method.
  rewrite Hf, format_default, fields_m_ss. reflexivity.
Qed.

(** X25. The module runs under Python 2 and under Python 3, whose [round]
    differ on ties.  With the format of the class, [format_millis] raises
    under both or under neither, and otherwise formats two counts of
    seconds that differ by at most one. *)
Theorem format_millis_python_versions (prog : float) (self : VideoOverlay.t) :
  VideoOverlay.time_format self = VideoOverlay.default_time_format ->
  let o2 := VideoOverlay.format_millis Py.Py2 prog self in
  let o3 := VideoOverlay.format_millis Py.Py3 prog self in
  (exists e, Run.value o2 = Py.Err e /\ Run.value o3 = Py.Err e) \/
  (exists n2 n3,
     Run.value o2 = Py.Ok (TimeText.m_ss n2) /\
     Run.value o3 = Py.Ok (TimeText.m_ss n3) /\
     Z.abs (n2 - n3) <= 1).
Proof.
  intros Hf. cbv zeta.
  rewrite !(format_millis_class_format _ prog self Hf).
  unfold Py.int_round.
  destruct (Prim2SF prog) as [s|s| |s m e]; cbn [Py.rbind].
  - right. exists 0, 0. repeat split. lia.
  - left. eexists. split; reflexivity.
  - left. eexists. split; reflexivity.
  - right. pose proof (round_mantissa_versions m e) as R.
    do 2 eexists. split; [reflexivity|]. split; [reflexivity|].
    destruct s; lia.
Qed.

Lemma format_millis_python_versions_witness :
  Run.value (VideoOverlay.format_millis Py.Py2 2.5 Examples.overlay)
  = Py.Ok "0:03" /\
  Run.value (VideoOverlay.format_millis Py.Py3 2.5 Examples.overlay)
  = Py.Ok "0:02".
Proof.
  destruct (format_millis_python_versions 2.5 Examples.overlay eq_refl)
    as [(e & A & _)|(n2 & n3 & _ & _ & _)].
  - vm_compute in A. discriminate A.
  - split; vm_compute; reflexivity.
Defined.
